(** * AutoFarm (tool_duo.py): the worker orchestration engine

    A shallow embedding of [src/tool_duo.py]: the resilient client
    ([DuoClient._request]), the strategy executors, the per-profile worker
    loop ([AutoFarmCLI._profile_loop]) and the command dispatcher
    ([AutoFarmCLI._handle_cmd]), followed by the properties of the design
    document that were checked against them.

    Conventions.
    - A Python [int] is a [Z]; a Python [float] is a rational [Q] (rounding
      of float arithmetic is not modelled); a [str] is a [string], read as
      its sequence of code points below 256.
    - The outside world (transport answers, clock readings, random draws,
      date parsing) is an oracle carried by [World]; every function that
      awaits runs in the state-and-exception monad [M].
    - [trace] records, oldest first, every HTTP exchange (the request and
      what came back) and every sleep; [EvCall] entries are ghost markers
      written at the entry of the client's public operations. *)

From Stdlib Require Import ZArith QArith Qminmax Lia Lqa Ascii String.
From stdpp Require Import base gmap strings list pretty.
From Equations Require Import Equations.

Local Open Scope string_scope.
Local Open Scope Z_scope.

(** ** Config *)

Definition DEFAULT_DELAY : Q := 8 # 10.
Definition GLOBAL_MIN_DELAY : Q := 4 # 10.
Definition MAX_RETRIES : Z := 4.
Definition BACKOFF_CAP : Q := 75 # 10.
Definition POLL_INTERVAL : Q := 2 # 10.   (* asyncio.sleep(0.2) while paused *)

(** ** Exceptions and the monad *)

Inductive Exn :=
| HTTPError        (* httpx.HTTPError: the transport failed *)
| ValueError
| IndexError
| AttributeError
| SystemExit.

Inductive Result (A : Type) :=
| Ok (a : A)
| Raise (e : Exn).
Arguments Ok {A} a.
Arguments Raise {A} e.

Definition M (S A : Type) : Type := S -> Result A * S.

Definition ret {S A} (a : A) : M S A := fun s => (Ok a, s).
Definition raise {S A} (e : Exn) : M S A := fun s => (Raise e, s).
Definition bind {S A B} (m : M S A) (k : A -> M S B) : M S B :=
  fun s => match m s with
           | (Ok a, s') => k a s'
           | (Raise e, s') => (Raise e, s')
           end.
Definition get {S} : M S S := fun s => (Ok s, s).
Definition modify {S} (f : S -> S) : M S unit := fun s => (Ok tt, f s).

(** [try m except Exception: h] *)
Definition catch {S A} (m : M S A) (h : Exn -> M S A) : M S A :=
  fun s => match m s with
           | (Ok a, s') => (Ok a, s')
           | (Raise e, s') => h e s'
           end.

Notation "'let*' x ':=' c 'in' k" := (bind c (fun x => k))
  (at level 10, x pattern, c at level 100, k at level 200).
Notation "c ';;' k" := (bind c (fun _ => k))
  (at level 100, k at level 200, right associativity).

(** ** Data *)

(** [UserInfo]; [streakData] is the raw mapping, of which the source reads
    only [currentStreak] and, inside it, [startDate] and [endDate]. *)
Record UserInfo := {
  username : string;
  fromLanguage : string;
  learningLanguage : string;
  streak : Z;
  totalXp : Z;
  gems : Z;
  streakData : gmap string (gmap string string)
}.

Definition with_streak (v : Z) (u : UserInfo) : UserInfo :=
  {| username := username u; fromLanguage := fromLanguage u;
     learningLanguage := learningLanguage u; streak := v;
     totalXp := totalXp u; gems := gems u; streakData := streakData u |}.
Definition with_totalXp (v : Z) (u : UserInfo) : UserInfo :=
  {| username := username u; fromLanguage := fromLanguage u;
     learningLanguage := learningLanguage u; streak := streak u;
     totalXp := v; gems := gems u; streakData := streakData u |}.
Definition with_gems (v : Z) (u : UserInfo) : UserInfo :=
  {| username := username u; fromLanguage := fromLanguage u;
     learningLanguage := learningLanguage u; streak := streak u;
     totalXp := totalXp u; gems := v; streakData := streakData u |}.

(** The addresses the client talks to. *)
Inductive Url :=
| UrlUser (sub : string)          (* /2017-06-30/users/{sub}?fields=... *)
| UrlReward (sub : string)        (* /2017-06-30/users/{sub}/rewards/{reward_id} *)
| UrlStory (from_lang : string)   (* stories: en-{fromLanguage}-the-passport/complete *)
| UrlSessions                     (* /2017-06-30/sessions *)
| UrlSession (sid : string).      (* /2017-06-30/sessions/{sid} *)

(** The parts of the request bodies that vary. *)
Inductive Payload :=
| NoBody
| RewardBody (learning from_lang : string)
| StoryBody (from_lang : string) (startTime : Z)
| SessionBody (from_lang learning : string)
| SessionUpdate (sid : string) (startTime endTime : Z).

Record Request := {
  method : string;
  url : Url;
  bearer : string;                (* headers["Authorization"] = Bearer {jwt} *)
  payload : Payload
}.

(** The decoded body of a response, as the three readers of the source see
    it: [UserInfo.from_json(j)], [int(j.get("awardedXp", 0) or 0)], the
    truth value of [j] and [j.get("id")]. *)
Record Json := {
  as_user : UserInfo;
  awardedXp : Z;
  nonempty : bool;
  session_id : option string
}.

(** [json = None]: [r.json()] raises. *)
Record Response := {
  status_code : Z;
  retry_after : option string;    (* r.headers.get("Retry-After") *)
  text : string;
  json : option Json
}.

(** What one call of [self.http.request] gives. *)
Inductive Outcome :=
| Answer (r : Response)
| Failure.                        (* raises httpx.HTTPError *)

Inductive Call :=
| CUserInfo
| CGem
| CXp
| CBump (ts : Z)
| CRepair.

Inductive Event :=
| EvRequest (rq : Request) (o : Outcome)
| EvSleep (d : Q)
| EvCall (c : Call).

Record World := {
  net : nat -> Outcome;              (* k-th answer of the transport *)
  clock : nat -> Z;                  (* k-th reading of int(time.time()) *)
  rand : nat -> Q;                   (* k-th value of random.random(), in [0, 1) *)
  fromiso : string -> option Z;      (* int(datetime.fromisoformat(s).timestamp()) *)
  sent : nat;
  ticks : nat;
  draws : nat;
  trace : list Event
}.

Definition log (e : Event) : M World unit :=
  modify (fun w =>
    {| net := net w; clock := clock w; rand := rand w; fromiso := fromiso w;
       sent := sent w; ticks := ticks w; draws := draws w;
       trace := trace w ++ [e] |}).

(** [int(time.time())] *)
Definition time_now : M World Z := fun w =>
  (Ok (clock w (ticks w)),
   {| net := net w; clock := clock w; rand := rand w; fromiso := fromiso w;
      sent := sent w; ticks := S (ticks w); draws := draws w;
      trace := trace w |}).

(** [random.random()] *)
Definition random_random : M World Q := fun w =>
  (Ok (rand w (draws w)),
   {| net := net w; clock := clock w; rand := rand w; fromiso := fromiso w;
      sent := sent w; ticks := ticks w; draws := S (draws w);
      trace := trace w |}).

(** [random.uniform(a, b)], which is [a + (b - a) * random()]. *)
Definition random_uniform (a b : Q) : M World Q :=
  let* u := random_random in
  ret (a + (b - a) * u)%Q.

(** One [await self.http.request(...)]. *)
Definition http_request (rq : Request) : M World Response := fun w =>
  let w' := {| net := net w; clock := clock w; rand := rand w;
               fromiso := fromiso w; sent := S (sent w); ticks := ticks w;
               draws := draws w;
               trace := trace w ++ [EvRequest rq (net w (sent w))] |} in
  match net w (sent w) with
  | Answer r => (Ok r, w')
  | Failure => (Raise HTTPError, w')
  end.

Definition asyncio_sleep (d : Q) : M World unit := log (EvSleep d).

(** ** Utils *)

Definition _sleep_with_jitter (base : Q) : M World unit :=
  let* j := random_uniform (- (8 # 100)) (12 # 100) in
  asyncio_sleep (Qmax GLOBAL_MIN_DELAY (base + j)).

(** [str.isdigit()] on code points below 256: the ASCII digits and the
    superscripts U+00B2, U+00B3, U+00B9. *)
Definition code (c : ascii) : Z := Z.of_N (Ascii.N_of_ascii c).
Definition is_ascii_digit (c : ascii) : bool := (48 <=? code c) && (code c <=? 57).
Definition is_digit_char (c : ascii) : bool :=
  is_ascii_digit c || (code c =? 178) || (code c =? 179) || (code c =? 185).

Fixpoint all_chars (f : ascii -> bool) (s : string) : bool :=
  match s with
  | EmptyString => true
  | String c s' => f c && all_chars f s'
  end.

Definition isdigit (s : string) : bool :=
  match s with
  | EmptyString => false
  | _ => all_chars is_digit_char s
  end.

Fixpoint decimal_value (acc : Z) (s : string) : Z :=
  match s with
  | EmptyString => acc
  | String c s' => decimal_value (10 * acc + (code c - 48)) s'
  end.

(** [float(s)] for an [s] that passed [isdigit]: the decimal value, or
    ValueError when a superscript digit is among the characters. *)
Definition float_of_digits (s : string) : Result Q :=
  if all_chars is_ascii_digit s then Ok (inject_Z (decimal_value 0 s))
  else Raise ValueError.

(** ** API client *)

Record DuoClient := {
  c_jwt : string;
  c_sub : option string;           (* _decode_sub(jwt) *)
  c_user : option UserInfo;
  c_delay : Q
}.

Definition with_user (u : option UserInfo) (c : DuoClient) : DuoClient :=
  {| c_jwt := c_jwt c; c_sub := c_sub c; c_user := u; c_delay := c_delay c |}.

Definition RETRY_STATUS : list Z := [429; 500; 502; 503; 504].
Definition retryable (r : Response) : bool :=
  bool_decide (status_code r ∈ RETRY_STATUS).

(** [min(BACKOFF_CAP, base * (2 ** (tries-1)))] *)
Definition backoff (base : Q) (tries : Z) : Q :=
  Qmin BACKOFF_CAP (base * inject_Z (2 ^ (tries - 1))).

(** [float(ra) if ra and ra.isdigit() else min(BACKOFF_CAP, 0.7 * ...)] *)
Definition retry_wait (r : Response) (tries : Z) : Result Q :=
  match retry_after r with
  | Some ra => if isdigit ra then float_of_digits ra else Ok (backoff (7 # 10) tries)
  | None => Ok (backoff (7 # 10) tries)
  end.

(** The [while True] of [_request], entered with the current [tries]. *)
Equations? _request_from (rq : Request) (tries : Z) (w : World)
  : Result Response * World by wf (Z.to_nat (MAX_RETRIES + 1 - tries)) lt :=
_request_from rq tries w with http_request rq w => {
  | (Ok r, w1) with retryable r => {
    | false => (Ok r, w1)
    | true with decide (tries + 1 > MAX_RETRIES) => {
      | left _ => (Ok r, w1)
      | right _ with retry_wait r (tries + 1) => {
        | Raise e => (Raise e, w1)
        | Ok wait =>
            _request_from rq (tries + 1) (snd (_sleep_with_jitter wait w1)) } } }
  | (Raise HTTPError, w1) with decide (tries + 1 > MAX_RETRIES) => {
    | left _ => (Raise HTTPError, w1)
    | right _ =>
        _request_from rq (tries + 1)
          (snd (_sleep_with_jitter (backoff (5 # 10) (tries + 1)) w1)) }
  | (Raise e, w1) => (Raise e, w1) }.
Proof. all: unfold MAX_RETRIES in *; lia. Qed.

Definition _request (c : DuoClient) (meth : string) (u : Url) (body : Payload)
  : M World Response :=
  _request_from {| method := meth; url := u; bearer := c_jwt c; payload := body |} 0.

(** ** Worker state *)

Record Goals := {
  target_xp : option Z;
  target_gems : option Z;
  target_streak_inc : option Z
}.

Inductive Why :=
| WhyOk                            (* "ok" *)
| WhyNoSession                     (* "no_session" *)
| WhyNoSessionId                   (* "no_session_id" *)
| WhyStatus (code : Z) (txt : string)   (* f"{r.status_code}:{r.text[:200]}" *)
| WhyCreateFail                    (* "create_fail" *)
| WhyNoUser                        (* "no_user" *)
| WhyNoCurrentStreak               (* "no_currentStreak" *)
| WhyNoChange.                     (* "no_change" *)

(** The values [last_msg] takes, one constructor per format string. *)
Inductive Msg :=
| MsgNone                          (* "" *)
| MsgJwtFail                       (* err "JWT/Info fail" *)
| MsgReady (name : string)         (* ok "Ready as {user.username}" *)
| MsgGem                           (* gem "+30 gems" *)
| MsgGemFail                       (* err "gem fail" *)
| MsgXp (gained : Z)               (* xp "+{gained} XP" *)
| MsgXpFail                        (* err "xp fail" *)
| MsgStreak                        (* streak "+1 streak" *)
| MsgStreakFail (why : Why)        (* err "streak: {why}" *)
| MsgRepaired (fixed : Z)          (* repair "repaired +{fixed}" *)
| MsgRepairFail (why : Why)        (* err "repair: {why}" *)
| MsgException (e : Exn)           (* err "exception: {e}" *)
| MsgTargets                       (* ok "Targets reached" *)
| MsgPaused
| MsgResumed
| MsgStopped
| MsgMode (new_mode : string)      (* "mode -> {new_mode}" *)
| MsgTargetsSet.                   (* "targets set" *)

Record Profile := {
  pid : Z;
  label : string;
  jwt : string;
  mode : string;     (* 'xp' | 'gem' | 'streak_farm' | 'streak_repair' | 'combo' *)
  delay : Q;
  client : DuoClient;
  running : bool;
  paused : bool;
  goals : Goals;
  baseline : gmap string Z;
  last_msg : Msg
}.

Definition with_client (c : DuoClient) (p : Profile) : Profile :=
  {| pid := pid p; label := label p; jwt := jwt p; mode := mode p;
     delay := delay p; client := c; running := running p; paused := paused p;
     goals := goals p; baseline := baseline p; last_msg := last_msg p |}.
Definition with_running (b : bool) (p : Profile) : Profile :=
  {| pid := pid p; label := label p; jwt := jwt p; mode := mode p;
     delay := delay p; client := client p; running := b; paused := paused p;
     goals := goals p; baseline := baseline p; last_msg := last_msg p |}.
Definition with_paused (b : bool) (p : Profile) : Profile :=
  {| pid := pid p; label := label p; jwt := jwt p; mode := mode p;
     delay := delay p; client := client p; running := running p; paused := b;
     goals := goals p; baseline := baseline p; last_msg := last_msg p |}.
Definition with_mode (m : string) (p : Profile) : Profile :=
  {| pid := pid p; label := label p; jwt := jwt p; mode := m;
     delay := delay p; client := client p; running := running p;
     paused := paused p; goals := goals p; baseline := baseline p;
     last_msg := last_msg p |}.
Definition with_goals (g : Goals) (p : Profile) : Profile :=
  {| pid := pid p; label := label p; jwt := jwt p; mode := mode p;
     delay := delay p; client := client p; running := running p;
     paused := paused p; goals := g; baseline := baseline p;
     last_msg := last_msg p |}.
Definition with_baseline (b : gmap string Z) (p : Profile) : Profile :=
  {| pid := pid p; label := label p; jwt := jwt p; mode := mode p;
     delay := delay p; client := client p; running := running p;
     paused := paused p; goals := goals p; baseline := b;
     last_msg := last_msg p |}.
Definition with_last_msg (m : Msg) (p : Profile) : Profile :=
  {| pid := pid p; label := label p; jwt := jwt p; mode := mode p;
     delay := delay p; client := client p; running := running p;
     paused := paused p; goals := goals p; baseline := baseline p;
     last_msg := m |}.

(** What a worker task works on: its profile (with the client the profile
    owns) and the world. Mutations survive an exception, as they do on the
    Python objects. *)
Record Task := {
  prof : Profile;
  world : World
}.

Definition io {A} (m : M World A) : M Task A := fun t =>
  let (r, w') := m (world t) in (r, {| prof := prof t; world := w' |}).

Definition on_prof (f : Profile -> Profile) : M Task unit :=
  modify (fun t => {| prof := f (prof t); world := world t |}).

Definition the_prof : M Task Profile := fun t => (Ok (prof t), t).
Definition self : M Task DuoClient := fun t => (Ok (client (prof t)), t).
Definition set_user (u : option UserInfo) : M Task unit :=
  on_prof (fun p => with_client (with_user u (client p)) p).
Definition set_msg (m : Msg) : M Task unit := on_prof (with_last_msg m).
Definition set_running (b : bool) : M Task unit := on_prof (with_running b).

(** [self.user.<field>] where the source dereferences without a test. *)
Definition self_user : M Task UserInfo :=
  let* c := self in
  match c_user c with
  | Some u => ret u
  | None => raise AttributeError
  end.

(** Truth value of an optional string: neither [None] nor [""]. *)
Definition truthy (o : option string) : bool :=
  match o with
  | Some s => negb (String.eqb s "")
  | None => false
  end.

(** ** API client, continued *)

Definition get_user_info : M Task (option UserInfo) :=
  io (log (EvCall CUserInfo));;
  let* c := self in
  match c_sub c with
  | Some sub =>
      if truthy (c_sub c) then
        let* r := io (_request c "GET" (UrlUser sub) NoBody) in
        if status_code r =? 200 then
          match json r with
          | Some j => set_user (Some (as_user j));; ret (Some (as_user j))
          | None => raise ValueError
          end
        else ret None
      else ret None
  | None => ret None
  end.

Definition farm_gem_once : M Task bool :=
  io (log (EvCall CGem));;
  let* c := self in
  match c_sub c, c_user c with
  | Some sub, Some u =>
      if truthy (c_sub c) then
        let* r := io (_request c "PATCH" (UrlReward sub)
                        (RewardBody (learningLanguage u) (fromLanguage u))) in
        ret (status_code r =? 200)
      else ret false
  | _, _ => ret false
  end.

Definition farm_xp_once : M Task Z :=
  io (log (EvCall CXp));;
  let* c := self in
  match c_user c with
  | None => ret 0
  | Some u =>
      let* now := io time_now in
      let* r := io (_request c "POST" (UrlStory (fromLanguage u))
                      (StoryBody (fromLanguage u) now)) in
      if status_code r =? 200 then
        match json r with
        | Some j => ret (awardedXp j)
        | None => raise ValueError
        end
      else ret 0
  end.

Definition _create_session : M Task (option Json) :=
  let* c := self in
  match c_user c with
  | None => ret None
  | Some u =>
      let* r := io (_request c "POST" UrlSessions
                      (SessionBody (fromLanguage u) (learningLanguage u))) in
      if status_code r =? 200 then
        match json r with
        | Some j => ret (Some j)
        | None => raise ValueError
        end
      else ret None
  end.

Definition _update_session (sess : Json) (start_ts end_ts : Z)
  : M Task (bool * Why) :=
  if negb (nonempty sess) then ret (false, WhyNoSession) else
  match session_id sess with
  | Some sid =>
      if truthy (session_id sess) then
        let* c := self in
        let* r := io (_request c "PUT" (UrlSession sid)
                        (SessionUpdate sid start_ts end_ts)) in
        if status_code r =? 200 then ret (true, WhyOk)
        else ret (false, WhyStatus (status_code r) (substring 0 200 (text r)))
      else ret (false, WhyNoSessionId)
  | None => ret (false, WhyNoSessionId)
  end.

Definition streak_bump_once (ts : Z) : M Task (bool * Why) :=
  io (log (EvCall (CBump ts)));;
  let* sess := _create_session in
  match sess with
  | Some j =>
      if nonempty j then _update_session j ts (ts + 60)
      else ret (false, WhyCreateFail)
  | None => ret (false, WhyCreateFail)
  end.

(** [_to_ts]: the parsed date, or the clock when parsing raises. *)
Definition _to_ts (date_str : string) : M Task Z :=
  io (fun w => match fromiso w date_str with
               | Some t => (Ok t, w)
               | None => time_now w
               end).

(** [range(n)] *)
Definition range (n : Z) : list Z := Z.of_nat <$> seq 0 (Z.to_nat n).

(** The [for i in range(need)] of [streak_repair]. *)
Fixpoint repair_attempts (idx : list Z) (now worked : Z) : M Task Z :=
  match idx with
  | [] => ret worked
  | i :: rest =>
      let ts := now - (i + 1) * 86400 in
      let* (ok, _) := streak_bump_once ts in
      let* worked' :=
        (if ok : bool then
           let* u := self_user in
           set_user (Some (with_streak (streak u + 1) u));;
           ret (worked + 1)
         else ret worked) in
      let* c := self in
      io (_sleep_with_jitter (c_delay c));;
      repair_attempts rest now worked'
  end.

Definition expected_streak (start_ts end_ts : Z) : Z :=
  Z.max 1 ((end_ts - start_ts) / 86400 + 1).

Definition streak_repair : M Task (Z * Why) :=
  io (log (EvCall CRepair));;
  let* c := self in
  match c_user c with
  | None => ret (0, WhyNoUser)
  | Some u =>
      let cur := default ∅ (streakData u !! "currentStreak") in
      if bool_decide (cur = ∅) then ret (0, WhyNoCurrentStreak) else
      let* start_ts := _to_ts (default "" (cur !! "startDate")) in
      let* end_ts := _to_ts (default "" (cur !! "endDate")) in
      let expected := expected_streak start_ts end_ts in
      let have := streak u in
      let need := Z.max 0 (expected - have) in
      let* now := io time_now in
      let* worked := repair_attempts (range need) now 0 in
      ret (worked, if worked =? 0 then WhyNoChange else WhyOk)
  end.

(** ** Worker *)

(** [base - max(0, user.streak - baseline.get('streak', 0)) * 86400] with
    [base = int(time.time()) - 86400]. *)
Definition next_streak_ts : M Task Z :=
  let* now := io time_now in
  let base := now - 86400 in
  let* u := self_user in
  let* p := the_prof in
  ret (base - Z.max 0 (streak u - default 0 (baseline p !! "streak")) * 86400).

Definition add_gems (n : Z) : M Task unit :=
  let* u := self_user in set_user (Some (with_gems (gems u + n) u)).
Definition add_xp (n : Z) : M Task unit :=
  let* u := self_user in set_user (Some (with_totalXp (totalXp u + n) u)).
Definition add_streak (n : Z) : M Task unit :=
  let* u := self_user in set_user (Some (with_streak (streak u + n) u)).

Definition mode_gem : M Task unit :=
  let* ok := farm_gem_once in
  if ok : bool then add_gems 30;; set_msg MsgGem
  else set_msg MsgGemFail.

Definition mode_xp : M Task unit :=
  let* gained := farm_xp_once in
  if gained >? 0 then add_xp gained;; set_msg (MsgXp gained)
  else set_msg MsgXpFail.

Definition mode_streak_farm : M Task unit :=
  let* ts := next_streak_ts in
  let* (ok, why) := streak_bump_once ts in
  if ok : bool then add_streak 1;; set_msg MsgStreak
  else set_msg (MsgStreakFail why).

Definition mode_streak_repair : M Task unit :=
  let* (fixed, why) := streak_repair in
  (if fixed >? 0 then set_msg (MsgRepaired fixed)
   else set_msg (MsgRepairFail why));;
  set_running false.

Definition mode_combo : M Task unit :=
  let* gained := farm_xp_once in
  (if gained >? 0 then add_xp gained;; set_msg (MsgXp gained) else ret tt);;
  let* c := self in
  io (_sleep_with_jitter (c_delay c));;
  let* ok := farm_gem_once in
  (if ok : bool then add_gems 30;; set_msg MsgGem else ret tt);;
  let* ts := next_streak_ts in
  let* (ok, why) := streak_bump_once ts in
  if ok : bool then add_streak 1;; set_msg MsgStreak
  else set_msg (MsgStreakFail why).

(** The [if p.mode == ... elif ...] chain of the loop body. *)
Definition strategy : M Task unit :=
  let* p := the_prof in
  if String.eqb (mode p) "gem" then mode_gem
  else if String.eqb (mode p) "xp" then mode_xp
  else if String.eqb (mode p) "streak_farm" then mode_streak_farm
  else if String.eqb (mode p) "streak_repair" then mode_streak_repair
  else if String.eqb (mode p) "combo" then mode_combo
  else ret tt.

(** [target is not None and (current - baseline.get(key, 0)) >= target] *)
Definition reached (target : option Z) (current : Z) (base : option Z) : bool :=
  match target with
  | Some t => current - default 0 base >=? t
  | None => false
  end.

Definition targets_done (p : Profile) (u : UserInfo) : bool :=
  let done := false in
  let done := if reached (target_xp (goals p)) (totalXp u) (baseline p !! "xp")
              then true else done in
  let done := if reached (target_gems (goals p)) (gems u) (baseline p !! "gems")
              then true else done in
  let done := if reached (target_streak_inc (goals p)) (streak u)
                   (baseline p !! "streak")
              then true else done in
  done.

Definition _check_targets (p : Profile) : Profile :=
  match c_user (client p) with
  | None => p
  | Some u =>
      if targets_done p u then with_last_msg MsgTargets (with_running false p)
      else p
  end.

(** Where a worker task stands between two of its turns. *)
Inductive Pc :=
| PcInit           (* before the first fetch *)
| PcLoop           (* at [while p.running] *)
| PcFinally        (* the loop is left, the [finally] block is due *)
| PcDone.          (* the coroutine has returned *)

(** [except Exception as e] of [_profile_loop] *)
Definition on_exception (e : Exn) : M Task Pc :=
  set_msg (MsgException e);; set_running false;; ret PcFinally.

(** Lines 337-344. *)
Definition startup : M Task Pc :=
  catch
    (let* user := get_user_info in
     match user with
     | None => set_msg MsgJwtFail;; set_running false;; ret PcFinally
     | Some u =>
         on_prof (with_baseline
           (<["xp" := totalXp u]> (<["gems" := gems u]>
             (<["streak" := streak u]> ∅))));;
         set_running true;;
         set_msg (MsgReady (username u));;
         ret PcLoop
     end)
    on_exception.

(** One pass through [while p.running], from the test of the condition to
    the end of the inter-iteration sleep. *)
Definition iteration : M Task Pc :=
  let* p := the_prof in
  if negb (running p) then ret PcFinally
  else if paused p then io (asyncio_sleep POLL_INTERVAL);; ret PcLoop
  else
    catch
      (strategy;;
       on_prof _check_targets;;
       let* c := self in
       io (_sleep_with_jitter (c_delay c));;
       ret PcLoop)
      on_exception.

(** The [finally] block: one more fetch, any exception swallowed. *)
Definition final_refresh : M Task Pc :=
  catch (get_user_info;; ret PcDone) (fun _ => ret PcDone).

(** ** String helpers of the dispatcher *)

(** [str.isspace()] on code points below 256. *)
Definition py_isspace (c : ascii) : bool :=
  let n := code c in
  ((9 <=? n) && (n <=? 13)) || ((28 <=? n) && (n <=? 32))
  || (n =? 133) || (n =? 160).

(** [s.split()]: the maximal runs of non-space characters. *)
Fixpoint split_go (cur : string) (s : string) : list string :=
  match s with
  | EmptyString => if String.eqb cur "" then [] else [cur]
  | String c s' =>
      if py_isspace c then
        (if String.eqb cur "" then split_go "" s' else cur :: split_go "" s')
      else split_go (cur +:+ String c "") s'
  end.
Definition py_split (s : string) : list string := split_go "" s.

Fixpoint lstrip (s : string) : string :=
  match s with
  | EmptyString => s
  | String c s' => if py_isspace c then lstrip s' else s
  end.
(** [s.strip()] *)
Definition strip (s : string) : string :=
  String.rev (lstrip (String.rev (lstrip s))).

(** [s.split(sep)] for a one-character separator. *)
Fixpoint split_on_go (sep : ascii) (cur : string) (s : string) : list string :=
  match s with
  | EmptyString => [cur]
  | String c s' =>
      if Ascii.eqb c sep then cur :: split_on_go sep "" s'
      else split_on_go sep (cur +:+ String c "") s'
  end.
Definition split_on (sep : ascii) (s : string) : list string :=
  split_on_go sep "" s.

(** [kv.split("=", 1)[1]]: what follows the first ["="]. *)
Fixpoint after_eq (kv : string) : Result string :=
  match kv with
  | EmptyString => Raise IndexError
  | String c s' => if Ascii.eqb c "="%char then Ok s' else after_eq s'
  end.

(** The digits of an integer literal: [digit (["_"] digit)*]. *)
Fixpoint int_digits (after_digit : bool) (acc : Z) (s : string) : option Z :=
  match s with
  | EmptyString => if after_digit then Some acc else None
  | String c s' =>
      if is_ascii_digit c then int_digits true (10 * acc + (code c - 48)) s'
      else if Ascii.eqb c "_"%char then
        (if after_digit then int_digits false acc s' else None)
      else None
  end.

(** [int(s)]: surrounding whitespace, an optional sign, decimal digits;
    [Raise ValueError] for anything else. *)
Definition py_int (s : string) : Result Z :=
  let parsed :=
    match strip s with
    | String "-"%char body => Z.opp <$> int_digits false 0 body
    | String "+"%char body => int_digits false 0 body
    | body => int_digits false 0 body
    end in
  match parsed with
  | Some n => Ok n
  | None => Raise ValueError
  end.

(** ** CLI app *)

(** Library functions the source calls and this development does not
    expand. [sub_of_payload s] is
    [json.loads(base64.urlsafe_b64decode(s + padding)).get("sub")], [None]
    when any of it raises or the key is absent; [py_float s] is [float(s)],
    [None] when it raises; [flask] tells whether Flask was importable. *)
Record Lib := {
  sub_of_payload : string -> option string;
  py_float : string -> option Q;
  flask : bool
}.

Definition _decode_sub (lib : Lib) (jwt_token : string) : option string :=
  match split_on "."%char jwt_token !! 1%nat with
  | Some payload => sub_of_payload lib payload
  | None => None
  end.

(** [DuoClient.__init__] *)
Definition new_client (lib : Lib) (jwt_token : string) (d : Q) : DuoClient :=
  {| c_jwt := strip jwt_token;
     c_sub := _decode_sub lib (strip jwt_token);
     c_user := None;
     c_delay := Qmax GLOBAL_MIN_DELAY d |}.

(** A profile together with the task that runs its loop. *)
Record Worker := {
  wprof : Profile;
  pc : Pc;
  history : list Event
}.

Record App := {
  workers : list Worker;
  stdin : list string;          (* lines not yet read *)
  api_enabled : bool
}.

Definition profiles (a : App) : list Profile := wprof <$> workers a.

Definition with_workers (ws : list Worker) (a : App) : App :=
  {| workers := ws; stdin := stdin a; api_enabled := api_enabled a |}.

Definition on_wprof (f : Profile -> Profile) (wk : Worker) : Worker :=
  {| wprof := f (wprof wk); pc := pc wk; history := history wk |}.

(** The profile [add_profile] builds, with its task not yet started. *)
Definition new_worker (lib : Lib) (n : nat) (lbl jwt_token md : string) (d : Q)
  : Worker :=
  {| wprof := {| pid := Z.of_nat n + 1; label := lbl; jwt := jwt_token;
                 mode := md; delay := d;
                 client := new_client lib jwt_token d;
                 running := false; paused := false;
                 goals := {| target_xp := None; target_gems := None;
                             target_streak_inc := None |};
                 baseline := ∅; last_msg := MsgNone |};
     pc := PcInit; history := [] |}.

(** [add_profile] followed by [create_task]. *)
Definition add_profile (lib : Lib) (lbl jwt_token md : string) (d : Q)
  : M App unit :=
  modify (fun a =>
    with_workers
      (workers a ++ [new_worker lib (length (workers a)) lbl jwt_token md d]) a).

(** [sys.stdin.readline()]; the empty string at end of input. *)
Definition readline : M App string := fun a =>
  (Ok (hd "" (stdin a)),
   {| workers := workers a; stdin := tl (stdin a);
      api_enabled := api_enabled a |}).

(** [next((x for x in self.profiles if x.id == pid), None)], as the index
    of the profile found. *)
Definition find_profile (n : Z) (a : App) : option nat :=
  fst <$> list_find (fun wk => pid (wprof wk) = n) (workers a).

(** In-place mutation of the profile at index [i]. *)
Definition on_profile (i : nat) (f : Profile -> Profile) : M App unit :=
  modify (fun a => with_workers (alter (on_wprof f) i (workers a)) a).

Definition lift_result {S A} (r : Result A) : M S A := fun s => (r, s).

Definition set_target_xp (v : Z) (p : Profile) : Profile :=
  with_goals {| target_xp := Some v; target_gems := target_gems (goals p);
                target_streak_inc := target_streak_inc (goals p) |} p.
Definition set_target_gems (v : Z) (p : Profile) : Profile :=
  with_goals {| target_xp := target_xp (goals p); target_gems := Some v;
                target_streak_inc := target_streak_inc (goals p) |} p.
Definition set_target_streak_inc (v : Z) (p : Profile) : Profile :=
  with_goals {| target_xp := target_xp (goals p);
                target_gems := target_gems (goals p);
                target_streak_inc := Some v |} p.

(** The [for kv in parts[2:]] of the [targets] command. *)
Fixpoint set_targets (i : nat) (kvs : list string) : M App unit :=
  match kvs with
  | [] => ret tt
  | kv :: rest =>
      (if String.prefix "xp=" kv then
         let* s := lift_result (after_eq kv) in
         let* v := lift_result (py_int s) in
         on_profile i (set_target_xp v)
       else if String.prefix "gems=" kv then
         let* s := lift_result (after_eq kv) in
         let* v := lift_result (py_int s) in
         on_profile i (set_target_gems v)
       else if String.prefix "streak+=" kv then
         let* s := lift_result (after_eq kv) in
         let* v := lift_result (py_int s) in
         on_profile i (set_target_streak_inc v)
       else ret tt);;
      set_targets i rest
  end.

Definition enable_api (lib : Lib) : M App bool :=
  if flask lib then
    modify (fun a => {| workers := workers a; stdin := stdin a;
                        api_enabled := true |});;
    ret true
  else ret false.

Definition _handle_cmd (lib : Lib) (cmd : string) : M App unit :=
  if String.eqb cmd "" then ret tt else
  let parts := py_split cmd in
  match parts with
  | [] => raise IndexError
  | verb :: _ =>
      if String.eqb verb "quit" then
        modify (fun a => with_workers (on_wprof (with_running false) <$> workers a) a);;
        raise SystemExit
      else if String.eqb verb "add" then
        let* a := get in
        let lbl := "profile" +:+ pretty (Z.of_nat (length (workers a)) + 1) in
        let* l1 := readline in
        let jwt_token := strip l1 in
        let* l2 := readline in
        let md := if String.eqb (strip l2) "" then "xp" else strip l2 in
        let* l3 := readline in
        let d := if String.eqb (strip l3) "" then DEFAULT_DELAY
                 else default DEFAULT_DELAY (py_float lib (strip l3)) in
        add_profile lib lbl jwt_token md d
      else if bool_decide (verb ∈ ["pause"; "resume"; "stop"])
              && bool_decide (2 <= length parts)%nat then
        match py_int (default "" (parts !! 1%nat)) with
        | Raise _ => ret tt
        | Ok n =>
            let* a := get in
            match find_profile n a with
            | None => ret tt
            | Some i =>
                if String.eqb verb "pause" then
                  on_profile i (fun p => with_last_msg MsgPaused (with_paused true p))
                else if String.eqb verb "resume" then
                  on_profile i (fun p => with_last_msg MsgResumed (with_paused false p))
                else
                  on_profile i (fun p => with_last_msg MsgStopped (with_running false p))
            end
        end
      else if String.eqb verb "mode" && bool_decide (3 <= length parts)%nat then
        let* n := lift_result (py_int (default "" (parts !! 1%nat))) in
        let new_mode := default "" (parts !! 2%nat) in
        let* a := get in
        match find_profile n a with
        | Some i =>
            on_profile i (fun p => with_last_msg (MsgMode new_mode) (with_mode new_mode p))
        | None => ret tt
        end
      else if String.eqb verb "targets" && bool_decide (2 <= length parts)%nat then
        let* n := lift_result (py_int (default "" (parts !! 1%nat))) in
        let* a := get in
        match find_profile n a with
        | None => ret tt
        | Some i =>
            set_targets i (drop 2 parts);;
            on_profile i (with_last_msg MsgTargetsSet)
        end
      else if String.eqb verb "api" && bool_decide (2 <= length parts)%nat
              && String.eqb (default "" (parts !! 1%nat)) "on" then
        enable_api lib;; ret tt
      else ret tt
  end.

(** ** The running system *)

(** One turn of the task of a worker, in a world [w] whose oracles are
    arbitrary and whose trace continues the worker's history. *)
Definition turn (wk : Worker) : M Task Pc :=
  match pc wk with
  | PcInit => startup
  | PcLoop => iteration
  | PcFinally => final_refresh
  | PcDone => ret PcDone
  end.

Definition resume_in (w : World) (wk : Worker) : Task :=
  {| prof := wprof wk;
     world := {| net := net w; clock := clock w; rand := rand w;
                 fromiso := fromiso w; sent := sent w; ticks := ticks w;
                 draws := draws w; trace := history wk |} |}.

Definition worker_step (w : World) (wk : Worker) : Worker :=
  match turn wk (resume_in w wk) with
  | (Ok pc', t) => {| wprof := prof t; pc := pc'; history := trace (world t) |}
  | (Raise _, t) => {| wprof := prof t; pc := PcDone; history := trace (world t) |}
  end.

(** The scheduler either lets the dispatcher consume a command or gives a
    worker task its turn. A command that raises ends the process; its
    state is kept as a successor, which only adds behaviours. *)
Inductive step (lib : Lib) : App -> App -> Prop :=
| step_cmd a cmd :
    step lib a (snd (_handle_cmd lib cmd a))
| step_worker a i wk w :
    workers a !! i = Some wk ->
    step lib a (with_workers (<[i := worker_step w wk]> (workers a)) a).

Definition steps (lib : Lib) : App -> App -> Prop := rtc (step lib).

(** ** Dashboard and command queue *)

(** One line of the table of [_render]. The placeholder the source prints
    for a profile without a user is [None]. *)
Record Row := {
  row_id : Z;
  row_label : string;
  row_user : option string;
  row_mode : string;                      (* p.mode + " (paused)" *)
  row_langs : option (string * string);   (* fromLanguage -> learningLanguage *)
  row_streak : Z;
  row_xp : Z;
  row_gems : Z;
  row_status : Msg
}.

(** What [_render] computes: the three numbers of the title and the rows. *)
Record Panel := {
  running_count : Z;
  total_xp : Z;
  total_gems : Z;
  rows : list Row
}.

Definition render_row (p : Profile) : Row :=
  let u := c_user (client p) in
  {| row_id := pid p;
     row_label := label p;
     row_user := username <$> u;
     row_mode := mode p +:+ (if paused p then " (paused)" else "");
     row_langs := (fun u => (fromLanguage u, learningLanguage u)) <$> u;
     row_streak := from_option streak 0 u;
     row_xp := from_option totalXp 0 u;
     row_gems := from_option gems 0 u;
     row_status := last_msg p |}.

(** The body of [for p in self.profiles] in [_render]. *)
Definition render_step (acc : Panel) (p : Profile) : Panel :=
  let count := if running p && negb (paused p) then running_count acc + 1
               else running_count acc in
  let xp := match c_user (client p) with
            | Some u => total_xp acc + Z.max 0 (totalXp u - default 0 (baseline p !! "xp"))
            | None => total_xp acc
            end in
  let gm := match c_user (client p) with
            | Some u => total_gems acc + Z.max 0 (gems u - default 0 (baseline p !! "gems"))
            | None => total_gems acc
            end in
  {| running_count := count; total_xp := xp; total_gems := gm;
     rows := rows acc ++ [render_row p] |}.

Definition _render (a : App) : Panel :=
  fold_left render_step (profiles a)
    {| running_count := 0; total_xp := 0; total_gems := 0; rows := [] |}.

(** The inner [while True] of [main]: the queued commands are handled in
    order until the queue is empty or a command raises. *)
Fixpoint drain (lib : Lib) (queue : list string) : M App unit :=
  match queue with
  | [] => ret tt
  | cmd :: rest => _handle_cmd lib cmd;; drain lib rest
  end.

(** ** Vocabulary of the statements *)

(** An outcome after which [_request] tries again while it may. *)
Definition transient (o : Outcome) : bool :=
  match o with
  | Answer r => retryable r
  | Failure => true
  end.

(** A [Retry-After] value that passes [isdigit] and that [float] rejects. *)
Definition bad_retry_after (r : Response) : Prop :=
  exists ra, retry_after r = Some ra /\ isdigit ra = true
             /\ all_chars is_ascii_digit ra = false.

(** The jitter [_sleep_with_jitter] adds for a value [u] of [random()], and
    the time it then sleeps. *)
Definition jitter (u : Q) : Q := (- (8 # 100) + ((12 # 100) - - (8 # 100)) * u)%Q.
Definition sleep_time (base u : Q) : Q := Qmax GLOBAL_MIN_DELAY (base + jitter u).

(** The response carries an integer [Retry-After] of value [n]. *)
Definition integer_retry_after (r : Response) (n : Z) : Prop :=
  exists ra, retry_after r = Some ra /\ ra <> ""
             /\ all_chars is_ascii_digit ra = true /\ n = decimal_value 0 ra.

(** The response carries no [Retry-After] that passes [isdigit]. *)
Definition no_retry_after (r : Response) : Prop :=
  match retry_after r with
  | Some ra => isdigit ra = false
  | None => True
  end.

(** Entered with [tries] at world [w], [_request_from] sends the request,
    sleeps [d] and re-enters the loop with [tries + 1]. *)
Definition retries_after (rq : Request) (tries : Z) (w : World) (d : Q) : Prop :=
  exists w2,
    _request_from rq tries w = _request_from rq (tries + 1) w2
    /\ trace w2 = (trace w ++ [EvRequest rq (net w (sent w)); EvSleep d])%list
    /\ sent w2 = S (sent w) /\ net w2 = net w.

(** [d] is a time [_sleep_with_jitter base] can sleep, [random()] lying in
    [0, 1). *)
Definition may_sleep (base d : Q) : Prop :=
  exists w d',
    (0 <= rand w (draws w) < 1)%Q
    /\ trace (snd (_sleep_with_jitter base w)) = (trace w ++ [EvSleep d'])%list
    /\ (d' == d)%Q.

(** ** Sample data for the worked instances *)

Module Sample.

Definition reply (code : Z) : Response :=
  {| status_code := code; retry_after := None; text := ""; json := None |}.

(** A world whose transport answers with [answers] in turn and with 404
    afterwards, whose clock stands at [now] and whose [random()] is 1/2. *)
Definition world_of (answers : list Outcome) (now : Z) : World :=
  {| net := fun k => default (Answer (reply 404)) (answers !! k);
     clock := fun _ => now;
     rand := fun _ => 1 # 2;
     fromiso := fun _ => None;
     sent := 0; ticks := 0; draws := 0; trace := [] |}.

Definition ping : Request :=
  {| method := "GET"; url := UrlSessions; bearer := "h.p.s"; payload := NoBody |}.

(** Library functions that decode nothing. *)
Definition lib : Lib :=
  {| sub_of_payload := fun _ => None; py_float := fun _ => None; flask := false |}.

Definition user : UserInfo :=
  {| username := "ana"; fromLanguage := "en"; learningLanguage := "es";
     streak := 3; totalXp := 100; gems := 30; streakData := ∅ |}.

Definition no_goals : Goals :=
  {| target_xp := None; target_gems := None; target_streak_inc := None |}.

(** Profile 1, fetched, with the given mode, flags and goals. *)
Definition profile (md : string) (run pause : bool) (g : Goals) : Profile :=
  {| pid := 1; label := "profile1"; jwt := "h.p.s"; mode := md;
     delay := DEFAULT_DELAY;
     client := {| c_jwt := "h.p.s"; c_sub := Some "7"; c_user := Some user;
                  c_delay := DEFAULT_DELAY |};
     running := run; paused := pause; goals := g;
     baseline := <["xp" := 100]> (<["gems" := 30]> (<["streak" := 3]> ∅));
     last_msg := MsgNone |}.

(** A 200 answer whose body reports [n] awarded experience. *)
Definition xp_reply (n : Z) : Response :=
  {| status_code := 200; retry_after := None; text := "";
     json := Some {| as_user := user; awardedXp := n; nonempty := true;
                     session_id := None |} |}.

(** A user three days into a streak that the record dates at five. *)
Definition streak_user : UserInfo :=
  {| username := "ana"; fromLanguage := "en"; learningLanguage := "es";
     streak := 3; totalXp := 100; gems := 30;
     streakData :=
       {[ "currentStreak" :=
            <["startDate" := "2024-01-01"]> {[ "endDate" := "2024-01-05" ]} ]} |}.

(** The world of [world_of], with the two dates above parsed. *)
Definition dated_world (answers : list Outcome) (now : Z) : World :=
  {| net := fun k => default (Answer (reply 404)) (answers !! k);
     clock := fun _ => now;
     rand := fun _ => 1 # 2;
     fromiso := fun s => if String.eqb s "2024-01-01" then Some 1704067200
                         else if String.eqb s "2024-01-05" then Some 1704412800
                         else None;
     sent := 0; ticks := 0; draws := 0; trace := [] |}.

(** A task in [streak_repair] mode for that user. *)
Definition repair_task (answers : list Outcome) : Task :=
  {| prof := {| pid := 1; label := "profile1"; jwt := "h.p.s";
                mode := "streak_repair"; delay := DEFAULT_DELAY;
                client := {| c_jwt := "h.p.s"; c_sub := Some "7";
                             c_user := Some streak_user;
                             c_delay := DEFAULT_DELAY |};
                running := true; paused := false; goals := no_goals;
                baseline := <["streak" := 3]> ∅; last_msg := MsgNone |};
     world := dated_world answers 1704500000 |}.

(** A 200 answer carrying session [sid]. *)
Definition session_reply (sid : string) : Response :=
  {| status_code := 200; retry_after := None; text := "";
     json := Some {| as_user := user; awardedXp := 0; nonempty := true;
                     session_id := Some sid |} |}.

Definition gems_goal (n : Z) : Goals :=
  {| target_xp := None; target_gems := Some n; target_streak_inc := None |}.

Definition worker (p : Profile) (at_pc : Pc) : Worker :=
  {| wprof := p; pc := at_pc; history := [] |}.

Definition app (p : Profile) (at_pc : Pc) : App :=
  {| workers := [{| wprof := p; pc := at_pc; history := [] |}];
     stdin := []; api_enabled := false |}.

End Sample.

(** ** Reading a trace *)

(** The client operations entered, in order. *)
Definition calls (tr : list Event) : list Call :=
  omap (fun e => match e with EvCall c => Some c | _ => None end) tr.

(** The requests that were answered with status 200, in order. *)
Definition ok_requests (tr : list Event) : list Request :=
  omap (fun e => match e with
                 | EvRequest rq (Answer r) =>
                     if status_code r =? 200 then Some rq else None
                 | _ => None
                 end) tr.

(** The requests sent, in order, retries included. *)
Definition requests (tr : list Event) : list Request :=
  omap (fun e => match e with EvRequest rq _ => Some rq | _ => None end) tr.

(** The sessions finalized: start time of every [PUT] answered with 200. *)
Definition finalized (tr : list Event) : list Z :=
  omap (fun rq => match payload rq with
                  | SessionUpdate _ start_ts _ => Some start_ts
                  | _ => None
                  end) (ok_requests tr).

(** ** Commands *)

(** What [pause], [resume] and [stop] write on the profile they find. *)
Definition flag_write (verb : string) (p : Profile) : Profile :=
  if String.eqb verb "pause" then with_last_msg MsgPaused (with_paused true p)
  else if String.eqb verb "resume" then with_last_msg MsgResumed (with_paused false p)
  else with_last_msg MsgStopped (with_running false p).

(** The two profiles agree on everything but the run-state flags and the
    last-status message. *)
Definition same_but_flags (p p' : Profile) : Prop :=
  pid p' = pid p /\ label p' = label p /\ jwt p' = jwt p /\ mode p' = mode p
  /\ delay p' = delay p /\ client p' = client p /\ goals p' = goals p
  /\ baseline p' = baseline p.

(** ** Reading a task *)

Definition trace_of (t : Task) : list Event := trace (world t).

(** The two worlds have the same oracles. *)
Definition same_oracles (w w' : World) : Prop :=
  net w' = net w /\ clock w' = clock w /\ rand w' = rand w
  /\ fromiso w' = fromiso w.

(** The request [_request c meth u body] sends. *)
Definition request_of (c : DuoClient) (meth : string) (u : Url) (body : Payload)
  : Request :=
  {| method := meth; url := u; bearer := c_jwt c; payload := body |}.

(** A request for the user's record. *)
Definition is_user_fetch (rq : Request) : Prop :=
  method rq = "GET" /\ exists sub, url rq = UrlUser sub.

(** The operations entered other than the fetch of the user's record: the
    strategy work. *)
Definition strategy_calls (tr : list Event) : list Call :=
  List.filter (fun c => match c with CUserInfo => false | _ => true end) (calls tr).

(** What no command takes away from a worker: its task, its client, its
    baseline; and no command sets the running flag. *)
Definition keeps (wk wk' : Worker) : Prop :=
  pc wk' = pc wk /\ history wk' = history wk
  /\ client (wprof wk') = client (wprof wk)
  /\ baseline (wprof wk') = baseline (wprof wk)
  /\ (running (wprof wk') = true -> running (wprof wk) = true).

Definition keeps_all (ws ws' : list Worker) : Prop :=
  forall i wk, ws !! i = Some wk -> exists wk', ws' !! i = Some wk' /\ keeps wk wk'.

(** The writes the dispatcher makes on a profile. *)
Definition command_write (f : Profile -> Profile) : Prop :=
  forall p, client (f p) = client p /\ baseline (f p) = baseline p
            /\ (running (f p) = true -> running p = true).

(** ** Reading a run of the system *)

(** Past its start and not running. *)
Definition stopped (wk : Worker) : Prop :=
  pc wk <> PcInit /\ running (wprof wk) = false.

Definition running_at (i : nat) (a : App) : bool :=
  default false ((fun wk => running (wprof wk)) <$> workers a !! i).

(** A run: the states the system goes through after [a]. *)
Inductive run (lib : Lib) : App -> list App -> Prop :=
| run_nil a : run lib a []
| run_cons a a' l : step lib a a' -> run lib a' l -> run lib a (a' :: l).

(** How often a flag falls from true to false along a list of readings. *)
Fixpoint falls (bs : list bool) : nat :=
  match bs with
  | b1 :: (b2 :: _) as rest => ((if b1 && negb b2 then 1 else 0) + falls rest)%nat
  | _ => 0%nat
  end.

(** The goal check met a threshold: user [u] against the profile's
    baseline and goals. *)
Definition threshold_met (p : Profile) (u : UserInfo) : Prop :=
  reached (target_xp (goals p)) (totalXp u) (baseline p !! "xp") = true
  \/ reached (target_gems (goals p)) (gems u) (baseline p !! "gems") = true
  \/ reached (target_streak_inc (goals p)) (streak u) (baseline p !! "streak") = true.

(** A worker whose client has no usable subject, and that has neither run
    nor sent anything. *)
Definition barred (wk : Worker) : Prop :=
  truthy (c_sub (client (wprof wk))) = false
  /\ running (wprof wk) = false
  /\ requests (history wk) = []
  /\ strategy_calls (history wk) = [].

(** What [farm_xp_once] reads off the answer to its request. *)
Definition awarded (resp : Response) : Result Z :=
  if status_code resp =? 200 then
    match json resp with
    | Some j => Ok (awardedXp j)
    | None => Raise ValueError
    end
  else Ok 0.

(** The profile after a gain of [g] experience was recorded, and after a
    failure was. *)
Definition xp_gained (g : Z) (u : UserInfo) (p : Profile) : Profile :=
  with_last_msg (MsgXp g)
    (with_client (with_user (Some (with_totalXp (totalXp u + g) u)) (client p)) p).
Definition xp_failed (p : Profile) : Profile := with_last_msg MsgXpFail p.

(** [t'] is [t] after an operation that left the profile alone and added
    [new] to the trace. *)
Definition adds (t t' : Task) (new : list Event) : Prop :=
  prof t' = prof t
  /\ trace_of t' = (trace_of t ++ new)%list
  /\ same_oracles (world t) (world t')
  /\ ticks (world t') = ticks (world t).

(** What a streak action that added [mid] reports, when it returns: success
    goes with one session finalized at [ts], failure with none. *)
Definition bump_outcome (ts : Z) (mid : list Event) (res : Result (bool * Why))
  : Prop :=
  match res with
  | Ok (true, why) => why = WhyOk /\ finalized mid = [ts]
  | Ok (false, _) => finalized mid = []
  | Raise _ => finalized mid = []
  end.

(** A step of the loop's own bookkeeping: it leaves the world and the
    client's delay alone. *)
Definition bookkeeping (m : M Task unit) : Prop :=
  forall t, world (snd (m t)) = world t
            /\ c_delay (client (prof (snd (m t)))) = c_delay (client (prof t)).

(** The event lists of a rotating-combo iteration whose three phases all
    returned: the experience phase, one jittered delay [d], the currency
    phase, the streak phase at [ts]. *)
Definition combo_trace (m1 : list Event) (d : Q) (m2 : list Event) (ts : Z)
    (m3 : list Event) : list Event :=
  (EvCall CXp :: m1 ++ EvSleep d :: EvCall CGem :: m2 ++ EvCall (CBump ts) :: m3)%list.

(** ** Reading a streak repair *)

(** [_to_ts s] with the clock at its [k]-th reading: the value, and the
    readings used so far. *)
Definition reading (w : World) (k : nat) (s : string) : Z * nat :=
  match fromiso w s with
  | Some x => (x, k)
  | None => (clock w k, S k)
  end.

(** The start and end timestamps and the [now] that [streak_repair] reads,
    in that order, for the streak record [cur]. *)
Definition repair_readings (w : World) (cur : gmap string string) : Z * Z * Z :=
  let first := reading w (ticks w) (default "" (cur !! "startDate")) in
  let second := reading w (snd first) (default "" (cur !! "endDate")) in
  (fst first, fst second, clock w (snd second)).

(** The timestamps of the backfill attempts for the indices [idx]. *)
Definition stamps (now : Z) (idx : list Z) : list Z :=
  (fun i => now - (i + 1) * 86400) <$> idx.

(** The events of one backfill attempt that returned: the streak action at
    [ts], its exchanges, then the jittered delay. *)
Definition attempt (d : Q) (ts : Z) (seg : list Event) : Prop :=
  exists mid rnd,
    seg = (EvCall (CBump ts) :: mid ++ [EvSleep (sleep_time d rnd)])%list
    /\ calls mid = [].

(** The user record with [n] more days of streak. *)
Definition repaired (n : nat) (u : UserInfo) : UserInfo :=
  with_streak (streak u + Z.of_nat n) u.

(** The task as [streak_repair] enters its loop: the call marker logged
    and the clock read for the two dates and for [now]. *)
Definition repair_start (t : Task) (cur : gmap string string) : Task :=
  let w := world t in
  let first := reading w (ticks w) (default "" (cur !! "startDate")) in
  let second := reading w (snd first) (default "" (cur !! "endDate")) in
  {| prof := prof t;
     world := {| net := net w; clock := clock w; rand := rand w;
                 fromiso := fromiso w; sent := sent w;
                 ticks := S (snd second); draws := draws w;
                 trace := trace w ++ [EvCall CRepair] |} |}.

(** ** Further vocabulary *)

(** [wk'] is [wk] with its task where it was and its profile related by
    [Rp]. *)
Definition touched (Rp : Profile -> Profile -> Prop) (wk wk' : Worker) : Prop :=
  pc wk' = pc wk /\ history wk' = history wk /\ Rp (wprof wk) (wprof wk').

(** What a command can make of the list of workers: the same workers,
    their profiles related by [Rp], or the same list with one new worker
    behind it. *)
Definition commanded (Rp : Profile -> Profile -> Prop) (lib : Lib)
    (ws ws' : list Worker) : Prop :=
  Forall2 (touched Rp) ws ws'
  \/ exists lbl jwt_token md d,
       ws' = (ws ++ [new_worker lib (length ws) lbl jwt_token md d])%list.

(** The verbs [_handle_cmd] knows. *)
Definition verbs : list string :=
  ["quit"; "add"; "pause"; "resume"; "stop"; "mode"; "targets"; "api"].

(** No threshold that [g] sets is missing from [g']. *)
Definition goals_kept (g g' : Goals) : Prop :=
  (is_Some (target_xp g) -> is_Some (target_xp g'))
  /\ (is_Some (target_gems g) -> is_Some (target_gems g'))
  /\ (is_Some (target_streak_inc g) -> is_Some (target_streak_inc g')).

(** Identifiers count the profiles from 1, in list order. *)
Definition ids_in_order (ws : list Worker) : Prop :=
  forall i wk, ws !! i = Some wk -> pid (wprof wk) = Z.of_nat i + 1.

(** What a worker's own code never writes on its profile. *)
Definition fixed_fields (p p' : Profile) : Prop :=
  pid p' = pid p /\ label p' = label p /\ jwt p' = jwt p /\ mode p' = mode p
  /\ delay p' = delay p /\ goals p' = goals p /\ paused p' = paused p
  /\ c_jwt (client p') = c_jwt (client p) /\ c_sub (client p') = c_sub (client p)
  /\ c_delay (client p') = c_delay (client p).

(** From [t] to [t'] the trace was only extended, every request added
    carries the token of the profile's client, and the fields above stand. *)
Definition own_trace (t t' : Task) : Prop :=
  fixed_fields (prof t) (prof t')
  /\ exists new,
       trace_of t' = (trace_of t ++ new)%list
       /\ Forall (fun rq => bearer rq = c_jwt (client (prof t))) (requests new).

(** No counter of [u] is above its counterpart in [u']. *)
Definition counters_le (u u' : UserInfo) : Prop :=
  totalXp u <= totalXp u' /\ gems u <= gems u' /\ streak u <= streak u'.

(** From [t] to [t'] the baseline stands and the user's counters did not
    fall. *)
Definition gains (t t' : Task) : Prop :=
  baseline (prof t') = baseline (prof t)
  /\ match c_user (client (prof t)) with
     | Some u => exists u', c_user (client (prof t')) = Some u' /\ counters_le u u'
     | None => c_user (client (prof t')) = None
     end.

Definition steady (t t' : Task) : Prop := own_trace t t' /\ gains t t'.

(** The user's counters are at or above the baseline's. *)
Definition above_baseline (p : Profile) : Prop :=
  exists u, c_user (client p) = Some u
            /\ default 0 (baseline p !! "xp") <= totalXp u
            /\ default 0 (baseline p !! "gems") <= gems u
            /\ default 0 (baseline p !! "streak") <= streak u.

(** What holds of every worker of a system that started with no profile. *)
Definition worker_inv (wk : Worker) : Prop :=
  c_jwt (client (wprof wk)) = strip (jwt (wprof wk))
  /\ Forall (fun rq => bearer rq = c_jwt (client (wprof wk))) (requests (history wk))
  /\ (pc wk = PcLoop -> above_baseline (wprof wk))
  /\ (GLOBAL_MIN_DELAY <= c_delay (client (wprof wk)))%Q.

Definition app_inv (a : App) : Prop :=
  ids_in_order (workers a) /\ Forall worker_inv (workers a).

(** What no command writes. *)
Definition command_frame (p p' : Profile) : Prop :=
  pid p' = pid p /\ label p' = label p /\ jwt p' = jwt p /\ delay p' = delay p
  /\ client p' = client p /\ baseline p' = baseline p.

(** A command that names a known verb and lacks what the verb needs. *)
Definition incomplete (verb : string) (rest : list string) : Prop :=
  (verb ∈ ["pause"; "resume"; "stop"; "targets"; "api"] /\ rest = [])
  \/ (verb = "mode" /\ (length rest < 2)%nat)
  \/ (verb = "api" /\ forall arg more, rest = arg :: more -> arg <> "on").

(** What a profile adds to the two totals of the title of [_render]. *)
Definition xp_delta (p : Profile) : Z :=
  match c_user (client p) with
  | Some u => Z.max 0 (totalXp u - default 0 (baseline p !! "xp"))
  | None => 0
  end.
Definition gems_delta (p : Profile) : Z :=
  match c_user (client p) with
  | Some u => Z.max 0 (gems u - default 0 (baseline p !! "gems"))
  | None => 0
  end.
Definition sum_of (f : Profile -> Z) (ps : list Profile) : Z :=
  foldr (fun p s => f p + s) 0 ps.

(** No ["."] in [s]. *)
Fixpoint dotless (s : string) : bool :=
  match s with
  | EmptyString => true
  | String c s' => negb (Ascii.eqb c "."%char) && dotless s'
  end.

(** The baseline the first turn takes from the fetched user. *)
Definition fetched_baseline (u : UserInfo) : gmap string Z :=
  <["xp" := totalXp u]> (<["gems" := gems u]> (<["streak" := streak u]> ∅)).

(** The profile after a reward of 30 gems, and after one more day of
    streak, was recorded. *)
Definition gems_gained (u : UserInfo) (p : Profile) : Profile :=
  with_last_msg MsgGem
    (with_client (with_user (Some (with_gems (gems u + 30) u)) (client p)) p).
Definition streak_gained (u : UserInfo) (p : Profile) : Profile :=
  with_last_msg MsgStreak
    (with_client (with_user (Some (with_streak (streak u + 1) u)) (client p)) p).

(** The modes the loop knows. *)
Definition modes : list string :=
  ["gem"; "xp"; "streak_farm"; "streak_repair"; "combo"].

(** No threshold is set. *)
Definition no_goal (g : Goals) : Prop :=
  target_xp g = None /\ target_gems g = None /\ target_streak_inc g = None.

(** A run that starts with no profile: one is added in [gem] mode, its
    task fetches the user and makes one rewarded iteration. *)
Module Demo.

Definition lib : Lib :=
  {| sub_of_payload := fun s => if String.eqb s "p" then Some "7" else None;
     py_float := fun _ => None; flask := false |}.

Definition start : App :=
  {| workers := []; stdin := ["h.p.s"; "gem"; ""]; api_enabled := false |}.

Definition added : App := snd (_handle_cmd lib "add" start).

Definition step_of (w : World) (a : App) : App :=
  match workers a !! 0%nat with
  | Some wk => with_workers (<[0%nat := worker_step w wk]> (workers a)) a
  | None => a
  end.

Definition fetched : App :=
  step_of (Sample.world_of [Answer (Sample.xp_reply 0)] 0) added.

Definition rewarded : App :=
  step_of (Sample.world_of [Answer (Sample.reply 200)] 0) fetched.

End Demo.

(** * Properties *)

(** ** The resilient client *)

Lemma request_from_eq rq tries w :
  _request_from rq tries w =
  match http_request rq w with
  | (Ok r, w1) =>
      if retryable r then
        if decide (tries + 1 > MAX_RETRIES) then (Ok r, w1)
        else match retry_wait r (tries + 1) with
             | Raise e => (Raise e, w1)
             | Ok wait =>
                 _request_from rq (tries + 1) (snd (_sleep_with_jitter wait w1))
             end
      else (Ok r, w1)
  | (Raise HTTPError, w1) =>
      if decide (tries + 1 > MAX_RETRIES) then (Raise HTTPError, w1)
      else _request_from rq (tries + 1)
             (snd (_sleep_with_jitter (backoff (5 # 10) (tries + 1)) w1))
  | (Raise e, w1) => (Raise e, w1)
  end.
Proof.
  simp _request_from.
  destruct (http_request rq w) as [[r|e] w1]; simpl.
  - destruct (retryable r); simpl; [|done].
    destruct (decide (tries + 1 > MAX_RETRIES)); simpl; [done|].
    destruct (retry_wait r (tries + 1)); done.
  - destruct e; simpl; try done.
    destruct (decide (tries + 1 > MAX_RETRIES)); done.
Qed.

Lemma http_request_frame rq w :
  let w1 := snd (http_request rq w) in
  net w1 = net w /\ sent w1 = S (sent w) /\ rand w1 = rand w
  /\ draws w1 = draws w /\ clock w1 = clock w /\ ticks w1 = ticks w
  /\ fromiso w1 = fromiso w
  /\ trace w1 = (trace w ++ [EvRequest rq (net w (sent w))])%list.
Proof. unfold http_request. destruct (net w (sent w)); simpl; auto 10. Qed.

Lemma http_request_result rq w :
  fst (http_request rq w) =
  match net w (sent w) with Answer r => Ok r | Failure => Raise HTTPError end.
Proof. unfold http_request. by destruct (net w (sent w)). Qed.

Lemma sleep_with_jitter_frame base w :
  let w1 := snd (_sleep_with_jitter base w) in
  fst (_sleep_with_jitter base w) = Ok tt
  /\ net w1 = net w /\ sent w1 = sent w /\ rand w1 = rand w
  /\ draws w1 = S (draws w) /\ clock w1 = clock w /\ ticks w1 = ticks w
  /\ fromiso w1 = fromiso w
  /\ trace w1 = (trace w ++ [EvSleep (sleep_time base (rand w (draws w)))])%list.
Proof. cbv [_sleep_with_jitter random_uniform random_random asyncio_sleep log
            modify bind ret]. simpl. auto 10. Qed.

(** What [_request_from] does when it is entered with [m] retries left. *)
Lemma request_from_spec rq (m : nat) : forall tries w,
  tries = MAX_RETRIES - Z.of_nat m ->
  exists n : nat,
    (1 <= n <= S m)%nat
    /\ sent (snd (_request_from rq tries w)) = (sent w + n)%nat
    /\ net (snd (_request_from rq tries w)) = net w
    /\ (forall k, (k < n - 1)%nat -> transient (net w (sent w + k)%nat) = true)
    /\ match fst (_request_from rq tries w) with
       | Ok r => net w (sent w + n - 1)%nat = Answer r
                 /\ (retryable r = true -> n = S m)
       | Raise HTTPError => net w (sent w + n - 1)%nat = Failure /\ n = S m
       | Raise e => e = ValueError
                    /\ exists r, net w (sent w + n - 1)%nat = Answer r
                                 /\ retryable r = true /\ bad_retry_after r
       end.
Proof.
  assert (Hlast : forall s, (s + 1 - 1)%nat = s) by (intros; lia).
  assert (Hone : forall (w : World) k, (k < 1 - 1)%nat ->
            transient (net w (sent w + k)%nat) = true) by (intros; lia).
  induction m as [|m IH]; intros tries w Htries; rewrite request_from_eq;
    destruct (http_request_frame rq w) as (Hnet & Hsent & _);
    pose proof (http_request_result rq w) as Hres;
    destruct (http_request rq w) as [res w1]; cbn [fst snd] in *; subst res.
  - (* no retry left *)
    exists 1%nat. rewrite Hlast.
    destruct (decide (tries + 1 > MAX_RETRIES)) as [_|Hn];
      [|unfold MAX_RETRIES in *; lia].
    destruct (net w (sent w)) as [r|] eqn:Ho; [destruct (retryable r) eqn:Hr|];
      cbn [fst snd]; repeat split; auto; try lia; congruence.
  - (* at least one retry left *)
    assert (Hnext : tries + 1 = MAX_RETRIES - Z.of_nat m) by lia.
    destruct (decide (tries + 1 > MAX_RETRIES)) as [Hgt|_];
      [unfold MAX_RETRIES in *; lia|].
    assert (Hgo : forall base,
      let w2 := snd (_sleep_with_jitter base w1) in
      transient (net w (sent w)) = true ->
      exists n : nat,
        (1 <= n <= S (S m))%nat
        /\ sent (snd (_request_from rq (tries + 1) w2)) = (sent w + n)%nat
        /\ net (snd (_request_from rq (tries + 1) w2)) = net w
        /\ (forall k, (k < n - 1)%nat -> transient (net w (sent w + k)%nat) = true)
        /\ match fst (_request_from rq (tries + 1) w2) with
           | Ok r => net w (sent w + n - 1)%nat = Answer r
                     /\ (retryable r = true -> n = S (S m))
           | Raise HTTPError => net w (sent w + n - 1)%nat = Failure /\ n = S (S m)
           | Raise e => e = ValueError
                        /\ exists r, net w (sent w + n - 1)%nat = Answer r
                                     /\ retryable r = true /\ bad_retry_after r
           end).
    { intros base w2 Htr.
      destruct (sleep_with_jitter_frame base w1) as (_ & Hn2 & Hs2 & _).
      fold w2 in Hn2, Hs2.
      destruct (IH (tries + 1) w2 Hnext) as (n & Hn & Hs & Hnt & Hpre & Hpost).
      rewrite Hn2, Hnet in Hnt, Hpre, Hpost.
      rewrite Hs2, Hsent in Hs, Hpre, Hpost.
      exists (S n). split; [lia|]. split; [rewrite Hs; lia|]. split; [done|].
      split.
      - intros k Hk. destruct k as [|k]; [by rewrite Nat.add_0_r|].
        replace (sent w + S k)%nat with (S (sent w) + k)%nat by lia.
        apply Hpre. lia.
      - replace (sent w + S n - 1)%nat with (S (sent w) + n - 1)%nat by lia.
        destruct (fst (_request_from rq (tries + 1) w2)) as [r'|[]];
          destruct Hpost as [Hp1 Hp2]; (split; [done|]); try done; try lia.
        intros Hr'. rewrite (Hp2 Hr'). done. }
    destruct (net w (sent w)) as [r|] eqn:Ho.
    + destruct (retryable r) eqn:Hr.
      * destruct (retry_wait r (tries + 1)) as [wait|e] eqn:Hw.
        -- apply Hgo. done.
        -- exists 1%nat. rewrite Hlast. cbn [fst snd].
           unfold retry_wait in Hw.
           destruct (retry_after r) as [ra|] eqn:Hra; [|done].
           destruct (isdigit ra) eqn:Hd; [|done].
           unfold float_of_digits in Hw.
           destruct (all_chars is_ascii_digit ra) eqn:Ha; [done|].
           inversion Hw; subst e.
           repeat split; auto; try lia.
           exists r. repeat split; auto. exists ra. auto.
      * exists 1%nat. rewrite Hlast. cbn [fst snd].
        repeat split; auto; try lia; congruence.
    + apply Hgo. done.
Qed.

Lemma request_first_answer rq tries w r :
  net w (sent w) = Answer r -> retryable r = false ->
  fst (_request_from rq tries w) = Ok r
  /\ sent (snd (_request_from rq tries w)) = S (sent w)
  /\ trace (snd (_request_from rq tries w)) = (trace w ++ [EvRequest rq (Answer r)])%list.
Proof.
  intros Ho Hr. rewrite request_from_eq.
  destruct (http_request_frame rq w) as (_ & Hsent & _ & _ & _ & _ & _ & Htr).
  pose proof (http_request_result rq w) as Hres. rewrite Ho in Hres.
  destruct (http_request rq w) as [res w1]; cbn [fst snd] in *; subst res.
  rewrite Hr, Ho in *. done.
Qed.

(** C2. [_request] makes between one and 1 + MAX_RETRIES attempts; every
    attempt but the last met a transport failure or a status in
    {429, 500, 502, 503, 504}; a response it returns is the answer to its
    last attempt, unchanged, and is retryable only when the retries are
    used up; it raises the transport failure only when the last of
    1 + MAX_RETRIES attempts failed; a response with any other status is
    returned at once, and at the first attempt without a sleep. (The one
    other exit is the ValueError of [float] on a [Retry-After] of
    superscript digits.) *)
Theorem request_retry_policy c meth u body w :
  let rq := {| method := meth; url := u; bearer := c_jwt c; payload := body |} in
  let res := fst (_request c meth u body w) in
  let w' := snd (_request c meth u body w) in
  let n := (sent w' - sent w)%nat in
  let last := net w (sent w + n - 1)%nat in
  (1 <= n <= 1 + Z.to_nat MAX_RETRIES)%nat
  /\ (forall k, (k < n - 1)%nat -> transient (net w (sent w + k)%nat) = true)
  /\ (forall r, res = Ok r ->
        last = Answer r /\ (retryable r = true -> n = (1 + Z.to_nat MAX_RETRIES)%nat))
  /\ (forall e, res = Raise e ->
        (e = HTTPError /\ last = Failure /\ n = (1 + Z.to_nat MAX_RETRIES)%nat)
        \/ (e = ValueError
            /\ exists r, last = Answer r /\ retryable r = true /\ bad_retry_after r))
  /\ (forall k r, (k < n)%nat -> net w (sent w + k)%nat = Answer r ->
        retryable r = false -> res = Ok r /\ n = S k)
  /\ (forall r, net w (sent w) = Answer r -> retryable r = false ->
        res = Ok r /\ trace w' = (trace w ++ [EvRequest rq (Answer r)])%list)
  /\ ((forall k, (k < 1 + Z.to_nat MAX_RETRIES)%nat ->
         net w (sent w + k)%nat = Failure) ->
      res = Raise HTTPError /\ n = (1 + Z.to_nat MAX_RETRIES)%nat)
  /\ ((forall k, (k < 1 + Z.to_nat MAX_RETRIES)%nat ->
         exists r, net w (sent w + k)%nat = Answer r /\ retryable r = true
                   /\ retry_after r = None) ->
      exists r, net w (sent w + Z.to_nat MAX_RETRIES)%nat = Answer r
                /\ res = Ok r /\ n = (1 + Z.to_nat MAX_RETRIES)%nat).
Proof.
  intros rq res w' n last.
  destruct (request_from_spec rq 4 0 w eq_refl) as (n' & Hn & Hs & _ & Hpre & Hpost).
  change (_request_from rq 0 w) with (_request c meth u body w) in Hs, Hpost.
  fold res in Hpost. fold w' in Hs.
  assert (Hnn : n' = n) by (unfold n; lia). subst n'.
  fold last in Hpost.
  change (1 + Z.to_nat MAX_RETRIES)%nat with 5%nat.
  change (Z.to_nat MAX_RETRIES) with 4%nat.
  assert (Hex : forall k r, (k < n)%nat -> net w (sent w + k)%nat = Answer r ->
            retryable r = false -> res = Ok r /\ n = S k).
  { intros k r Hk Ho Hr.
    destruct (decide (k < n - 1)%nat) as [Hlt|Hge].
    - specialize (Hpre k Hlt). rewrite Ho in Hpre. simpl in Hpre. congruence.
    - assert (Hk' : (sent w + n - 1)%nat = (sent w + k)%nat) by lia.
      unfold last in Hpost. rewrite Hk', Ho in Hpost.
      destruct res as [r'|[]]; try (destruct Hpost as [? ?]; done).
      + destruct Hpost as [Heq _]. inversion Heq. split; [done|lia].
      + destruct Hpost as [_ (r' & Heq & Hr' & _)]. congruence. }
  split; [lia|]. split; [done|]. split.
  { intros r Hr. rewrite Hr in Hpost. done. }
  split.
  { intros e He. rewrite He in Hpost.
    destruct e; try (destruct Hpost as [? ?]; done).
    - left. tauto.
    - right. tauto. }
  split; [done|]. split.
  { intros r Ho Hr. split; apply (request_first_answer rq 0 w r Ho Hr). }
  split.
  { intros Hall.
    assert (Hl : last = Failure).
    { unfold last. replace (sent w + n - 1)%nat with (sent w + (n - 1))%nat by lia.
      apply Hall. lia. }
    destruct res as [r'|[]]; rewrite Hl in Hpost;
      try (destruct Hpost as [? ?]; done).
    destruct Hpost as [_ (r' & ? & _)]. done. }
  intros Hall.
  destruct (Hall (n - 1)%nat ltac:(lia)) as (r & Ho & Hr & Hra).
  replace (sent w + (n - 1))%nat with (sent w + n - 1)%nat in Ho by lia.
  fold last in Ho.
  destruct res as [r'|[]]; rewrite Ho in Hpost;
    try (destruct Hpost as [? ?]; done).
  - destruct Hpost as [Heq Hfull]. inversion Heq; subst r'.
    specialize (Hfull Hr).
    exists r. split; [|done].
    unfold last in Ho. rewrite Hfull in Ho.
    replace (sent w + 4)%nat with (sent w + 5 - 1)%nat by lia. done.
  - destruct Hpost as [_ (r' & Heq & _ & (ra & Hbad & _))].
    inversion Heq; subst r'. congruence.
Qed.

(** The two runs of the design's test list: 429, 429, 200 gives the 200
    after two retries; 429 throughout gives the fifth 429 back. *)
Example request_429_429_200 :
  let w := Sample.world_of [Answer (Sample.reply 429); Answer (Sample.reply 429);
                            Answer (Sample.reply 200)] 0 in
  fst (_request_from Sample.ping 0 w) = Ok (Sample.reply 200)
  /\ sent (snd (_request_from Sample.ping 0 w)) = 3%nat.
Proof. vm_compute. split; reflexivity. Qed.

Example request_429_throughout :
  let w := Sample.world_of (replicate 9 (Answer (Sample.reply 429))) 0 in
  fst (_request_from Sample.ping 0 w) = Ok (Sample.reply 429)
  /\ sent (snd (_request_from Sample.ping 0 w)) = 5%nat.
Proof. vm_compute. split; reflexivity. Qed.

Lemma retry_on_answer rq tries w r b :
  tries < MAX_RETRIES -> net w (sent w) = Answer r -> retryable r = true ->
  retry_wait r (tries + 1) = Ok b ->
  retries_after rq tries w (sleep_time b (rand w (draws w))).
Proof.
  intros Hlt Ho Hr Hb. unfold retries_after.
  rewrite request_from_eq.
  destruct (http_request_frame rq w) as (Hnet & Hsent & Hrand & Hdraws & _ & _ & _ & Htr).
  pose proof (http_request_result rq w) as Hres. rewrite Ho in Hres.
  destruct (http_request rq w) as [res w1]; cbn [fst snd] in *; subst res.
  rewrite Hr, Hb.
  destruct (decide (tries + 1 > MAX_RETRIES)) as [Hgt|_]; [lia|].
  destruct (sleep_with_jitter_frame b w1) as (_ & Hn2 & Hs2 & _ & _ & _ & _ & _ & Ht2).
  exists (snd (_sleep_with_jitter b w1)).
  split; [done|]. rewrite Ht2, Htr, Hn2, Hs2, Hrand, Hdraws, <- app_assoc. done.
Qed.

Lemma isdigit_ascii ra :
  ra <> "" -> all_chars is_ascii_digit ra = true -> isdigit ra = true.
Proof.
  intros Hne Hall. destruct ra as [|c s]; [done|]. unfold isdigit.
  remember (String c s) as t eqn:Ht. clear Ht Hne.
  induction t as [|c' t IH]; [done|]. simpl in *.
  apply andb_prop in Hall as [Hc Ht]. unfold is_digit_char. rewrite Hc. simpl.
  by apply IH.
Qed.

Lemma jitter_range u : (0 <= u < 1)%Q -> (- (8 # 100) <= jitter u < 12 # 100)%Q.
Proof. unfold jitter. intros [H0 H1]. split; lra. Qed.

Lemma sleep_time_floor base u : (GLOBAL_MIN_DELAY <= sleep_time base u)%Q.
Proof. unfold sleep_time. apply Q.le_max_l. Qed.

(** C7, as amended. At retry [t = tries + 1] on a retryable response the
    client sleeps [max(GLOBAL_MIN_DELAY, b + j)] before it asks again, where
    [j = -0.08 + 0.2 * random()] lies in [-0.08, 0.12) and [b] is
    [min(BACKOFF_CAP, 0.7 * 2^(t-1))], or the value of the [Retry-After]
    header when that is an integer. *)
Theorem retry_wait_interval rq tries w r :
  0 <= tries < MAX_RETRIES ->
  net w (sent w) = Answer r ->
  retryable r = true ->
  let t := tries + 1 in
  let u := rand w (draws w) in
  (no_retry_after r ->
     retries_after rq tries w
       (Qmax GLOBAL_MIN_DELAY
          (Qmin BACKOFF_CAP ((7 # 10) * inject_Z (2 ^ (t - 1))) + jitter u)))
  /\ (forall n, integer_retry_after r n ->
        retries_after rq tries w (Qmax GLOBAL_MIN_DELAY (inject_Z n + jitter u)))
  /\ ((0 <= u < 1)%Q -> (- (8 # 100) <= jitter u < 12 # 100)%Q).
Proof.
  intros Ht Ho Hr t u. split; [|split].
  - intros Hno. apply (retry_on_answer rq tries w r); [lia|done|done|].
    unfold retry_wait, no_retry_after in *.
    destruct (retry_after r) as [ra|]; [|done]. by rewrite Hno.
  - intros n (ra & Hra & Hne & Hall & ->).
    apply (retry_on_answer rq tries w r); [lia|done|done|].
    unfold retry_wait. rewrite Hra, (isdigit_ascii ra Hne Hall).
    unfold float_of_digits. by rewrite Hall.
  - apply jitter_range.
Qed.

Lemma retry_wait_interval_witness :
  0 <= 0 < MAX_RETRIES
  /\ retries_after Sample.ping 0 (Sample.world_of [Answer (Sample.reply 429)] 0)
       (Qmax GLOBAL_MIN_DELAY
          (Qmin BACKOFF_CAP ((7 # 10) * inject_Z (2 ^ (0 + 1 - 1))) + jitter (1 # 2))).
Proof.
  assert (H0 : 0 <= 0 < MAX_RETRIES) by (unfold MAX_RETRIES; lia).
  split; [exact H0|].
  exact (proj1 (retry_wait_interval Sample.ping 0
                  (Sample.world_of [Answer (Sample.reply 429)] 0)
                  (Sample.reply 429) H0 eq_refl eq_refl) I).
Defined.

(** C7, as stated, asks for a jitter that is symmetric about the backoff.
    At the first retry the backoff is 0.7 s: a sleep of 0.7 + 0.1 s can
    happen, a sleep of 0.7 - 0.1 s cannot, although it is above the floor. *)
Lemma jitter_not_symmetric :
  ~ (forall delta : Q,
       (GLOBAL_MIN_DELAY <= backoff (7 # 10) 1 - delta)%Q ->
       may_sleep (backoff (7 # 10) 1) (backoff (7 # 10) 1 + delta) ->
       may_sleep (backoff (7 # 10) 1) (backoff (7 # 10) 1 - delta)).
Proof.
  intros Hsym.
  assert (Hb : (backoff (7 # 10) 1 == 7 # 10)%Q) by reflexivity.
  destruct (Hsym (1 # 10)) as (w & d' & [Hu0 Hu1] & Htr & Hd).
  - rewrite Hb. unfold GLOBAL_MIN_DELAY. lra.
  - exists {| net := fun _ => Failure; clock := fun _ => 0; rand := fun _ => 9 # 10;
              fromiso := fun _ => None; sent := 0; ticks := 0; draws := 0;
              trace := [] |}.
    eexists. split; [simpl; lra|]. split; [reflexivity|]. reflexivity.
  - destruct (sleep_with_jitter_frame (backoff (7 # 10) 1) w)
      as (_ & _ & _ & _ & _ & _ & _ & _ & Ht).
    rewrite Ht in Htr. apply app_inv_head in Htr. inversion Htr as [Heq].
    rewrite <- Heq in Hd. unfold sleep_time, jitter in Hd.
    destruct (Q.max_spec GLOBAL_MIN_DELAY
                (backoff (7 # 10) 1 + (- (8 # 100) + ((12 # 100) - - (8 # 100))
                                        * rand w (draws w)))) as [[Hlt Hm]|[Hle Hm]];
      rewrite Hm in Hd; rewrite Hb in *; unfold GLOBAL_MIN_DELAY in *; lra.
Qed.

(** ** Traces of the client operations *)

Lemma calls_app tr1 tr2 : calls (tr1 ++ tr2) = (calls tr1 ++ calls tr2)%list.
Proof. apply omap_app. Qed.
Lemma ok_requests_app tr1 tr2 :
  ok_requests (tr1 ++ tr2) = (ok_requests tr1 ++ ok_requests tr2)%list.
Proof. apply omap_app. Qed.
Lemma requests_app tr1 tr2 :
  requests (tr1 ++ tr2) = (requests tr1 ++ requests tr2)%list.
Proof. apply omap_app. Qed.
Lemma finalized_app tr1 tr2 :
  finalized (tr1 ++ tr2) = (finalized tr1 ++ finalized tr2)%list.
Proof. unfold finalized. rewrite ok_requests_app. apply omap_app. Qed.

Lemma retryable_not_200 r : retryable r = true -> (status_code r =? 200) = false.
Proof.
  unfold retryable, RETRY_STATUS. intros H%bool_decide_eq_true.
  apply Z.eqb_neq. intros Heq. rewrite Heq in H.
  repeat (apply elem_of_cons in H as [H|H]; [discriminate H|]).
  by apply elem_of_nil in H.
Qed.

Lemma transient_not_ok rq o : transient o = true -> ok_requests [EvRequest rq o] = [].
Proof.
  destruct o as [r|]; [|done]. simpl. intros H%retryable_not_200.
  unfold ok_requests. simpl. by rewrite H.
Qed.

(** The events [_request_from] adds: exchanges of [rq] and sleeps, no call
    marker; the answer it returns is the last event; nothing before it
    was answered with 200. *)
Lemma request_from_trace rq (m : nat) : forall tries w,
  tries = MAX_RETRIES - Z.of_nat m ->
  exists mid,
    trace (snd (_request_from rq tries w)) = (trace w ++ mid)%list
    /\ calls mid = []
    /\ Forall (fun rq' => rq' = rq) (requests mid)
    /\ clock (snd (_request_from rq tries w)) = clock w
    /\ ticks (snd (_request_from rq tries w)) = ticks w
    /\ fromiso (snd (_request_from rq tries w)) = fromiso w
    /\ rand (snd (_request_from rq tries w)) = rand w
    /\ net (snd (_request_from rq tries w)) = net w
    /\ match fst (_request_from rq tries w) with
       | Ok r => exists pre, mid = (pre ++ [EvRequest rq (Answer r)])%list
                             /\ ok_requests pre = []
       | Raise _ => ok_requests mid = []
       end.
Proof.
  induction m as [|m IH]; intros tries w Htries; rewrite request_from_eq;
    destruct (http_request_frame rq w)
      as (Hnet & Hsent & Hrand & Hdraws & Hclock & Hticks & Hiso & Htr);
    pose proof (http_request_result rq w) as Hres;
    destruct (http_request rq w) as [res w1]; cbn [fst snd] in *; subst res.
  - destruct (decide (tries + 1 > MAX_RETRIES)) as [_|Hn];
      [|unfold MAX_RETRIES in *; lia].
    exists [EvRequest rq (net w (sent w))].
    destruct (net w (sent w)) as [r|] eqn:Ho; [destruct (retryable r) eqn:Hr|];
      cbn [fst snd]; repeat split; auto; try (by repeat constructor);
      by exists [].
  - assert (Hnext : tries + 1 = MAX_RETRIES - Z.of_nat m) by lia.
    destruct (decide (tries + 1 > MAX_RETRIES)) as [Hgt|_];
      [unfold MAX_RETRIES in *; lia|].
    assert (Hgo : forall base,
      let w2 := snd (_sleep_with_jitter base w1) in
      transient (net w (sent w)) = true ->
      exists mid,
        trace (snd (_request_from rq (tries + 1) w2)) = (trace w ++ mid)%list
        /\ calls mid = []
        /\ Forall (fun rq' => rq' = rq) (requests mid)
        /\ clock (snd (_request_from rq (tries + 1) w2)) = clock w
        /\ ticks (snd (_request_from rq (tries + 1) w2)) = ticks w
        /\ fromiso (snd (_request_from rq (tries + 1) w2)) = fromiso w
        /\ rand (snd (_request_from rq (tries + 1) w2)) = rand w
        /\ net (snd (_request_from rq (tries + 1) w2)) = net w
        /\ match fst (_request_from rq (tries + 1) w2) with
           | Ok r => exists pre, mid = (pre ++ [EvRequest rq (Answer r)])%list
                                 /\ ok_requests pre = []
           | Raise _ => ok_requests mid = []
           end).
    { intros base w2 Htrans.
      destruct (sleep_with_jitter_frame base w1)
        as (_ & Hn2 & Hs2 & Hr2 & _ & Hc2 & Ht2 & Hi2 & Htr2).
      fold w2 in Hn2, Hs2, Hr2, Hc2, Ht2, Hi2, Htr2.
      destruct (IH (tries + 1) w2 Hnext)
        as (mid & Hm & Hcalls & Hreqs & Hc & Ht & Hi & Hr & Hn & Hpost).
      exists (EvRequest rq (net w (sent w))
              :: EvSleep (sleep_time base (rand w1 (draws w1))) :: mid).
      rewrite Hm, Htr2, Htr, <- !app_assoc. split; [done|].
      split; [done|]. split; [by constructor|].
      split; [congruence|]. split; [congruence|]. split; [congruence|].
      split; [congruence|]. split; [congruence|].
      pose proof (transient_not_ok rq _ Htrans) as Hnot.
      destruct (fst (_request_from rq (tries + 1) w2)) as [r'|e].
      - destruct Hpost as (pre & -> & Hpre).
        exists (EvRequest rq (net w (sent w))
                :: EvSleep (sleep_time base (rand w1 (draws w1))) :: pre).
        split; [done|].
        change (ok_requests ([EvRequest rq (net w (sent w))]
                 ++ EvSleep (sleep_time base (rand w1 (draws w1))) :: pre) = []).
        rewrite ok_requests_app, Hnot. done.
      - change (ok_requests ([EvRequest rq (net w (sent w))]
                 ++ EvSleep (sleep_time base (rand w1 (draws w1))) :: mid) = []).
        rewrite ok_requests_app, Hnot. done. }
    destruct (net w (sent w)) as [r|] eqn:Ho.
    + destruct (retryable r) eqn:Hr.
      * destruct (retry_wait r (tries + 1)) as [wait|e] eqn:Hw.
        -- apply Hgo. done.
        -- exists [EvRequest rq (Answer r)]. cbn [fst snd].
           repeat split; auto; try (by repeat constructor).
           apply (transient_not_ok rq (Answer r)). done.
      * exists [EvRequest rq (Answer r)]. cbn [fst snd].
        repeat split; auto; try (by repeat constructor). by exists [].
    + apply Hgo. done.
Qed.

(** ** The command dispatcher *)

Lemma split_nonempty cmd verb rest : py_split cmd = verb :: rest -> cmd <> "".
Proof. by intros H ->. Qed.

Lemma handle_flag_cmd lib cmd verb arg rest a :
  verb ∈ ["pause"; "resume"; "stop"] ->
  py_split cmd = verb :: arg :: rest ->
  _handle_cmd lib cmd a =
  (Ok tt,
   match py_int arg with
   | Ok n => match find_profile n a with
             | Some i => with_workers (alter (on_wprof (flag_write verb)) i (workers a)) a
             | None => a
             end
   | Raise _ => a
   end).
Proof.
  intros Hverb Hsplit. unfold _handle_cmd.
  destruct (String.eqb_spec cmd "") as [-> | _]; [done|].
  rewrite Hsplit.
  assert (Hcases : verb = "pause" \/ verb = "resume" \/ verb = "stop").
  { repeat (apply elem_of_cons in Hverb as [Hverb|Hverb]; [auto|]).
    by apply elem_of_nil in Hverb. }
  destruct Hcases as [-> | [-> | ->]]; cbn.
  all: destruct (py_int arg) as [n|e]; [|done].
  all: cbv [bind get].
  all: rewrite (bool_decide_eq_true_2 _ Hverb).
  all: rewrite bool_decide_eq_true_2 by lia.
  all: cbn [andb].
  all: by destruct (find_profile n a).
Qed.

Lemma find_profile_spec n a i :
  find_profile n a = Some i ->
  exists wk, workers a !! i = Some wk /\ pid (wprof wk) = n
             /\ forall j wk', (j < i)%nat -> workers a !! j = Some wk' ->
                              pid (wprof wk') <> n.
Proof.
  unfold find_profile. intros H.
  destruct (list_find _ (workers a)) as [[i' wk]|] eqn:Hf; [|done].
  simpl in H. injection H as ->.
  apply list_find_Some in Hf as (Hl & Hp & Hmin). exists wk. eauto.
Qed.

(** C9, as amended. [pause <id>] sets the paused flag and the last-status
    message of the first profile whose identifier is [<id>], whatever its
    run-state; it leaves the running flag of every profile as it was, and
    every other profile untouched. *)
Theorem pause_marks_profile lib cmd arg rest n a :
  py_split cmd = "pause" :: arg :: rest ->
  py_int arg = Ok n ->
  let a' := snd (_handle_cmd lib cmd a) in
  fst (_handle_cmd lib cmd a) = Ok tt
  /\ length (workers a') = length (workers a)
  /\ forall i wk, workers a !! i = Some wk ->
       exists wk', workers a' !! i = Some wk'
         /\ running (wprof wk') = running (wprof wk)
         /\ (find_profile n a = Some i ->
               wprof wk' = with_last_msg MsgPaused (with_paused true (wprof wk))
               /\ paused (wprof wk') = true /\ last_msg (wprof wk') = MsgPaused)
         /\ (find_profile n a <> Some i -> wk' = wk).
Proof.
  intros Hsplit Hint a'. subst a'.
  rewrite (handle_flag_cmd lib cmd "pause" arg rest a) by (done || set_solver).
  rewrite Hint. cbn [fst snd]. split; [done|].
  destruct (find_profile n a) as [i0|] eqn:Hf.
  - cbn [workers with_workers]. split; [by rewrite length_alter|].
    intros i wk Hwk. destruct (decide (i0 = i)) as [-> | Hne].
    + exists (on_wprof (flag_write "pause") wk).
      rewrite list_lookup_alter_eq, Hwk. cbn. repeat split; congruence.
    + exists wk. rewrite list_lookup_alter_ne by done.
      repeat split; auto; congruence.
  - split; [done|]. intros i wk Hwk. exists wk. repeat split; auto; congruence.
Qed.

Lemma pause_marks_profile_witness :
  let p := Sample.profile "xp" false false Sample.no_goals in
  let a := Sample.app p PcDone in
  py_split "pause 1" = ["pause"; "1"]
  /\ py_int "1" = Ok 1
  /\ fst (_handle_cmd Sample.lib "pause 1" a) = Ok tt
  /\ length (workers (snd (_handle_cmd Sample.lib "pause 1" a))) = length (workers a).
Proof.
  intros p a. split; [reflexivity|]. split; [reflexivity|].
  pose proof (pause_marks_profile Sample.lib "pause 1" "1" [] 1 a
                eq_refl eq_refl) as H.
  exact (conj (proj1 H) (proj1 (proj2 H))).
Defined.

(** C9, as stated, lets [pause] act only on a profile that is not stopped.
    Profile 1 below is stopped; [pause 1] marks it paused all the same. *)
Lemma pause_changes_stopped_profile :
  let p := Sample.profile "xp" false false Sample.no_goals in
  running p = false
  /\ paused p = false
  /\ profiles (snd (_handle_cmd Sample.lib "pause 1" (Sample.app p PcDone)))
     = [with_last_msg MsgPaused (with_paused true p)]
  /\ paused (with_last_msg MsgPaused (with_paused true p)) = true.
Proof. repeat split; reflexivity. Qed.

Lemma flag_write_frame verb p : same_but_flags p (flag_write verb p).
Proof.
  unfold flag_write, same_but_flags.
  destruct (String.eqb verb "pause"); [|destruct (String.eqb verb "resume")];
    cbn; auto 10.
Qed.

Lemma same_but_flags_trans p1 p2 p3 :
  same_but_flags p1 p2 -> same_but_flags p2 p3 -> same_but_flags p1 p3.
Proof. unfold same_but_flags. intuition congruence. Qed.

(** A [pause], [resume] or [stop] command touches nothing but the flags and
    the last-status message of the profiles, and no task. *)
Lemma flag_cmd_frame lib cmd verb arg rest a :
  verb ∈ ["pause"; "resume"; "stop"] ->
  py_split cmd = verb :: arg :: rest ->
  let a' := snd (_handle_cmd lib cmd a) in
  fst (_handle_cmd lib cmd a) = Ok tt
  /\ stdin a' = stdin a /\ api_enabled a' = api_enabled a
  /\ length (workers a') = length (workers a)
  /\ forall i wk, workers a !! i = Some wk ->
       exists wk', workers a' !! i = Some wk'
         /\ same_but_flags (wprof wk) (wprof wk')
         /\ pc wk' = pc wk /\ history wk' = history wk
         /\ (verb <> "stop" -> running (wprof wk') = running (wprof wk)).
Proof.
  intros Hverb Hsplit a'. subst a'.
  rewrite (handle_flag_cmd lib cmd verb arg rest a Hverb Hsplit). cbn [fst snd].
  split; [done|].
  assert (Hsame : forall i wk, workers a !! i = Some wk ->
            exists wk', workers a !! i = Some wk'
              /\ same_but_flags (wprof wk) (wprof wk')
              /\ pc wk' = pc wk /\ history wk' = history wk
              /\ (verb <> "stop" -> running (wprof wk') = running (wprof wk))).
  { intros i wk Hwk. exists wk. unfold same_but_flags. auto 15. }
  destruct (py_int arg) as [n|e]; [|auto].
  destruct (find_profile n a) as [i0|]; [|auto].
  cbn [workers with_workers stdin api_enabled].
  split; [done|]. split; [done|]. split; [by rewrite length_alter|].
  intros i wk Hwk. destruct (decide (i0 = i)) as [-> | Hne].
  - exists (on_wprof (flag_write verb) wk).
    rewrite list_lookup_alter_eq, Hwk. cbn.
    split; [done|]. split; [apply flag_write_frame|]. split; [done|].
    split; [done|]. intros Hns. unfold flag_write.
    destruct (String.eqb_spec verb "pause"); [done|].
    destruct (String.eqb_spec verb "resume"); [done|].
    exfalso.
    repeat (apply elem_of_cons in Hverb as [Hverb|Hverb]; [congruence|]).
    by apply elem_of_nil in Hverb.
  - exists wk. rewrite list_lookup_alter_ne by done. unfold same_but_flags. auto 15.
Qed.

Lemma paused_turn w wk :
  pc wk = PcLoop -> running (wprof wk) = true -> paused (wprof wk) = true ->
  worker_step w wk =
  {| wprof := wprof wk; pc := PcLoop;
     history := history wk ++ [EvSleep POLL_INTERVAL] |}.
Proof.
  intros Hpc Hrun Hpause.
  unfold worker_step, turn, iteration. rewrite Hpc.
  cbv [bind the_prof resume_in prof]. rewrite Hrun, Hpause. reflexivity.
Qed.

(** C8. [pause <id>] followed at once by [resume <id>] leaves, in every
    profile, the snapshot (the client with its user), the baseline, the
    goal set, and all else but the paused flag and the last-status message
    as they were, and leaves every task where it stood; and a turn of the
    loop taken while the paused flag is set only sleeps the poll interval:
    it sends nothing and changes nothing in the profile. *)
Theorem pause_resume_no_drift lib cmd1 cmd2 arg rest1 rest2 a :
  py_split cmd1 = "pause" :: arg :: rest1 ->
  py_split cmd2 = "resume" :: arg :: rest2 ->
  let a1 := snd (_handle_cmd lib cmd1 a) in
  let a2 := snd (_handle_cmd lib cmd2 a1) in
  fst (_handle_cmd lib cmd1 a) = Ok tt
  /\ fst (_handle_cmd lib cmd2 a1) = Ok tt
  /\ (forall i wk, workers a !! i = Some wk ->
        exists wk', workers a2 !! i = Some wk'
          /\ same_but_flags (wprof wk) (wprof wk')
          /\ running (wprof wk') = running (wprof wk)
          /\ pc wk' = pc wk /\ history wk' = history wk)
  /\ (forall i wk w, workers a1 !! i = Some wk ->
        pc wk = PcLoop -> running (wprof wk) = true -> paused (wprof wk) = true ->
        worker_step w wk =
        {| wprof := wprof wk; pc := PcLoop;
           history := history wk ++ [EvSleep POLL_INTERVAL] |}).
Proof.
  intros H1 H2 a1 a2.
  destruct (flag_cmd_frame lib cmd1 "pause" arg rest1 a) as (Hok1 & _ & _ & _ & Hw1);
    [set_solver|done|].
  destruct (flag_cmd_frame lib cmd2 "resume" arg rest2 a1) as (Hok2 & _ & _ & _ & Hw2);
    [set_solver|done|].
  split; [done|]. split; [done|]. split.
  - intros i wk Hwk.
    destruct (Hw1 i wk Hwk) as (wk1 & Hwk1 & Hs1 & Hpc1 & Hh1 & Hr1).
    destruct (Hw2 i wk1 Hwk1) as (wk2 & Hwk2 & Hs2 & Hpc2 & Hh2 & Hr2).
    exists wk2. split; [done|].
    split; [by eapply same_but_flags_trans|].
    rewrite Hr2, Hr1 by done. repeat split; congruence.
  - intros i wk w _. apply paused_turn.
Qed.

Lemma pause_resume_no_drift_witness :
  let a := Sample.app (Sample.profile "gem" true false Sample.no_goals) PcLoop in
  py_split "pause 1" = ["pause"; "1"]
  /\ py_split "resume 1" = ["resume"; "1"]
  /\ fst (_handle_cmd Sample.lib "pause 1" a) = Ok tt
  /\ fst (_handle_cmd Sample.lib "resume 1"
            (snd (_handle_cmd Sample.lib "pause 1" a))) = Ok tt.
Proof.
  intros a. split; [reflexivity|]. split; [reflexivity|].
  pose proof (pause_resume_no_drift Sample.lib "pause 1" "resume 1" "1" [] [] a
                eq_refl eq_refl) as H.
  exact (conj (proj1 H) (proj1 (proj2 H))).
Defined.

(** The design's example, run: after [pause 1] and [resume 1] the profile is
    the one before, up to the last-status message. *)
Example pause_resume_sample :
  let p := Sample.profile "gem" true false Sample.no_goals in
  profiles (snd (_handle_cmd Sample.lib "resume 1"
                   (snd (_handle_cmd Sample.lib "pause 1" (Sample.app p PcLoop)))))
  = [with_last_msg MsgResumed p].
Proof. reflexivity. Qed.

(** C5 (the code departs from it). A [mode] or [targets] command whose
    profile id is not a number raises ValueError out of the dispatcher,
    where [pause abc] is ignored; a threshold that is not a number raises
    after the thresholds before it were written; a command of blanks
    raises IndexError. *)
Theorem non_numeric_argument_raises lib a :
  _handle_cmd lib "mode abc xp" a = (Raise ValueError, a)
  /\ _handle_cmd lib "targets abc xp=5" a = (Raise ValueError, a)
  /\ _handle_cmd lib "pause abc" a = (Ok tt, a)
  /\ _handle_cmd lib "   " a = (Raise IndexError, a)
  /\ (let p := Sample.profile "xp" true false Sample.no_goals in
      let r := _handle_cmd lib "targets 1 xp=5 gems=abc" (Sample.app p PcLoop) in
      fst r = Raise ValueError
      /\ profiles (snd r) = [set_target_xp 5 p]).
Proof. repeat split; reflexivity. Qed.

(** ** Client operations on a task *)

Lemma io_request c meth u body t :
  let r := io (_request c meth u body) t in
  exists mid,
    prof (snd r) = prof t
    /\ trace_of (snd r) = (trace_of t ++ mid)%list
    /\ calls mid = []
    /\ Forall (fun rq => rq = request_of c meth u body) (requests mid)
    /\ same_oracles (world t) (world (snd r))
    /\ ticks (world (snd r)) = ticks (world t)
    /\ match fst r with
       | Ok resp =>
           exists pre,
             mid = (pre ++ [EvRequest (request_of c meth u body) (Answer resp)])%list
             /\ ok_requests pre = []
       | Raise _ => ok_requests mid = []
       end.
Proof.
  intros r. subst r. unfold io, _request, trace_of, same_oracles.
  fold (request_of c meth u body).
  destruct (request_from_trace (request_of c meth u body) 4 0 (world t) eq_refl)
    as (mid & Htr & Hcalls & Hreqs & Hclock & Hticks & Hiso & Hrand & Hnet & Hpost).
  destruct (_request_from (request_of c meth u body) 0 (world t)) as [res w'].
  cbn [fst snd prof world] in *. exists mid. auto 15.
Qed.

Lemma io_log e t :
  io (log e) t = (Ok tt, {| prof := prof t;
                            world := snd (log e (world t)) |}).
Proof. reflexivity. Qed.

(** [get_user_info]: its trace, and what it may change. *)
Lemma get_user_info_spec t :
  let r := get_user_info t in
  exists mid,
    trace_of (snd r) = (trace_of t ++ EvCall CUserInfo :: mid)%list
    /\ calls mid = []
    /\ Forall is_user_fetch (requests mid)
    /\ same_oracles (world t) (world (snd r))
    /\ (truthy (c_sub (client (prof t))) = false ->
          mid = [] /\ fst r = Ok None /\ prof (snd r) = prof t)
    /\ match fst r with
       | Ok (Some u) =>
           prof (snd r) = with_client (with_user (Some u) (client (prof t))) (prof t)
       | _ => prof (snd r) = prof t
       end.
Proof.
  intros r. subst r. unfold get_user_info.
  cbv [bind self]. rewrite io_log. cbn [prof world snd fst].
  set (t1 := {| prof := prof t; world := (log (EvCall CUserInfo) (world t)).2 |}).
  assert (Ht1 : trace_of t1 = (trace_of t ++ [EvCall CUserInfo])%list) by done.
  assert (Ho1 : same_oracles (world t) (world t1)) by (by repeat split).
  destruct (c_sub (client (prof t))) as [sub|] eqn:Hsub; cbn [truthy].
  2:{ exists []. unfold ret. cbn [fst snd]. rewrite Ht1.
      repeat split; auto; apply Ho1. }
  destruct (negb (String.eqb sub "")) eqn:Hne.
  2:{ exists []. unfold ret. cbn [fst snd]. rewrite Ht1.
      repeat split; auto; apply Ho1. }
  destruct (io_request (client (prof t)) "GET" (UrlUser sub) NoBody t1)
    as (mid & Hp & Htr & Hcalls & Hreqs & Hor & _ & Hpost).
  destruct (io (_request (client (prof t)) "GET" (UrlUser sub) NoBody) t1)
    as [[resp|e] t2]; cbn [fst snd] in *.
  - assert (Hfetch : Forall is_user_fetch (requests mid)).
    { eapply Forall_impl; [exact Hreqs|]. intros rq ->. split; [done|].
      by exists sub. }
    assert (Hor2 : same_oracles (world t) (world t2)).
    { destruct Ho1 as (? & ? & ? & ?), Hor as (? & ? & ? & ?).
      repeat split; congruence. }
    assert (Htr2 : trace_of t2 = (trace_of t ++ EvCall CUserInfo :: mid)%list).
    { rewrite Htr, Ht1, <- app_assoc. done. }
    destruct (status_code resp =? 200).
    + destruct (json resp) as [j|]; cbn.
      * exists mid. repeat split; auto; try apply Hor2; try done.
        rewrite Hp. done.
      * exists mid. repeat split; auto; try apply Hor2; done.
    + exists mid. cbn. repeat split; auto; try apply Hor2; done.
  - exists mid. cbn. rewrite Htr, Ht1, <- app_assoc.
    assert (Hfetch : Forall is_user_fetch (requests mid)).
    { eapply Forall_impl; [exact Hreqs|]. intros rq ->. split; [done|].
      by exists sub. }
    destruct Ho1 as (? & ? & ? & ?), Hor as (? & ? & ? & ?).
    repeat split; auto; try congruence; done.
Qed.

(** ** What commands cannot do *)

Lemma keeps_refl wk : keeps wk wk.
Proof. unfold keeps. auto. Qed.

Lemma keeps_all_refl ws : keeps_all ws ws.
Proof. intros i wk H. exists wk. split; [done|apply keeps_refl]. Qed.

Lemma keeps_all_trans ws1 ws2 ws3 :
  keeps_all ws1 ws2 -> keeps_all ws2 ws3 -> keeps_all ws1 ws3.
Proof.
  intros H12 H23 i wk Hwk.
  destruct (H12 i wk Hwk) as (wk2 & Hwk2 & Hk2).
  destruct (H23 i wk2 Hwk2) as (wk3 & Hwk3 & Hk3).
  exists wk3. split; [done|]. unfold keeps in *.
  destruct Hk2 as (? & ? & ? & ? & ?), Hk3 as (? & ? & ? & ? & ?).
  repeat split; try congruence. auto.
Qed.

Lemma on_profile_keeps i f a :
  command_write f ->
  fst (on_profile i f a) = Ok tt
  /\ keeps_all (workers a) (workers (snd (on_profile i f a))).
Proof.
  intros Hf. split; [done|]. cbn. intros j wk Hwk.
  destruct (decide (i = j)) as [-> | Hne].
  - exists (on_wprof f wk). rewrite list_lookup_alter_eq, Hwk. split; [done|].
    destruct (Hf (wprof wk)) as (? & ? & ?). unfold keeps. cbn. auto.
  - exists wk. rewrite list_lookup_alter_ne by done. split; [done|apply keeps_refl].
Qed.

Lemma set_targets_keeps i kvs : forall a,
  keeps_all (workers a) (workers (snd (set_targets i kvs a))).
Proof.
  assert (Hw : forall (set : Z -> Profile -> Profile) kv a,
            (forall v, command_write (set v)) ->
            keeps_all (workers a)
              (workers (snd ((let* s := lift_result (after_eq kv) in
                              let* v := lift_result (py_int s) in
                              on_profile i (set v)) a)))).
  { intros set kv a Hset. cbv [bind lift_result].
    destruct (after_eq kv) as [s|e]; [|apply keeps_all_refl].
    destruct (py_int s) as [v|e]; [|apply keeps_all_refl].
    apply on_profile_keeps, Hset. }
  assert (Hxp : forall v, command_write (set_target_xp v)) by (by intros v p).
  assert (Hgems : forall v, command_write (set_target_gems v)) by (by intros v p).
  assert (Hstreak : forall v, command_write (set_target_streak_inc v))
    by (by intros v p).
  induction kvs as [|kv rest IH]; intros a; [apply keeps_all_refl|].
  cbn [set_targets]. unfold bind at 1.
  set (one := if String.prefix "xp=" kv then _ else _).
  assert (Hone : keeps_all (workers a) (workers (snd (one a)))).
  { subst one. destruct (String.prefix "xp=" kv); [by apply Hw|].
    destruct (String.prefix "gems=" kv); [by apply Hw|].
    destruct (String.prefix "streak+=" kv); [by apply Hw|].
    apply keeps_all_refl. }
  destruct (one a) as [[[]|e] a1]; cbn [snd] in *; [|done].
  eapply keeps_all_trans; [exact Hone|apply IH].
Qed.

(** No command moves a task, touches a client or a baseline, or sets a
    running flag. *)
Lemma handle_cmd_keeps lib cmd a :
  keeps_all (workers a) (workers (snd (_handle_cmd lib cmd a))).
Proof.
  unfold _handle_cmd.
  destruct (String.eqb cmd ""); [apply keeps_all_refl|].
  destruct (py_split cmd) as [|verb args] eqn:Hsplit; [apply keeps_all_refl|].
  destruct (String.eqb verb "quit").
  { cbn. intros i wk Hwk. exists (on_wprof (with_running false) wk).
    rewrite list_lookup_fmap, Hwk. split; [done|]. unfold keeps. cbn.
    repeat split; auto; discriminate. }
  destruct (String.eqb verb "add").
  { cbv [bind get readline add_profile modify]. cbn.
    intros i wk Hwk. exists wk. split; [|apply keeps_refl].
    by apply lookup_app_l_Some. }
  destruct (bool_decide (verb ∈ ["pause"; "resume"; "stop"])
            && bool_decide (2 <= length (verb :: args))%nat).
  { destruct (py_int _) as [n|e]; [|apply keeps_all_refl].
    cbv [bind get]. destruct (find_profile n a) as [i|]; [|apply keeps_all_refl].
    destruct (String.eqb verb "pause"); [by apply on_profile_keeps|].
    destruct (String.eqb verb "resume"); by apply on_profile_keeps. }
  destruct (String.eqb verb "mode" && bool_decide (3 <= length (verb :: args))%nat).
  { cbv [bind get lift_result].
    destruct (py_int _) as [n|e]; [|apply keeps_all_refl].
    destruct (find_profile n a) as [i|]; [|apply keeps_all_refl].
    by apply on_profile_keeps. }
  destruct (String.eqb verb "targets" && bool_decide (2 <= length (verb :: args))%nat).
  { cbv [bind get lift_result].
    destruct (py_int _) as [n|e]; [|apply keeps_all_refl].
    destruct (find_profile n a) as [i|]; [|apply keeps_all_refl].
    pose proof (set_targets_keeps i (drop 2 (verb :: args)) a) as Hset.
    destruct (set_targets i (drop 2 (verb :: args)) a) as [[[]|e] a1];
      cbn [snd] in *; [|done].
    eapply keeps_all_trans; [exact Hset|]. by apply on_profile_keeps. }
  destruct (String.eqb verb "api" && bool_decide (2 <= length (verb :: args))%nat
            && String.eqb (default "" ((verb :: args) !! 1%nat)) "on").
  { unfold enable_api. destruct (flask lib); apply keeps_all_refl. }
  apply keeps_all_refl.
Qed.

(** ** Turns of a worker *)

Lemma strategy_calls_app tr1 tr2 :
  strategy_calls (tr1 ++ tr2) = (strategy_calls tr1 ++ strategy_calls tr2)%list.
Proof. unfold strategy_calls. rewrite calls_app. apply List.filter_app. Qed.

Lemma final_refresh_spec t :
  let r := final_refresh t in
  fst r = Ok PcDone
  /\ exists mid,
       trace_of (snd r) = (trace_of t ++ EvCall CUserInfo :: mid)%list
       /\ calls mid = []
       /\ Forall is_user_fetch (requests mid)
       /\ (truthy (c_sub (client (prof t))) = false ->
             mid = [] /\ prof (snd r) = prof t)
       /\ (prof (snd r) = prof t
           \/ exists u, prof (snd r)
                        = with_client (with_user (Some u) (client (prof t))) (prof t)).
Proof.
  intros r. subst r. cbv [final_refresh catch bind].
  destruct (get_user_info_spec t) as (mid & Htr & Hcalls & Hreqs & _ & Hfalsy & Hprof).
  destruct (get_user_info t) as [[ou|e] t1]; cbn [fst snd ret] in *.
  - split; [done|]. exists mid.
    split; [done|]. split; [done|]. split; [done|]. split.
    + intros Hf. destruct (Hfalsy Hf) as (? & _ & ?). done.
    + destruct ou as [u|]; eauto.
  - split; [done|]. exists mid.
    split; [done|]. split; [done|]. split; [done|]. split.
    + intros Hf. destruct (Hfalsy Hf) as (? & _ & ?). done.
    + by left.
Qed.

(** A worker that is past its start and not running never runs again: its
    turn enters no strategy and sends nothing but fetches of the user's
    record. *)
Lemma stopped_turn w wk :
  pc wk <> PcInit -> running (wprof wk) = false ->
  let wk' := worker_step w wk in
  running (wprof wk') = false
  /\ (pc wk' = PcFinally \/ pc wk' = PcDone)
  /\ c_sub (client (wprof wk')) = c_sub (client (wprof wk))
  /\ exists mid,
       history wk' = (history wk ++ mid)%list
       /\ strategy_calls mid = []
       /\ Forall is_user_fetch (requests mid).
Proof.
  intros Hpc Hrun wk'. subst wk'. unfold worker_step, turn.
  destruct (pc wk) eqn:Hpc'; [done| | |].
  - unfold iteration. cbv [bind the_prof resume_in prof]. rewrite Hrun. cbn.
    repeat split; auto. exists []. by rewrite app_nil_r.
  - destruct (final_refresh_spec (resume_in w wk))
      as (Hres & mid & Htr & Hcalls & Hreqs & _ & Hprof).
    destruct (final_refresh (resume_in w wk)) as [res t']; cbn [fst snd] in *.
    subst res. cbn [wprof pc history].
    assert (Hp : running (prof t') = false
                 /\ c_sub (client (prof t')) = c_sub (client (wprof wk))).
    { destruct Hprof as [-> | (u & ->)]; done. }
    destruct Hp as [Hp1 Hp2]. repeat split; auto.
    exists (EvCall CUserInfo :: mid). split; [exact Htr|]. split; [|done].
    change (EvCall CUserInfo :: mid) with ([EvCall CUserInfo] ++ mid)%list.
    rewrite strategy_calls_app. unfold strategy_calls at 2. by rewrite Hcalls.
  - cbn. repeat split; auto. exists []. by rewrite app_nil_r.
Qed.

(** ** Runs of the system *)

Lemma step_stopped lib a a' i wk :
  step lib a a' -> workers a !! i = Some wk -> stopped wk ->
  exists wk' mid,
    workers a' !! i = Some wk' /\ stopped wk'
    /\ c_sub (client (wprof wk')) = c_sub (client (wprof wk))
    /\ history wk' = (history wk ++ mid)%list
    /\ strategy_calls mid = []
    /\ Forall is_user_fetch (requests mid).
Proof.
  intros Hstep Hwk [Hpc Hrun]. destruct Hstep as [a cmd|a j wkj w Hj].
  - destruct (handle_cmd_keeps lib cmd a i wk Hwk)
      as (wk' & Hwk' & Hpc' & Hh' & Hc' & _ & Hr').
    exists wk', []. rewrite app_nil_r.
    repeat split; auto; try congruence.
    destruct (running (wprof wk')); [|done]. rewrite Hr' in Hrun; done.
  - destruct (decide (j = i)) as [-> | Hne].
    + assert (wkj = wk) as -> by congruence.
      destruct (stopped_turn w wk Hpc Hrun) as (Hr & Hp & Hs & mid & Hh & Hc & Hq).
      exists (worker_step w wk), mid. cbn.
      rewrite list_lookup_insert_eq by (by eapply lookup_lt_Some).
      repeat split; auto. destruct Hp as [-> | ->]; done.
    + exists wk, []. cbn. rewrite list_lookup_insert_ne by done.
      rewrite app_nil_r. repeat split; auto.
Qed.

Lemma steps_stopped lib a a' :
  steps lib a a' -> forall i wk,
  workers a !! i = Some wk -> stopped wk ->
  exists wk' mid,
    workers a' !! i = Some wk' /\ stopped wk'
    /\ c_sub (client (wprof wk')) = c_sub (client (wprof wk))
    /\ history wk' = (history wk ++ mid)%list
    /\ strategy_calls mid = []
    /\ Forall is_user_fetch (requests mid).
Proof.
  induction 1 as [a|a a1 a2 Hstep _ IH]; intros i wk Hwk Hst.
  - exists wk, []. rewrite app_nil_r. repeat split; auto; apply Hst.
  - destruct (step_stopped lib a a1 i wk Hstep Hwk Hst)
      as (wk1 & mid1 & Hwk1 & Hst1 & Hs1 & Hh1 & Hc1 & Hq1).
    destruct (IH i wk1 Hwk1 Hst1) as (wk2 & mid2 & Hwk2 & Hst2 & Hs2 & Hh2 & Hc2 & Hq2).
    exists wk2, (mid1 ++ mid2)%list.
    rewrite Hh2, Hh1, <- app_assoc, strategy_calls_app, Hc1, Hc2, requests_app.
    repeat split; auto; try apply Hst2; try congruence.
    by apply Forall_app.
Qed.

Lemma run_stopped lib a l :
  run lib a l -> forall i wk,
  workers a !! i = Some wk -> stopped wk ->
  Forall (fun a' => running_at i a' = false) l.
Proof.
  induction 1 as [a|a a1 l Hstep _ IH]; intros i wk Hwk Hst; [constructor|].
  destruct (step_stopped lib a a1 i wk Hstep Hwk Hst)
    as (wk1 & mid1 & Hwk1 & Hst1 & _).
  constructor; [|by eapply IH].
  unfold running_at. rewrite Hwk1. cbn. apply Hst1.
Qed.

Lemma falls_cons b1 b2 bs :
  falls (b1 :: b2 :: bs)
  = ((if b1 && negb b2 then 1 else 0) + falls (b2 :: bs))%nat.
Proof. reflexivity. Qed.

Lemma falls_all_false bs : Forall (fun b => b = false) bs -> falls bs = 0%nat.
Proof.
  induction 1 as [|b bs -> _ IH]; [done|].
  destruct bs as [|b2 bs]; [done|]. cbn [falls andb]. exact IH.
Qed.

Lemma iteration_ok t t1 :
  running (prof t) = true -> paused (prof t) = false ->
  strategy t = (Ok tt, t1) ->
  iteration t =
  (Ok PcLoop,
   {| prof := _check_targets (prof t1);
      world := snd (_sleep_with_jitter (c_delay (client (_check_targets (prof t1))))
                      (world t1)) |}).
Proof.
  intros Hrun Hpause Hstrat. unfold iteration.
  cbv [bind the_prof catch]. rewrite Hrun, Hpause. cbn [negb].
  rewrite Hstrat. reflexivity.
Qed.

Lemma check_targets_met p u :
  c_user (client p) = Some u -> threshold_met p u ->
  _check_targets p = with_last_msg MsgTargets (with_running false p).
Proof.
  intros Hu Hmet. unfold _check_targets. rewrite Hu.
  unfold targets_done.
  destruct Hmet as [-> | [-> | ->]];
    repeat match goal with |- context [if ?b then true else _] => destruct b end;
    done.
Qed.

(** C1. When the goal check that follows an iteration's strategy work finds
    current - baseline >= threshold in one of the three dimensions, the
    turn ends with the profile stopped ("Targets reached"); from then on,
    whatever commands arrive and whatever turns are taken, the profile is
    never running again, no strategy operation is entered for it, and its
    client sends nothing but fetches of the user's record; along every run
    the running flag falls exactly once. *)
Theorem goal_stop lib a i wk w t1 u :
  workers a !! i = Some wk ->
  pc wk = PcLoop -> running (wprof wk) = true -> paused (wprof wk) = false ->
  strategy (resume_in w wk) = (Ok tt, t1) ->
  c_user (client (prof t1)) = Some u ->
  threshold_met (prof t1) u ->
  let wk1 := worker_step w wk in
  let a1 := with_workers (<[i := wk1]> (workers a)) a in
  step lib a a1
  /\ running (wprof wk1) = false
  /\ last_msg (wprof wk1) = MsgTargets
  /\ strategy_calls (history wk1) = strategy_calls (trace_of t1)
  /\ (forall a2, steps lib a1 a2 ->
        exists wk2 later,
          workers a2 !! i = Some wk2
          /\ running (wprof wk2) = false
          /\ history wk2 = (history wk1 ++ later)%list
          /\ strategy_calls later = []
          /\ Forall is_user_fetch (requests later))
  /\ (forall l, run lib a1 l ->
        falls (running_at i <$> a :: a1 :: l) = 1%nat).
Proof.
  intros Hwk Hpc Hrun Hpause Hstrat Hu Hmet wk1 a1.
  assert (Hit := iteration_ok (resume_in w wk) t1 Hrun Hpause Hstrat).
  assert (Hwk1 : wk1 =
            {| wprof := with_last_msg MsgTargets (with_running false (prof t1));
               pc := PcLoop;
               history := trace (snd (_sleep_with_jitter
                            (c_delay (client (prof t1))) (world t1))) |}).
  { subst wk1. unfold worker_step, turn. rewrite Hpc, Hit.
    rewrite (check_targets_met (prof t1) u Hu Hmet). reflexivity. }
  assert (Hlook : workers a1 !! i = Some wk1).
  { subst a1. cbn. apply list_lookup_insert_eq. by eapply lookup_lt_Some. }
  assert (Hst : stopped wk1) by (rewrite Hwk1; by split).
  split; [by eapply step_worker|].
  split; [by rewrite Hwk1|]. split; [by rewrite Hwk1|]. split.
  { rewrite Hwk1. cbn [history].
    destruct (sleep_with_jitter_frame (c_delay (client (prof t1))) (world t1))
      as (_ & _ & _ & _ & _ & _ & _ & _ & ->).
    rewrite strategy_calls_app. unfold trace_of. by rewrite app_nil_r. }
  split.
  - intros a2 Hsteps.
    destruct (steps_stopped lib a1 a2 Hsteps i wk1 Hlook Hst)
      as (wk2 & later & Hwk2 & [_ Hr2] & _ & Hh & Hc & Hq).
    exists wk2, later. auto.
  - intros l Hl.
    pose proof (run_stopped lib a1 l Hl i wk1 Hlook Hst) as Hall.
    rewrite !fmap_cons.
    replace (running_at i a) with true by (unfold running_at; by rewrite Hwk).
    replace (running_at i a1) with false
      by (unfold running_at; rewrite Hlook; cbn; by rewrite Hwk1).
    rewrite falls_cons, (falls_all_false (false :: (running_at i <$> l))); [done|].
    constructor; [done|]. by apply Forall_fmap.
Qed.

Lemma goal_stop_witness :
  let p := Sample.profile "gem" true false (Sample.gems_goal 30) in
  let w := Sample.world_of [Answer (Sample.reply 200)] 0 in
  threshold_met (prof (snd (strategy (resume_in w (Sample.worker p PcLoop)))))
    (with_gems 60 Sample.user)
  /\ running (wprof (worker_step w (Sample.worker p PcLoop))) = false
  /\ last_msg (wprof (worker_step w (Sample.worker p PcLoop))) = MsgTargets.
Proof.
  intros p w.
  assert (Hmet : threshold_met
                   (prof (snd (strategy (resume_in w (Sample.worker p PcLoop)))))
                   (with_gems 60 Sample.user)) by (right; left; reflexivity).
  split; [exact Hmet|].
  pose proof (goal_stop Sample.lib (Sample.app p PcLoop) 0 (Sample.worker p PcLoop) w
                (snd (strategy (resume_in w (Sample.worker p PcLoop))))
                (with_gems 60 Sample.user)
                eq_refl eq_refl eq_refl eq_refl eq_refl eq_refl Hmet) as H.
  exact (conj (proj1 (proj2 H)) (proj1 (proj2 (proj2 H)))).
Defined.

Lemma get_user_info_falsy t :
  truthy (c_sub (client (prof t))) = false ->
  get_user_info t =
  (Ok None, {| prof := prof t; world := snd (log (EvCall CUserInfo) (world t)) |}).
Proof.
  intros Hf. unfold get_user_info. cbv [bind self]. rewrite io_log.
  cbn [prof world snd fst] in *.
  destruct (c_sub (client (prof t))) as [sub|]; [|done].
  cbn [truthy] in *. by rewrite Hf.
Qed.

Lemma startup_falsy w wk :
  pc wk = PcInit -> truthy (c_sub (client (wprof wk))) = false ->
  worker_step w wk =
  {| wprof := with_running false (with_last_msg MsgJwtFail (wprof wk));
     pc := PcFinally;
     history := history wk ++ [EvCall CUserInfo] |}.
Proof.
  intros Hpc Hf. unfold worker_step, turn. rewrite Hpc.
  cbv [startup catch]. unfold bind at 1.
  rewrite (get_user_info_falsy (resume_in w wk)) by done. reflexivity.
Qed.

Lemma final_falsy w wk :
  pc wk = PcFinally -> truthy (c_sub (client (wprof wk))) = false ->
  worker_step w wk =
  {| wprof := wprof wk; pc := PcDone;
     history := history wk ++ [EvCall CUserInfo] |}.
Proof.
  intros Hpc Hf. unfold worker_step, turn. rewrite Hpc.
  cbv [final_refresh catch]. unfold bind at 1.
  rewrite (get_user_info_falsy (resume_in w wk)) by done. reflexivity.
Qed.

Lemma barred_turn w wk : barred wk -> barred (worker_step w wk).
Proof.
  intros (Hf & Hrun & Hreq & Hcalls).
  assert (Hlog : forall p at_pc,
            truthy (c_sub (client p)) = false -> running p = false ->
            barred {| wprof := p; pc := at_pc;
                      history := history wk ++ [EvCall CUserInfo] |}).
  { intros p at_pc Hfp Hrp. unfold barred. cbn [wprof history].
    rewrite requests_app, strategy_calls_app, Hreq, Hcalls. done. }
  destruct (pc wk) eqn:Hpc.
  - rewrite startup_falsy by done. by apply Hlog.
  - unfold worker_step, turn, iteration. rewrite Hpc.
    cbv [bind the_prof resume_in prof]. rewrite Hrun. cbn. done.
  - rewrite final_falsy by done. by apply Hlog.
  - unfold worker_step, turn. rewrite Hpc. cbn. done.
Qed.

Lemma step_barred lib a a' i wk :
  step lib a a' -> workers a !! i = Some wk -> barred wk ->
  exists wk', workers a' !! i = Some wk' /\ barred wk'.
Proof.
  intros Hstep Hwk Hb. destruct Hstep as [a cmd|a j wkj w Hj].
  - destruct (handle_cmd_keeps lib cmd a i wk Hwk)
      as (wk' & Hwk' & Hpc' & Hh' & Hc' & _ & Hr').
    exists wk'. split; [done|]. destruct Hb as (Hf & Hrun & Hreq & Hcalls).
    unfold barred. rewrite Hh', Hc'. repeat split; auto.
    destruct (running (wprof wk')); [|done]. rewrite Hr' in Hrun; done.
  - destruct (decide (j = i)) as [-> | Hne].
    + assert (wkj = wk) as -> by congruence.
      exists (worker_step w wk). cbn.
      rewrite list_lookup_insert_eq by (by eapply lookup_lt_Some).
      split; [done|]. by apply barred_turn.
    + exists wk. cbn. by rewrite list_lookup_insert_ne by done.
Qed.

Lemma steps_barred lib a a' :
  steps lib a a' -> forall i wk,
  workers a !! i = Some wk -> barred wk ->
  exists wk', workers a' !! i = Some wk' /\ barred wk'.
Proof.
  induction 1 as [a|a a1 a2 Hstep _ IH]; intros i wk Hwk Hb; [eauto|].
  destruct (step_barred lib a a1 i wk Hstep Hwk Hb) as (wk1 & Hwk1 & Hb1).
  eauto.
Qed.

(** C10. A profile added with a token from which [_decode_sub] extracts no
    subject: its first turn fetches nothing, records "JWT/Info fail" and
    leaves the loop for the [finally] block, whose fetch sends nothing
    either, and the task is over; whatever happens afterwards, the profile
    is never running, no strategy operation is entered for it and its
    client never sends a request. *)
Theorem undecodable_token_never_runs lib a i n lbl jwt_token md d :
  workers a !! i = Some (new_worker lib n lbl jwt_token md d) ->
  _decode_sub lib (strip jwt_token) = None ->
  let wk := new_worker lib n lbl jwt_token md d in
  (forall w, fst (get_user_info (resume_in w wk)) = Ok None
             /\ requests (trace_of (snd (get_user_info (resume_in w wk)))) = [])
  /\ (forall w, worker_step w wk =
        {| wprof := with_running false (with_last_msg MsgJwtFail (wprof wk));
           pc := PcFinally; history := [EvCall CUserInfo] |})
  /\ (forall w w', pc (worker_step w' (worker_step w wk)) = PcDone)
  /\ (forall a', steps lib a a' ->
        exists wk', workers a' !! i = Some wk'
          /\ running (wprof wk') = false
          /\ strategy_calls (history wk') = []
          /\ requests (history wk') = []).
Proof.
  intros Hwk Hsub wk.
  assert (Hf : truthy (c_sub (client (wprof wk))) = false)
    by (cbn; by rewrite Hsub).
  assert (Hb : barred wk) by (by repeat split).
  split; [|split; [|split]].
  - intros w. rewrite get_user_info_falsy by done. done.
  - intros w. by rewrite startup_falsy.
  - intros w w'. rewrite (startup_falsy w wk) by done.
    by rewrite final_falsy.
  - intros a' Hsteps.
    destruct (steps_barred lib a a' Hsteps i wk Hwk Hb) as (wk' & Hwk' & Hb').
    exists wk'. unfold barred in Hb'. tauto.
Qed.

Lemma undecodable_token_never_runs_witness :
  let wk := new_worker Sample.lib 0 "profile1" "h.p.s" "xp" DEFAULT_DELAY in
  let w := Sample.world_of [Answer (Sample.reply 200)] 0 in
  _decode_sub Sample.lib (strip "h.p.s") = None
  /\ worker_step w wk =
     {| wprof := with_running false (with_last_msg MsgJwtFail (wprof wk));
        pc := PcFinally; history := [EvCall CUserInfo] |}
  /\ pc (worker_step w (worker_step w wk)) = PcDone.
Proof.
  intros wk w. split; [reflexivity|].
  pose proof (undecodable_token_never_runs Sample.lib
                {| workers := [wk]; stdin := []; api_enabled := false |}
                0 0 "profile1" "h.p.s" "xp" DEFAULT_DELAY eq_refl eq_refl) as H.
  exact (conj (proj1 (proj2 H) w) (proj1 (proj2 (proj2 H)) w w)).
Defined.

(** ** The strategies *)

Lemma run_bind {S A B} (m : M S A) (k : A -> M S B) s :
  bind m k s = match m s with
               | (Ok a, s') => k a s'
               | (Raise e, s') => (Raise e, s')
               end.
Proof. reflexivity. Qed.

Lemma farm_xp_once_spec t u :
  c_user (client (prof t)) = Some u ->
  let r := farm_xp_once t in
  exists rq mid,
    prof (snd r) = prof t
    /\ method rq = "POST" /\ url rq = UrlStory (fromLanguage u)
    /\ trace_of (snd r) = (trace_of t ++ EvCall CXp :: mid)%list
    /\ calls mid = []
    /\ Forall (fun rq' => rq' = rq) (requests mid)
    /\ same_oracles (world t) (world (snd r))
    /\ match fst r with
       | Ok g => exists pre resp,
                   mid = (pre ++ [EvRequest rq (Answer resp)])%list
                   /\ ok_requests pre = [] /\ awarded resp = Ok g
       | Raise e =>
           ok_requests mid = []
           \/ exists pre resp,
                mid = (pre ++ [EvRequest rq (Answer resp)])%list
                /\ awarded resp = Raise e
       end.
Proof.
  intros Hu r. subst r. unfold farm_xp_once.
  cbv [bind self]. rewrite io_log. cbn [prof world snd fst]. rewrite Hu.
  set (t1 := {| prof := prof t; world := (log (EvCall CXp) (world t)).2 |}).
  set (t2 := snd (io time_now t1)).
  change (io time_now t1) with (Ok (clock (world t) (ticks (world t))), t2).
  cbn beta iota.
  set (now := clock (world t) (ticks (world t))).
  assert (Hp2 : prof t2 = prof t) by done.
  assert (Ht2 : trace_of t2 = (trace_of t ++ [EvCall CXp])%list) by done.
  assert (Ho2 : same_oracles (world t) (world t2)) by (by repeat split).
  destruct (io_request (client (prof t)) "POST" (UrlStory (fromLanguage u))
              (StoryBody (fromLanguage u) now) t2)
    as (mid & Hp & Htr & Hcalls & Hreqs & Hor & _ & Hpost).
  exists (request_of (client (prof t)) "POST" (UrlStory (fromLanguage u))
            (StoryBody (fromLanguage u) now)), mid.
  assert (Hor' : forall t3, same_oracles (world t2) (world t3) ->
                            same_oracles (world t) (world t3)).
  { intros t3 (? & ? & ? & ?). destruct Ho2 as (? & ? & ? & ?).
    repeat split; congruence. }
  destruct (io (_request (client (prof t)) "POST" (UrlStory (fromLanguage u))
                  (StoryBody (fromLanguage u) now)) t2)
    as [[resp|e] t3]; cbn [fst snd] in *.
  - destruct Hpost as (pre & Hmid & Hpre).
    assert (Htr3 : trace_of t3 = (trace_of t ++ EvCall CXp :: mid)%list)
      by (rewrite Htr, Ht2, <- app_assoc; done).
    unfold awarded.
    destruct (status_code resp =? 200) eqn:Hs; [destruct (json resp) as [j|] eqn:Hj|];
      cbn [fst snd ret raise]; (split; [congruence|]); (split; [done|]);
      (split; [done|]); (split; [done|]); (split; [done|]); (split; [done|]);
      (split; [by apply Hor'|]).
    + exists pre, resp. by rewrite Hs, Hj.
    + right. exists pre, resp. by rewrite Hs, Hj.
    + exists pre, resp. by rewrite Hs.
  - split; [congruence|]. split; [done|]. split; [done|].
    split; [rewrite Htr, Ht2, <- app_assoc; done|].
    split; [done|]. split; [done|]. split; [by apply Hor'|]. by left.
Qed.

(** C4, as amended. In [xp] mode the loop records a gain only when the
    amount read off the answer is positive; an answer with status 200 that
    reports zero awarded experience is recorded as "xp fail", with the
    counters unchanged, exactly as an answer with any other status is; when
    the request raises, the branch records nothing. *)
Theorem xp_recorded_by_gain t u :
  c_user (client (prof t)) = Some u ->
  let r := mode_xp t in
  match fst r with
  | Ok _ =>
      exists rq resp g,
        last (trace_of (snd r)) = Some (EvRequest rq (Answer resp))
        /\ awarded resp = Ok g
        /\ prof (snd r) = if g >? 0 then xp_gained g u (prof t)
                          else xp_failed (prof t)
  | Raise _ => prof (snd r) = prof t
  end.
Proof.
  intros Hu r. subst r. unfold mode_xp. rewrite (run_bind farm_xp_once).
  destruct (farm_xp_once_spec t u Hu)
    as (rq & mid & Hp & _ & _ & Htr & _ & _ & _ & Hpost).
  destruct (farm_xp_once t) as [[g|e] t1]; cbn [fst snd] in *; [|done].
  destruct Hpost as (pre & resp & Hmid & _ & Haw).
  assert (Hlast : last (trace_of t1) = Some (EvRequest rq (Answer resp))).
  { rewrite Htr, Hmid.
    change (EvCall CXp :: pre ++ [EvRequest rq (Answer resp)])%list
      with ((EvCall CXp :: pre) ++ [EvRequest rq (Answer resp)])%list.
    rewrite app_assoc. apply last_snoc. }
  destruct (g >? 0) eqn:Hg.
  - cbv [bind add_xp self_user self set_user set_msg on_prof modify ret].
    rewrite Hp, Hu. cbn [fst snd prof world].
    exists rq, resp, g. rewrite Hg, Hp. split; [exact Hlast|]. by split.
  - cbv [set_msg on_prof modify]. cbn [fst snd prof world].
    exists rq, resp, g. rewrite Hg, Hp. split; [exact Hlast|]. by split.
Qed.

Lemma xp_recorded_by_gain_witness :
  let p := Sample.profile "xp" true false Sample.no_goals in
  let t := resume_in (Sample.world_of [Answer (Sample.xp_reply 10)] 0)
             (Sample.worker p PcLoop) in
  c_user (client (prof t)) = Some Sample.user
  /\ exists rq resp g,
       last (trace_of (snd (mode_xp t))) = Some (EvRequest rq (Answer resp))
       /\ awarded resp = Ok g
       /\ prof (snd (mode_xp t)) = if g >? 0 then xp_gained g Sample.user (prof t)
                                   else xp_failed (prof t).
Proof.
  intros p t. split; [reflexivity|].
  exact (xp_recorded_by_gain t Sample.user eq_refl).
Defined.

(** C4, as stated, has the loop record a 200 answer with zero awarded
    experience as a success. Here the story request is answered 200 with
    [awardedXp = 0]; the turn ends with "xp fail" on the profile. *)
Lemma zero_xp_recorded_as_failure :
  let p := Sample.profile "xp" true false Sample.no_goals in
  let wk := worker_step (Sample.world_of [Answer (Sample.xp_reply 0)] 0)
              (Sample.worker p PcLoop) in
  ok_requests (history wk)
  = [request_of (client p) "POST" (UrlStory "en") (StoryBody "en" 0)]
  /\ awarded (Sample.xp_reply 0) = Ok 0
  /\ last_msg (wprof wk) = MsgXpFail
  /\ last_msg (wprof wk) <> MsgXp 0
  /\ c_user (client (wprof wk)) = Some Sample.user.
Proof. repeat split; try reflexivity. discriminate. Qed.

Lemma same_oracles_refl w : same_oracles w w.
Proof. by repeat split. Qed.

Lemma same_oracles_trans w1 w2 w3 :
  same_oracles w1 w2 -> same_oracles w2 w3 -> same_oracles w1 w3.
Proof. intros (? & ? & ? & ?) (? & ? & ? & ?). repeat split; congruence. Qed.

Lemma adds_trans t1 t2 t3 new1 new2 :
  adds t1 t2 new1 -> adds t2 t3 new2 -> adds t1 t3 (new1 ++ new2).
Proof.
  intros (Hp1 & Ht1 & Ho1 & Hk1) (Hp2 & Ht2 & Ho2 & Hk2).
  split; [congruence|]. split; [by rewrite Ht2, Ht1, app_assoc|].
  split; [by eapply same_oracles_trans|congruence].
Qed.

Lemma adds_log e t :
  adds t {| prof := prof t; world := snd (log e (world t)) |} [e].
Proof. by repeat split. Qed.

(** [_request] on a task: what it adds, and which of its exchanges was
    answered with 200. *)
Lemma io_request_adds c meth u body t :
  let r := io (_request c meth u body) t in
  exists mid,
    adds t (snd r) mid
    /\ calls mid = []
    /\ ok_requests mid =
       match fst r with
       | Ok resp => if status_code resp =? 200
                    then [request_of c meth u body] else []
       | Raise _ => []
       end.
Proof.
  intros r. subst r.
  destruct (io_request c meth u body t)
    as (mid & Hp & Htr & Hcalls & _ & Hor & Hticks & Hpost).
  exists mid. split; [unfold adds; auto|]. split; [done|].
  destruct (fst (io (_request c meth u body) t)) as [resp|e]; [|done].
  destruct Hpost as (pre & -> & Hpre).
  rewrite ok_requests_app, Hpre. unfold ok_requests. cbn.
  by destruct (status_code resp =? 200).
Qed.

Lemma farm_gem_once_spec t :
  let r := farm_gem_once t in
  exists mid,
    adds t (snd r) (EvCall CGem :: mid)
    /\ calls mid = [] /\ finalized mid = [].
Proof.
  intros r. subst r. unfold farm_gem_once.
  rewrite run_bind, io_log. cbv [bind self]. cbn [prof world].
  pose proof (adds_log (EvCall CGem) t) as Hlog.
  set (t1 := {| prof := prof t; world := (log (EvCall CGem) (world t)).2 |}) in *.
  assert (Hnone : exists mid, adds t t1 (EvCall CGem :: mid)
                              /\ calls mid = [] /\ finalized mid = []).
  { exists []. done. }
  destruct (c_sub (client (prof t))) as [sub|] eqn:Hsub; [|exact Hnone].
  destruct (c_user (client (prof t))) as [u|] eqn:Hu; [|exact Hnone].
  cbn [truthy]. destruct (negb (String.eqb sub "")); [|exact Hnone].
  destruct (io_request_adds (client (prof t)) "PATCH" (UrlReward sub)
              (RewardBody (learningLanguage u) (fromLanguage u)) t1)
    as (mid & Hadds & Hcalls & Hok).
  destruct (io (_request _ _ _ _) t1) as [[resp|e] t2]; cbn [fst snd ret] in *;
    exists mid; (split; [exact (adds_trans _ _ _ _ _ Hlog Hadds)|]);
    (split; [done|]); unfold finalized; rewrite Hok; [|done].
  by destruct (status_code resp =? 200).
Qed.

Lemma create_session_spec t :
  let r := _create_session t in
  exists mid, adds t (snd r) mid /\ calls mid = [] /\ finalized mid = [].
Proof.
  intros r. subst r. unfold _create_session. cbv [bind self].
  assert (Hnone : exists mid, adds t t mid /\ calls mid = [] /\ finalized mid = []).
  { exists []. split; [|done]. split; [done|]. split; [by rewrite app_nil_r|].
    split; [apply same_oracles_refl|done]. }
  destruct (c_user (client (prof t))) as [u|]; [|exact Hnone].
  destruct (io_request_adds (client (prof t)) "POST" UrlSessions
              (SessionBody (fromLanguage u) (learningLanguage u)) t)
    as (mid & Hadds & Hcalls & Hok).
  assert (Hfin : finalized mid = []).
  { unfold finalized. rewrite Hok.
    destruct (fst (io (_request _ _ _ _) t)) as [resp|e]; [|done].
    by destruct (status_code resp =? 200). }
  destruct (io (_request _ _ _ _) t) as [[resp|e] t2]; cbn [fst snd] in *.
  - exists mid. destruct (status_code resp =? 200); [destruct (json resp)|]; done.
  - exists mid. done.
Qed.

Lemma update_session_spec sess start_ts end_ts t :
  let r := _update_session sess start_ts end_ts t in
  exists mid, adds t (snd r) mid /\ calls mid = []
              /\ bump_outcome start_ts mid (fst r).
Proof.
  intros r. subst r. unfold _update_session.
  assert (Hnone : forall why, exists mid,
            adds t t mid /\ calls mid = []
            /\ bump_outcome start_ts mid (Ok (false, why))).
  { intros why. exists []. split; [|done]. split; [done|].
    split; [by rewrite app_nil_r|]. split; [apply same_oracles_refl|done]. }
  destruct (negb (nonempty sess)); [apply Hnone|].
  destruct (session_id sess) as [sid|]; [|apply Hnone].
  cbn [truthy]. destruct (negb (String.eqb sid "")); [|apply Hnone].
  cbv [bind self].
  destruct (io_request_adds (client (prof t)) "PUT" (UrlSession sid)
              (SessionUpdate sid start_ts end_ts) t)
    as (mid & Hadds & Hcalls & Hok).
  destruct (io (_request _ _ _ _) t) as [[resp|e] t2]; cbn [fst snd] in *.
  - destruct (status_code resp =? 200); cbv [ret]; cbn [fst snd];
      exists mid; (split; [done|]); (split; [done|]);
      unfold bump_outcome, finalized; by rewrite Hok.
  - exists mid. split; [done|]. split; [done|].
    unfold bump_outcome, finalized. by rewrite Hok.
Qed.

Lemma streak_bump_once_spec ts t :
  let r := streak_bump_once ts t in
  exists mid,
    adds t (snd r) (EvCall (CBump ts) :: mid)
    /\ calls mid = []
    /\ bump_outcome ts mid (fst r).
Proof.
  intros r. subst r. unfold streak_bump_once.
  rewrite run_bind, io_log. rewrite run_bind.
  pose proof (adds_log (EvCall (CBump ts)) t) as Hlog.
  set (t1 := {| prof := prof t; world := (log (EvCall (CBump ts)) (world t)).2 |}) in *.
  destruct (create_session_spec t1) as (mid1 & Hadds1 & Hcalls1 & Hfin1).
  destruct (_create_session t1) as [[sess|e] t2]; cbn [fst snd] in *.
  2:{ exists mid1. split; [exact (adds_trans _ _ _ _ _ Hlog Hadds1)|]. done. }
  assert (Hfail : exists mid,
            adds t t2 (EvCall (CBump ts) :: mid) /\ calls mid = []
            /\ bump_outcome ts mid (Ok (false, WhyCreateFail))).
  { exists mid1. split; [exact (adds_trans _ _ _ _ _ Hlog Hadds1)|]. done. }
  destruct sess as [j|]; [|exact Hfail].
  destruct (nonempty j); [|exact Hfail].
  destruct (update_session_spec j ts (ts + 60) t2) as (mid2 & Hadds2 & Hcalls2 & Hout).
  exists (mid1 ++ mid2)%list.
  split; [exact (adds_trans _ _ _ _ _ (adds_trans _ _ _ _ _ Hlog Hadds1) Hadds2)|].
  split; [by rewrite calls_app, Hcalls1, Hcalls2|].
  unfold bump_outcome in *. rewrite finalized_app, Hfin1. exact Hout.
Qed.

Lemma farm_xp_once_adds t :
  let r := farm_xp_once t in
  exists mid,
    prof (snd r) = prof t
    /\ trace_of (snd r) = (trace_of t ++ EvCall CXp :: mid)%list
    /\ calls mid = [].
Proof.
  intros r. subst r. destruct (c_user (client (prof t))) as [u|] eqn:Hu.
  - destruct (farm_xp_once_spec t u Hu) as (rq & mid & ? & _ & _ & ? & ? & _).
    exists mid. auto.
  - exists []. unfold farm_xp_once. rewrite run_bind, io_log.
    cbv [bind self]. cbn [prof world]. rewrite Hu. done.
Qed.

Lemma bookkeeping_ret : bookkeeping (ret tt).
Proof. by intros t. Qed.

Lemma bookkeeping_set_msg m : bookkeeping (set_msg m).
Proof. by intros t. Qed.

Lemma bookkeeping_add (f : Z -> UserInfo -> UserInfo) m :
  bookkeeping ((let* u := self_user in set_user (Some (f 0 u)));; set_msg m).
Proof.
  intros t. cbv [bind self_user self set_user set_msg on_prof modify ret raise].
  by destruct (c_user (client (prof t))).
Qed.

Lemma bookkeeping_xp g : bookkeeping (add_xp g;; set_msg (MsgXp g)).
Proof. apply (bookkeeping_add (fun _ u => with_totalXp (totalXp u + g) u)). Qed.
Lemma bookkeeping_gems : bookkeeping (add_gems 30;; set_msg MsgGem).
Proof. apply (bookkeeping_add (fun _ u => with_gems (gems u + 30) u)). Qed.
Lemma bookkeeping_streak : bookkeeping (add_streak 1;; set_msg MsgStreak).
Proof. apply (bookkeeping_add (fun _ u => with_streak (streak u + 1) u)). Qed.

Lemma add_streak_msg t :
  fst ((add_streak 1;; set_msg MsgStreak) t) = Ok tt ->
  last_msg (prof (snd ((add_streak 1;; set_msg MsgStreak) t))) = MsgStreak.
Proof.
  cbv [bind add_streak self_user self set_user set_msg on_prof modify ret raise].
  by destruct (c_user (client (prof t))).
Qed.

Lemma next_streak_ts_world t :
  trace_of (snd (next_streak_ts t)) = trace_of t
  /\ c_delay (client (prof (snd (next_streak_ts t)))) = c_delay (client (prof t)).
Proof.
  cbv [next_streak_ts bind io time_now self_user self the_prof ret raise].
  cbn [world prof]. by destruct (c_user (client (prof t))).
Qed.

Lemma calls_cons_call c tr : calls (EvCall c :: tr) = c :: calls tr.
Proof. reflexivity. Qed.
Lemma calls_cons_sleep d tr : calls (EvSleep d :: tr) = calls tr.
Proof. reflexivity. Qed.

Create Rewrite HintDb calls.
#[local] Hint Rewrite calls_cons_call calls_cons_sleep calls_app : calls.

Ltac norm_app :=
  repeat (rewrite <- app_assoc || rewrite <- app_comm_cons); cbn [app].

Ltac calls_of H1 H2 :=
  autorewrite with calls; rewrite ?H1, ?H2; autorewrite with calls;
  rewrite ?H1, ?H2; reflexivity.

Lemma calls_combo_trace m1 d m2 ts m3 :
  calls m1 = [] -> calls m2 = [] -> calls m3 = [] ->
  calls (combo_trace m1 d m2 ts m3) = [CXp; CGem; CBump ts].
Proof.
  intros H1 H2 H3. unfold combo_trace.
  change (EvCall CXp :: m1 ++ EvSleep d :: EvCall CGem :: m2 ++ EvCall (CBump ts) :: m3)%list
    with ([EvCall CXp] ++ m1 ++ [EvSleep d; EvCall CGem] ++ m2
          ++ [EvCall (CBump ts)] ++ m3)%list.
  rewrite !calls_app, H1, H2, H3. reflexivity.
Qed.

(** The trace and the last message of [mode_combo]. *)
Lemma combo_trace_spec t :
  let r := mode_combo t in
  exists new,
    trace_of (snd r) = (trace_of t ++ new)%list
    /\ match fst r with
       | Ok _ =>
           exists m1 u1 m2 ts m3,
             new = combo_trace m1 (sleep_time (c_delay (client (prof t))) u1) m2 ts m3
             /\ calls m1 = [] /\ calls m2 = [] /\ calls m3 = []
             /\ ((finalized m3 = [ts] /\ last_msg (prof (snd r)) = MsgStreak)
                 \/ (finalized m3 = []
                     /\ exists why, last_msg (prof (snd r)) = MsgStreakFail why))
       | Raise _ =>
           calls new = [CXp] \/ calls new = [CXp; CGem]
           \/ exists ts, calls new = [CXp; CGem; CBump ts]
       end.
Proof.
  intros r. subst r. unfold mode_combo.
  (* experience *)
  rewrite (run_bind farm_xp_once).
  destruct (farm_xp_once_adds t) as (m1 & Hp1 & Htr1 & Hc1).
  destruct (farm_xp_once t) as [[g|e] t1]; cbn [fst snd] in *.
  2:{ exists (EvCall CXp :: m1). split; [done|]. left.
      change (EvCall CXp :: m1) with ([EvCall CXp] ++ m1)%list.
      by rewrite calls_app, Hc1. }
  rewrite run_bind.
  assert (Hb1 : bookkeeping (if g >? 0 then add_xp g;; set_msg (MsgXp g) else ret tt))
    by (destruct (g >? 0); [apply bookkeeping_xp|apply bookkeeping_ret]).
  destruct (Hb1 t1) as [Hw1 Hd1].
  destruct ((if g >? 0 then add_xp g;; set_msg (MsgXp g) else ret tt) t1)
    as [[[]|e] t1']; cbn [fst snd] in *.
  2:{ exists (EvCall CXp :: m1). unfold trace_of in *. rewrite Hw1.
      split; [done|]. left.
      change (EvCall CXp :: m1) with ([EvCall CXp] ++ m1)%list.
      by rewrite calls_app, Hc1. }
  (* the delay *)
  rewrite run_bind. cbv [self]. rewrite run_bind.
  destruct (sleep_with_jitter_frame (c_delay (client (prof t1'))) (world t1'))
    as (Hsl & _ & _ & _ & _ & _ & _ & _ & Htrs).
  set (u1 := rand (world t1') (draws (world t1'))) in *.
  set (t2 := snd (io (_sleep_with_jitter (c_delay (client (prof t1')))) t1')).
  assert (Hio : io (_sleep_with_jitter (c_delay (client (prof t1')))) t1' = (Ok tt, t2)).
  { subst t2. unfold io.
    destruct (_sleep_with_jitter (c_delay (client (prof t1'))) (world t1'))
      as [res w2]. cbn [fst snd] in *. by rewrite Hsl. }
  rewrite Hio.
  assert (Hd : c_delay (client (prof t1')) = c_delay (client (prof t)))
    by congruence.
  assert (Htr2 : trace_of t2 =
            (trace_of t ++ EvCall CXp :: m1
               ++ [EvSleep (sleep_time (c_delay (client (prof t))) u1)])%list).
  { subst t2. unfold io, trace_of in *.
    destruct (_sleep_with_jitter (c_delay (client (prof t1'))) (world t1'))
      as [res w2]. cbn [fst snd world] in *.
    rewrite Htrs, Hw1, Htr1, Hd, <- app_assoc. done. }
  clearbody t2.
  (* currency *)
  rewrite (run_bind farm_gem_once).
  destruct (farm_gem_once_spec t2) as (m2 & (Hp2 & Htr3 & _ & _) & Hc2 & _).
  destruct (farm_gem_once t2) as [[ok|e] t3]; cbn [fst snd] in *.
  2:{ eexists. rewrite Htr3, Htr2, <- !app_assoc. split; [reflexivity|].
      right. left. calls_of Hc1 Hc2. }
  rewrite run_bind.
  assert (Hb2 : bookkeeping (if ok then add_gems 30;; set_msg MsgGem else ret tt))
    by (destruct ok; [apply bookkeeping_gems|apply bookkeeping_ret]).
  destruct (Hb2 t3) as [Hw3 _].
  destruct ((if ok then add_gems 30;; set_msg MsgGem else ret tt) t3)
    as [[[]|e] t3']; cbn [fst snd] in *.
  2:{ eexists. unfold trace_of in *. rewrite Hw3, Htr3, Htr2, <- !app_assoc.
      split; [reflexivity|].
      right. left. calls_of Hc1 Hc2. }
  assert (Htr3' : trace_of t3' =
            (trace_of t ++ EvCall CXp :: m1
               ++ EvSleep (sleep_time (c_delay (client (prof t))) u1)
               :: EvCall CGem :: m2)%list).
  { unfold trace_of in *. rewrite Hw3, Htr3, Htr2. by norm_app. }
  (* streak *)
  rewrite (run_bind next_streak_ts).
  destruct (next_streak_ts_world t3') as [Htr4 _].
  destruct (next_streak_ts t3') as [[ts|e] t4]; cbn [fst snd] in *.
  2:{ eexists. rewrite Htr4, Htr3'. split; [reflexivity|].
      right. left. calls_of Hc1 Hc2. }
  rewrite (run_bind (streak_bump_once ts)).
  destruct (streak_bump_once_spec ts t4) as (m3 & (Hp5 & Htr5 & _ & _) & Hc3 & Hout).
  assert (Hnew : forall t6, trace_of t6 = trace_of (snd (streak_bump_once ts t4)) ->
            trace_of t6 =
            (trace_of t ++ combo_trace m1 (sleep_time (c_delay (client (prof t))) u1)
                             m2 ts m3)%list).
  { intros t6 ->. rewrite Htr5, Htr4, Htr3'. unfold combo_trace. by norm_app. }
  destruct (streak_bump_once ts t4) as [[[ok5 why]|e] t5]; cbn [fst snd] in *.
  2:{ eexists. split; [by apply Hnew|]. right. right. exists ts.
      by apply calls_combo_trace. }
  destruct ok5.
  - destruct Hout as [_ Hfin].
    destruct (bookkeeping_streak t5) as [Hw5 _].
    pose proof (add_streak_msg t5) as Hmsg.
    destruct ((add_streak 1;; set_msg MsgStreak) t5) as [[[]|e] t6];
      cbn [fst snd] in *.
    + eexists. split; [apply Hnew; unfold trace_of; by rewrite Hw5|].
      exists m1, u1, m2, ts, m3. repeat split; auto.
    + eexists. split; [apply Hnew; unfold trace_of; by rewrite Hw5|].
      right. right. exists ts. by apply calls_combo_trace.
  - cbv [set_msg on_prof modify]. cbn [fst snd prof].
    eexists. split; [by apply Hnew|].
    exists m1, u1, m2, ts, m3. repeat split; auto. right. split; [done|].
    by exists why.
Qed.

Lemma iteration_raise t t1 e :
  running (prof t) = true -> paused (prof t) = false ->
  strategy t = (Raise e, t1) ->
  iteration t =
  (Ok PcFinally,
   {| prof := with_running false (with_last_msg (MsgException e) (prof t1));
      world := world t1 |}).
Proof.
  intros Hrun Hpause Hstrat. unfold iteration.
  cbv [bind the_prof catch]. rewrite Hrun, Hpause. cbn [negb].
  rewrite Hstrat. reflexivity.
Qed.

(** C6, as amended. A rotating-combo iteration whose phases all return
    enters the experience farm, sleeps one jittered delay, enters the
    currency farm, then the streak farm, whatever the first two returned;
    its last-status message is then the streak phase's: "+1 streak" when
    the session was finalized, "streak: why" when not. A phase that raises
    ends the iteration there, and the loop records the exception and stops
    the profile. *)
Theorem combo_phases t :
  let r := mode_combo t in
  (exists new,
     trace_of (snd r) = (trace_of t ++ new)%list
     /\ match fst r with
        | Ok _ =>
            exists m1 u1 m2 ts m3,
              new = combo_trace m1 (sleep_time (c_delay (client (prof t))) u1) m2 ts m3
              /\ calls m1 = [] /\ calls m2 = [] /\ calls m3 = []
              /\ ((finalized m3 = [ts] /\ last_msg (prof (snd r)) = MsgStreak)
                  \/ (finalized m3 = []
                      /\ exists why, last_msg (prof (snd r)) = MsgStreakFail why))
        | Raise _ =>
            calls new = [CXp] \/ calls new = [CXp; CGem]
            \/ exists ts, calls new = [CXp; CGem; CBump ts]
        end)
  /\ (forall e, mode (prof t) = "combo" -> running (prof t) = true ->
        paused (prof t) = false -> fst r = Raise e ->
        iteration t =
        (Ok PcFinally,
         {| prof := with_running false (with_last_msg (MsgException e) (prof (snd r)));
            world := world (snd r) |})).
Proof.
  intros r. split; [apply combo_trace_spec|].
  intros e Hmode Hrun Hpause He. apply iteration_raise; [done|done|].
  unfold strategy. cbv [bind the_prof]. rewrite Hmode. cbn.
  subst r. destruct (mode_combo t) as [res t1]. cbn in He. by subst res.
Qed.

(** C6, as stated, lets no failure of a phase abort the later ones. Here
    the transport fails five times: the experience phase raises, neither
    the currency nor the streak phase is entered, and the profile stops. *)
Lemma combo_aborts_on_transport_failure :
  let p := Sample.profile "combo" true false Sample.no_goals in
  let wk := worker_step (Sample.world_of (replicate 5 Failure) 0)
              (Sample.worker p PcLoop) in
  calls (history wk) = [CXp]
  /\ length (requests (history wk)) = 5%nat
  /\ running (wprof wk) = false
  /\ last_msg (wprof wk) = MsgException HTTPError
  /\ pc wk = PcFinally.
Proof. repeat split; reflexivity. Qed.

(** ** Streak repair *)

Lemma repaired_0 u : repaired 0 u = u.
Proof. unfold repaired, with_streak. destruct u; cbn. f_equal. lia. Qed.

Lemma repaired_S n u : repaired n (with_streak (streak u + 1) u) = repaired (S n) u.
Proof. unfold repaired, with_streak. cbn. f_equal. lia. Qed.

Lemma finalized_cons_call c tr : finalized (EvCall c :: tr) = finalized tr.
Proof. reflexivity. Qed.
Lemma finalized_sleep d : finalized [EvSleep d] = [].
Proof. reflexivity. Qed.

Lemma with_user_same p u :
  c_user (client p) = Some u -> with_client (with_user (Some u) (client p)) p = p.
Proof.
  destruct p as [? ? ? ? ? c ? ? ? ? ?], c. cbn. by intros ->.
Qed.

(** The loop of [streak_repair], from a task whose user is [u0]. *)
Lemma repair_attempts_spec now idx : forall worked t u0,
  c_user (client (prof t)) = Some u0 ->
  let r := repair_attempts idx now worked t in
  exists new,
    trace_of (snd r) = (trace_of t ++ new)%list
    /\ prof (snd r)
       = with_client (with_user (Some (repaired (length (finalized new)) u0))
                        (client (prof t))) (prof t)
    /\ sublist (finalized new) (stamps now idx)
    /\ match fst r with
       | Ok count =>
           count = worked + Z.of_nat (length (finalized new))
           /\ exists segs,
                new = concat segs
                /\ Forall2 (attempt (c_delay (client (prof t)))) (stamps now idx) segs
       | Raise _ =>
           exists k, (k < length idx)%nat
                     /\ calls new = CBump <$> take (S k) (stamps now idx)
       end.
Proof.
  induction idx as [|i rest IH]; intros worked t u0 Hu r; subst r.
  - exists []. cbn. rewrite app_nil_r, repaired_0.
    split; [done|]. split; [by rewrite with_user_same|].
    split; [constructor|]. split; [lia|]. exists []. split; [done|constructor].
  - cbn [repair_attempts]. rewrite run_bind.
    set (ts := now - (i + 1) * 86400).
    destruct (streak_bump_once_spec ts t) as (mid & (Hp1 & Htr1 & _ & _) & Hc1 & Hout).
    destruct (streak_bump_once ts t) as [[[ok why]|e] t1]; cbn [fst snd] in *.
    2:{ exists (EvCall (CBump ts) :: mid).
        rewrite finalized_cons_call, Hout. cbn [length]. rewrite repaired_0.
        split; [done|]. split; [by rewrite Hp1, with_user_same|].
        split; [apply sublist_nil_l|].
        exists 0%nat. split; [cbn; lia|]. rewrite calls_cons_call, Hc1.
        reflexivity. }
    rewrite run_bind.
    (* the counter *)
    set (book := if ok then _ else _).
    assert (Hbook : exists n : nat,
              book t1 = (Ok (worked + Z.of_nat n),
                         {| prof := with_client
                                      (with_user (Some (repaired n u0)) (client (prof t)))
                                      (prof t);
                            world := world t1 |})
              /\ finalized mid = (if ok then [ts] else [])
              /\ n = length (finalized mid)).
    { subst book. destruct ok.
      - destruct Hout as [_ Hfin]. exists 1%nat.
        cbv [bind self_user self set_user on_prof modify ret].
        rewrite Hp1, Hu, Hfin. cbn [fst snd prof world length].
        split; [|done]. rewrite Hp1. reflexivity.
      - exists 0%nat. cbv [ret]. rewrite Hout, Z.add_0_r, repaired_0.
        cbn [length]. split; [|done]. rewrite with_user_same by done.
        rewrite <- Hp1. by destruct t1. }
    destruct Hbook as (n & Hbook & Hfin & Hn). rewrite Hbook. clear Hbook book.
    set (t1' := {| prof := _; world := world t1 |}).
    assert (Hu1 : c_user (client (prof t1')) = Some (repaired n u0)) by done.
    assert (Hd1 : c_delay (client (prof t1')) = c_delay (client (prof t))) by done.
    (* the delay *)
    rewrite run_bind. cbv [self]. rewrite run_bind.
    destruct (sleep_with_jitter_frame (c_delay (client (prof t1'))) (world t1'))
      as (Hsl & _ & _ & _ & _ & _ & _ & _ & Htrs).
    set (rnd := rand (world t1') (draws (world t1'))) in *.
    set (t2 := snd (io (_sleep_with_jitter (c_delay (client (prof t1')))) t1')).
    assert (Hio : io (_sleep_with_jitter (c_delay (client (prof t1')))) t1' = (Ok tt, t2)).
    { subst t2. unfold io.
      destruct (_sleep_with_jitter (c_delay (client (prof t1'))) (world t1'))
        as [res w2]. cbn [fst snd] in *. by rewrite Hsl. }
    rewrite Hio.
    assert (Hp2 : prof t2 = prof t1').
    { subst t2. unfold io.
      by destruct (_sleep_with_jitter (c_delay (client (prof t1'))) (world t1')). }
    assert (Htr2 : trace_of t2 =
              (trace_of t ++ EvCall (CBump ts) :: mid
                 ++ [EvSleep (sleep_time (c_delay (client (prof t))) rnd)])%list).
    { subst t2. unfold io, trace_of in *.
      destruct (_sleep_with_jitter (c_delay (client (prof t1'))) (world t1'))
        as [res w2]. cbn [fst snd world] in *.
      rewrite Htrs, Hd1. change (world t1') with (world t1). rewrite Htr1.
      by norm_app. }
    clearbody t2.
    assert (Hu2 : c_user (client (prof t2)) = Some (repaired n u0)) by (by rewrite Hp2).
    destruct (IH (worked + Z.of_nat n) t2 (repaired n u0) Hu2)
      as (new & Htr & Hprof & Hsub & Hpost).
    set (seg := (EvCall (CBump ts) :: mid
                 ++ [EvSleep (sleep_time (c_delay (client (prof t))) rnd)])%list) in *.
    assert (Hfseg : finalized seg = finalized mid).
    { subst seg. rewrite finalized_cons_call, finalized_app, finalized_sleep.
      by rewrite app_nil_r. }
    exists (seg ++ new)%list.
    split; [rewrite Htr, Htr2; by rewrite app_assoc|].
    rewrite finalized_app, Hfseg, length_app, <- Hn.
    split.
    { rewrite Hprof, Hp2. subst t1'. cbn [prof client with_client with_user].
      unfold repaired, with_streak. cbn.
      rewrite Nat2Z.inj_add, Z.add_assoc. reflexivity. }
    split.
    { cbn [stamps fmap list_fmap]. fold ts. rewrite Hfin.
      destruct ok; cbn [app]; [by apply sublist_skip|by apply sublist_cons]. }
    destruct (fst (repair_attempts rest now (worked + Z.of_nat n) t2)) as [count|e].
    + destruct Hpost as (Hcount & segs & Hnew & Hall).
      split; [lia|]. exists (seg :: segs). split; [by rewrite Hnew|].
      cbn [stamps fmap list_fmap]. constructor.
      * exists mid, rnd. done.
      * rewrite Hp2 in Hall. exact Hall.
    + destruct Hpost as (k & Hk & Hcalls).
      exists (S k). split; [cbn; lia|].
      rewrite calls_app, Hcalls. subst seg.
      rewrite calls_cons_call, calls_app, Hc1. cbn. done.
Qed.

Lemma to_ts_spec s t :
  _to_ts s t =
  (Ok (fst (reading (world t) (ticks (world t)) s)),
   {| prof := prof t;
      world := {| net := net (world t); clock := clock (world t);
                  rand := rand (world t); fromiso := fromiso (world t);
                  sent := sent (world t);
                  ticks := snd (reading (world t) (ticks (world t)) s);
                  draws := draws (world t); trace := trace (world t) |} |}).
Proof.
  unfold _to_ts, io, reading, time_now.
  destruct (fromiso (world t) s); cbn; [|done].
  by destruct t as [p []].
Qed.

Lemma range_length n : length (range n) = Z.to_nat n.
Proof. unfold range. by rewrite length_fmap, length_seq. Qed.

Lemma range_lookup n k i : range n !! k = Some i -> i = Z.of_nat k.
Proof.
  unfold range. rewrite list_lookup_fmap.
  destruct (seq 0 (Z.to_nat n) !! k) as [j|] eqn:Hj; [|done].
  apply lookup_seq in Hj as [-> _]. cbn. by intros [= <-].
Qed.

Lemma check_targets_stopped p :
  running p = false -> running (_check_targets p) = false.
Proof.
  intros Hr. unfold _check_targets.
  destruct (c_user (client p)) as [u|]; [|done].
  by destruct (targets_done p u).
Qed.

Lemma repair_turn_stops t :
  mode (prof t) = "streak_repair" ->
  running (prof t) = true -> paused (prof t) = false ->
  running (prof (snd (iteration t))) = false.
Proof.
  intros Hmode Hrun Hpause.
  assert (Hstrat : strategy t = mode_streak_repair t).
  { unfold strategy. cbv [bind the_prof]. by rewrite Hmode. }
  destruct (mode_streak_repair t) as [[[]|e] t1] eqn:Hm.
  - rewrite (iteration_ok t t1 Hrun Hpause) by congruence. cbn [snd prof].
    apply check_targets_stopped.
    unfold mode_streak_repair in Hm. rewrite run_bind in Hm.
    destruct (streak_repair t) as [[[fixed why]|e] t0]; [|done].
    rewrite run_bind in Hm.
    destruct (fixed >? 0); cbv [set_msg set_running on_prof modify] in Hm;
      by injection Hm as <-.
  - rewrite (iteration_raise t t1 e Hrun Hpause) by congruence. done.
Qed.

Lemma streak_repair_eq t u :
  c_user (client (prof t)) = Some u ->
  let cur := default ∅ (streakData u !! "currentStreak") in
  let readings := repair_readings (world t) cur in
  let need := Z.max 0 (expected_streak (fst (fst readings)) (snd (fst readings))
                       - streak u) in
  cur <> ∅ ->
  streak_repair t =
  (let ra := repair_attempts (range need) (snd readings) 0 (repair_start t cur) in
   (match fst ra with
    | Ok worked => Ok (worked, if worked =? 0 then WhyNoChange else WhyOk)
    | Raise e => Raise e
    end, snd ra)).
Proof.
  intros Hu cur readings need Hcur. unfold streak_repair.
  rewrite run_bind, io_log. cbv [self]. rewrite run_bind. cbn [prof world].
  rewrite Hu. fold cur. rewrite bool_decide_eq_false_2 by done.
  rewrite run_bind, to_ts_spec. rewrite run_bind, to_ts_spec.
  rewrite run_bind. unfold io at 1, time_now at 1.
  rewrite run_bind.
  match goal with
  | |- context [repair_attempts ?l ?c 0 ?t3] =>
      change l with (range need); change c with (snd readings);
      change t3 with (repair_start t cur)
  end.
  cbv zeta.
  by destruct (repair_attempts (range need) (snd readings) 0 (repair_start t cur))
    as [[worked|e] t4].
Qed.

(** C3, as amended. With the streak record present, [streak_repair] makes
    the backfill attempts due, in order, at [now - (i+1) * 86400] for
    [i = 0 .. deficit - 1], where [deficit = max(0, expected - streak)] and
    [expected = max(1, (end - start) div 86400 + 1)], each followed by one
    jittered delay, unless an attempt raises, which ends the invocation at
    that attempt with no result; the in-memory streak grows by one per
    session finalized; when it returns, it returns their number with "ok",
    or 0 with "no_change". With the record absent it returns
    (0, "no_currentStreak") and attempts nothing. After the one invocation
    the loop leaves the profile stopped, whatever the outcome. *)
Theorem repair_backfills t u :
  c_user (client (prof t)) = Some u ->
  let cur := default ∅ (streakData u !! "currentStreak") in
  let readings := repair_readings (world t) cur in
  let now := snd readings in
  let need := Z.max 0 (expected_streak (fst (fst readings)) (snd (fst readings))
                       - streak u) in
  let due := stamps now (range need) in
  let r := streak_repair t in
  (cur = ∅ ->
     r = (Ok (0, WhyNoCurrentStreak),
          {| prof := prof t; world := snd (log (EvCall CRepair) (world t)) |}))
  /\ (cur <> ∅ ->
      length due = Z.to_nat need
      /\ (forall k ts, due !! k = Some ts -> ts = now - (Z.of_nat k + 1) * 86400)
      /\ exists new,
           trace_of (snd r) = (trace_of t ++ EvCall CRepair :: new)%list
           /\ prof (snd r)
              = with_client (with_user (Some (repaired (length (finalized new)) u))
                               (client (prof t))) (prof t)
           /\ sublist (finalized new) due
           /\ match fst r with
              | Ok (count, why) =>
                  (exists segs,
                     new = concat segs
                     /\ Forall2 (attempt (c_delay (client (prof t)))) due segs)
                  /\ count = Z.of_nat (length (finalized new))
                  /\ why = (if count =? 0 then WhyNoChange else WhyOk)
              | Raise _ =>
                  exists k, (k < length due)%nat
                            /\ calls new = CBump <$> take (S k) due
              end)
  /\ (mode (prof t) = "streak_repair" -> running (prof t) = true ->
      paused (prof t) = false ->
      running (prof (snd (iteration t))) = false).
Proof.
  intros Hu cur readings now need due r.
  split; [|split; [|apply repair_turn_stops]].
  - intros Hcur. subst r. unfold streak_repair.
    rewrite run_bind, io_log. cbv [bind self]. cbn [prof world]. rewrite Hu.
    fold cur. rewrite Hcur. reflexivity.
  - intros Hcur.
    split; [subst due; unfold stamps; by rewrite length_fmap, range_length|].
    split.
    { intros k ts. subst due. unfold stamps. rewrite list_lookup_fmap.
      destruct (range need !! k) as [i|] eqn:Hi; [|done].
      apply range_lookup in Hi as ->. cbn. by intros [= <-]. }
    subst r. rewrite (streak_repair_eq t u Hu Hcur). fold cur readings need now.
    cbv zeta.
    assert (Hu3 : c_user (client (prof (repair_start t cur))) = Some u) by done.
    destruct (repair_attempts_spec now (range need) 0 (repair_start t cur) u Hu3)
      as (new & Htr & Hprof & Hsub & Hpost).
    exists new.
    change (trace_of (repair_start t cur))
      with (trace_of t ++ [EvCall CRepair])%list in Htr.
    change (prof (repair_start t cur)) with (prof t) in Hprof, Hpost.
    fold due in Hsub, Hpost.
    destruct (repair_attempts (range need) now 0 (repair_start t cur))
      as [[count|e] t4]; cbn [fst snd] in *.
    + split; [rewrite Htr; by norm_app|]. split; [done|]. split; [done|].
      destruct Hpost as (Hcount & segs & Hnew & Hall).
      split; [by exists segs|]. split; [lia|done].
    + split; [rewrite Htr; by norm_app|]. split; [done|]. split; [done|].
      destruct Hpost as (k & Hk & Hcalls). exists k.
      split; [|done]. subst due. unfold stamps. by rewrite length_fmap.
Qed.

Lemma repair_backfills_witness :
  let t := Sample.repair_task [] in
  c_user (client (prof t)) = Some Sample.streak_user
  /\ running (prof (snd (iteration t))) = false.
Proof.
  intros t. split; [reflexivity|].
  exact (proj2 (proj2 (repair_backfills t Sample.streak_user eq_refl))
           eq_refl eq_refl eq_refl).
Defined.

(** The design's example: the record says five days, the counter three; the
    sessions are created and finalized at once; two attempts, a day apart,
    and the counter at five. *)
Example repair_two_days :
  let t := Sample.repair_task
             [Answer (Sample.session_reply "a"); Answer (Sample.reply 200);
              Answer (Sample.session_reply "b"); Answer (Sample.reply 200)] in
  fst (streak_repair t) = Ok (2, WhyOk)
  /\ calls (trace_of (snd (streak_repair t)))
     = [CRepair; CBump (1704500000 - 86400); CBump (1704500000 - 2 * 86400)]
  /\ finalized (trace_of (snd (streak_repair t)))
     = [1704500000 - 86400; 1704500000 - 2 * 86400]
  /\ (streak <$> c_user (client (prof (snd (streak_repair t))))) = Some 5.
Proof. vm_compute. repeat split; reflexivity. Qed.

(** C3, as stated, has every invocation with the record present make
    exactly [deficit] attempts and return a count. Here the deficit is two
    and the transport fails five times: the first attempt raises, the
    second is never made, and nothing is returned. *)
Lemma repair_aborts_on_transport_failure :
  let t := Sample.repair_task (replicate 5 Failure) in
  Z.max 0 (expected_streak 1704067200 1704412800 - 3) = 2
  /\ repair_readings (world t) (<["startDate" := "2024-01-01"]> {[ "endDate" := "2024-01-05" ]})
     = (1704067200, 1704412800, 1704500000)
  /\ fst (streak_repair t) = Raise HTTPError
  /\ calls (trace_of (snd (streak_repair t))) = [CRepair; CBump (1704500000 - 86400)].
Proof. vm_compute. repeat split; reflexivity. Qed.

(** The design's scenario: currency farm with the goal [gems=60]; two
    iterations, each redeeming 30, and the profile is stopped with a
    currency delta of 60. *)
Example gems_goal_reached_after_two :
  let p := Sample.profile "gem" true false (Sample.gems_goal 60) in
  let w := Sample.world_of [Answer (Sample.reply 200)] 0 in
  let wk1 := worker_step w (Sample.worker p PcLoop) in
  let wk2 := worker_step w wk1 in
  running (wprof wk1) = true
  /\ running (wprof wk2) = false
  /\ last_msg (wprof wk2) = MsgTargets
  /\ (gems <$> c_user (client (wprof wk2))) = Some (30 + 60).
Proof. vm_compute. repeat split; reflexivity. Qed.

(** * Further properties *)

(** ** Commands, by the writes they make *)

Section Writes.
Variable Rp : Profile -> Profile -> Prop.
Hypothesis Rp_refl : forall p, Rp p p.
Hypothesis Rp_trans : forall p1 p2 p3, Rp p1 p2 -> Rp p2 p3 -> Rp p1 p3.
Hypothesis Rp_running : forall p, Rp p (with_running false p).
Hypothesis Rp_paused : forall b p, Rp p (with_paused b p).
Hypothesis Rp_msg : forall m p, Rp p (with_last_msg m p).
Hypothesis Rp_mode : forall m p, Rp p (with_mode m p).
Hypothesis Rp_xp : forall v p, Rp p (set_target_xp v p).
Hypothesis Rp_gems : forall v p, Rp p (set_target_gems v p).
Hypothesis Rp_streak : forall v p, Rp p (set_target_streak_inc v p).

Lemma touched_refl wk : touched Rp wk wk.
Proof. unfold touched. auto. Qed.

Lemma touched_all_refl ws : Forall2 (touched Rp) ws ws.
Proof. apply Forall_Forall2_diag, Forall_forall. intros. apply touched_refl. Qed.

Lemma touched_all_trans ws1 ws2 ws3 :
  Forall2 (touched Rp) ws1 ws2 -> Forall2 (touched Rp) ws2 ws3 ->
  Forall2 (touched Rp) ws1 ws3.
Proof.
  intros H12 H23. eapply Forall2_trans; [|exact H12|exact H23].
  intros wk1 wk2 wk3 (? & ? & ?) (? & ? & ?).
  repeat split; try congruence. eauto.
Qed.

Lemma on_profile_touched i f a :
  (forall p, Rp p (f p)) ->
  Forall2 (touched Rp) (workers a) (workers (snd (on_profile i f a))).
Proof.
  intros Hf. cbn. apply Forall2_alter_r; [apply touched_all_refl|].
  intros wk wk' _ _ (Hpc & Hh & Hr). repeat split; auto. cbn. eauto.
Qed.

Lemma set_targets_touched i kvs : forall a,
  Forall2 (touched Rp) (workers a) (workers (snd (set_targets i kvs a))).
Proof.
  assert (Hw : forall (set : Z -> Profile -> Profile) kv a,
            (forall v p, Rp p (set v p)) ->
            Forall2 (touched Rp) (workers a)
              (workers (snd ((let* s := lift_result (after_eq kv) in
                              let* v := lift_result (py_int s) in
                              on_profile i (set v)) a)))).
  { intros set kv a Hset. cbv [bind lift_result].
    destruct (after_eq kv) as [s|e]; [|apply touched_all_refl].
    destruct (py_int s) as [v|e]; [|apply touched_all_refl].
    apply on_profile_touched, Hset. }
  induction kvs as [|kv rest IH]; intros a; [apply touched_all_refl|].
  cbn [set_targets]. rewrite run_bind.
  set (one := if String.prefix "xp=" kv then _ else _).
  assert (Hone : Forall2 (touched Rp) (workers a) (workers (snd (one a)))).
  { subst one. destruct (String.prefix "xp=" kv); [by apply Hw|].
    destruct (String.prefix "gems=" kv); [by apply Hw|].
    destruct (String.prefix "streak+=" kv); [by apply Hw|].
    apply touched_all_refl. }
  destruct (one a) as [[[]|e] a1]; cbn [snd] in *; [|done].
  eapply touched_all_trans; [exact Hone|apply IH].
Qed.

(** Every command either relates each profile to itself by the writes
    above, moving no task, or appends one new worker. *)
Lemma handle_cmd_commanded lib cmd a :
  commanded Rp lib (workers a) (workers (snd (_handle_cmd lib cmd a))).
Proof.
  unfold _handle_cmd.
  destruct (String.eqb cmd ""); [left; apply touched_all_refl|].
  destruct (py_split cmd) as [|verb args] eqn:Hsplit;
    [left; apply touched_all_refl|].
  destruct (String.eqb verb "quit").
  { left. cbn. apply Forall2_fmap_r, Forall_Forall2_diag, Forall_forall.
    intros wk _. unfold compose, touched. cbn. auto. }
  destruct (String.eqb verb "add").
  { right. cbv [bind get readline add_profile modify]. cbn. eauto. }
  left.
  destruct (bool_decide (verb ∈ ["pause"; "resume"; "stop"])
            && bool_decide (2 <= length (verb :: args))%nat).
  { destruct (py_int _) as [n|e]; [|apply touched_all_refl].
    cbv [bind get]. destruct (find_profile n a) as [i|]; [|apply touched_all_refl].
    destruct (String.eqb verb "pause"); [apply on_profile_touched; eauto|].
    destruct (String.eqb verb "resume"); apply on_profile_touched; eauto. }
  destruct (String.eqb verb "mode" && bool_decide (3 <= length (verb :: args))%nat).
  { cbv [bind get lift_result].
    destruct (py_int _) as [n|e]; [|apply touched_all_refl].
    destruct (find_profile n a) as [i|]; [|apply touched_all_refl].
    apply on_profile_touched; eauto. }
  destruct (String.eqb verb "targets" && bool_decide (2 <= length (verb :: args))%nat).
  { cbv [bind get lift_result].
    destruct (py_int _) as [n|e]; [|apply touched_all_refl].
    destruct (find_profile n a) as [i|]; [|apply touched_all_refl].
    pose proof (set_targets_touched i (drop 2 (verb :: args)) a) as Hset.
    destruct (set_targets i (drop 2 (verb :: args)) a) as [[[]|e] a1];
      cbn [snd] in *; [|done].
    eapply touched_all_trans; [exact Hset|]. by apply on_profile_touched. }
  destruct (String.eqb verb "api" && bool_decide (2 <= length (verb :: args))%nat
            && String.eqb (default "" ((verb :: args) !! 1%nat)) "on").
  { unfold enable_api. destruct (flask lib); apply touched_all_refl. }
  apply touched_all_refl.
Qed.
End Writes.

(** ** Relations kept along a monadic computation *)

Section Rel.
Context {S : Type} (R : S -> S -> Prop).
Hypothesis R_refl : forall t, R t t.
Hypothesis R_trans : forall t1 t2 t3, R t1 t2 -> R t2 t3 -> R t1 t3.

Lemma rel_bind {A B} (m : M S A) (k : A -> M S B) t :
  R t (snd (m t)) ->
  (forall a t1, m t = (Ok a, t1) -> R t1 (snd (k a t1))) ->
  R t (snd (bind m k t)).
Proof.
  intros Hm Hk. rewrite run_bind.
  destruct (m t) as [[a|e] t1] eqn:E; cbn [snd] in *; [|done].
  eapply R_trans; [exact Hm|]. by apply Hk.
Qed.

Lemma rel_catch {A} (m : M S A) (h : Exn -> M S A) t :
  R t (snd (m t)) ->
  (forall e t1, m t = (Raise e, t1) -> R t1 (snd (h e t1))) ->
  R t (snd (catch m h t)).
Proof.
  intros Hm Hh. unfold catch.
  destruct (m t) as [[a|e] t1] eqn:E; cbn [snd] in *; [done|].
  eapply R_trans; [exact Hm|]. by apply Hh.
Qed.
End Rel.

Lemma fixed_fields_refl p : fixed_fields p p.
Proof. unfold fixed_fields. auto 15. Qed.

Lemma fixed_fields_trans p1 p2 p3 :
  fixed_fields p1 p2 -> fixed_fields p2 p3 -> fixed_fields p1 p3.
Proof. unfold fixed_fields. intuition congruence. Qed.

Lemma own_trace_refl t : own_trace t t.
Proof.
  split; [apply fixed_fields_refl|]. exists []. by rewrite app_nil_r.
Qed.

Lemma own_trace_trans t1 t2 t3 : own_trace t1 t2 -> own_trace t2 t3 -> own_trace t1 t3.
Proof.
  intros [Hf1 (n1 & Ht1 & Hr1)] [Hf2 (n2 & Ht2 & Hr2)].
  split; [by eapply fixed_fields_trans|].
  exists (n1 ++ n2)%list. rewrite Ht2, Ht1, app_assoc. split; [done|].
  rewrite requests_app. apply Forall_app. split; [done|].
  assert (Hj : c_jwt (client (prof t2)) = c_jwt (client (prof t1)))
    by (unfold fixed_fields in Hf1; tauto).
  by rewrite <- Hj.
Qed.

Lemma counters_le_refl u : counters_le u u.
Proof. unfold counters_le. lia. Qed.

Lemma gains_refl t : gains t t.
Proof.
  split; [done|]. destruct (c_user (client (prof t))) as [u|]; [|done].
  exists u. split; [done|apply counters_le_refl].
Qed.

Lemma gains_trans t1 t2 t3 : gains t1 t2 -> gains t2 t3 -> gains t1 t3.
Proof.
  intros [Hb1 Hu1] [Hb2 Hu2]. split; [congruence|].
  destruct (c_user (client (prof t1))) as [u1|].
  - destruct Hu1 as (u2 & Hu2' & Hle1). rewrite Hu2' in Hu2.
    destruct Hu2 as (u3 & Hu3 & Hle2). exists u3. split; [done|].
    unfold counters_le in *. lia.
  - by rewrite Hu1 in Hu2.
Qed.

Lemma steady_refl t : steady t t.
Proof. split; [apply own_trace_refl|apply gains_refl]. Qed.

Lemma steady_trans t1 t2 t3 : steady t1 t2 -> steady t2 t3 -> steady t1 t3.
Proof.
  intros [] []. split; [by eapply own_trace_trans|by eapply gains_trans].
Qed.

(** Steps that leave the profile alone and send nothing. *)
Lemma steady_quiet t t' new :
  prof t' = prof t -> trace_of t' = (trace_of t ++ new)%list -> requests new = [] ->
  steady t t'.
Proof.
  intros Hp Ht Hr. split.
  - split; [rewrite Hp; apply fixed_fields_refl|]. exists new. by rewrite Hr.
  - unfold gains. rewrite Hp. apply gains_refl.
Qed.

Lemma steady_log e t :
  (forall rq o, e <> EvRequest rq o) -> steady t (snd (io (log e) t)).
Proof.
  intros He. apply (steady_quiet _ _ [e]); [done|done|].
  destruct e; [by edestruct He|done|done].
Qed.

Lemma steady_time_now t : steady t (snd (io time_now t)).
Proof. apply (steady_quiet _ _ []); [done| |done]. unfold trace_of. cbn. by rewrite app_nil_r. Qed.

Lemma steady_sleep d t : steady t (snd (io (_sleep_with_jitter d) t)).
Proof.
  destruct (sleep_with_jitter_frame d (world t)) as (_ & _ & _ & _ & _ & _ & _ & _ & Htr).
  eapply steady_quiet; [| |shelve].
  - unfold io. by destruct (_sleep_with_jitter d (world t)).
  - unfold io, trace_of. destruct (_sleep_with_jitter d (world t)). exact Htr.
  Unshelve. done.
Qed.

Lemma steady_to_ts s t : steady t (snd (_to_ts s t)).
Proof.
  rewrite to_ts_spec. apply (steady_quiet _ _ []); [done| |done].
  unfold trace_of. cbn. by rewrite app_nil_r.
Qed.

Lemma steady_request c meth u body t :
  c_jwt c = c_jwt (client (prof t)) ->
  steady t (snd (io (_request c meth u body) t)).
Proof.
  intros Hc.
  destruct (io_request c meth u body t) as (mid & Hp & Htr & _ & Hreqs & _).
  split.
  - split; [rewrite Hp; apply fixed_fields_refl|]. exists mid. split; [done|].
    eapply Forall_impl; [exact Hreqs|]. intros rq ->. by rewrite <- Hc.
  - unfold gains. rewrite Hp. apply gains_refl.
Qed.

Lemma io_prof {A} (m : M World A) t r t' : io m t = (r, t') -> prof t' = prof t.
Proof. unfold io. destruct (m (world t)). by intros [= _ <-]. Qed.

Lemma self_inv t c t' : self t = (Ok c, t') -> c = client (prof t) /\ t' = t.
Proof. by intros [= <- <-]. Qed.

Lemma self_user_inv t u t' :
  self_user t = (Ok u, t') -> c_user (client (prof t)) = Some u /\ t' = t.
Proof.
  cbv [self_user bind self ret raise].
  destruct (c_user (client (prof t))); [|done]. by intros [= <- <-].
Qed.

Lemma self_user_state t : snd (self_user t) = t.
Proof.
  cbv [self_user bind self ret raise]. by destruct (c_user (client (prof t))).
Qed.

(** Writes that keep the fixed fields, the baseline and the user. *)
Lemma steady_on_prof f t :
  (forall p, fixed_fields p (f p) /\ baseline (f p) = baseline p
             /\ c_user (client (f p)) = c_user (client p)) ->
  steady t (snd (on_prof f t)).
Proof.
  intros Hf. destruct (Hf (prof t)) as (Hfix & Hb & Hu). split.
  - split; [done|]. exists []. split; [|done]. unfold trace_of. cbn.
    by rewrite app_nil_r.
  - split; [done|]. cbn. rewrite Hu.
    destruct (c_user (client (prof t))) as [u|]; [|done].
    exists u. split; [done|apply counters_le_refl].
Qed.

Lemma steady_set_msg m t : steady t (snd (set_msg m t)).
Proof. apply steady_on_prof. intros p. unfold fixed_fields. cbn. auto 15. Qed.

Lemma steady_set_running b t : steady t (snd (set_running b t)).
Proof. apply steady_on_prof. intros p. unfold fixed_fields. cbn. auto 15. Qed.

(** Replacing the user by one whose counters are no lower. *)
Lemma steady_set_user u u' t :
  c_user (client (prof t)) = Some u -> counters_le u u' ->
  steady t (snd (set_user (Some u') t)).
Proof.
  intros Hu Hle. split.
  - split; [unfold fixed_fields; cbn; auto 15|]. exists []. split; [|done].
    unfold trace_of. cbn. by rewrite app_nil_r.
  - split; [done|]. rewrite Hu. by exists u'.
Qed.

(** ** What the strategies leave standing *)

Ltac rb := apply (rel_bind steady steady_trans); [|intros ? ? ?].
Tactic Notation "rb" "as" simple_intropattern(a) ident(t) ident(H) :=
  apply (rel_bind steady steady_trans); [|intros a t H].
Ltac rb_self :=
  apply (rel_bind steady steady_trans);
  [apply steady_refl|intros ? ? [-> ->]%self_inv].

Lemma steady_farm_gem_once t : steady t (snd (farm_gem_once t)).
Proof.
  unfold farm_gem_once. rb; [by apply steady_log|]. rb_self.
  destruct (c_sub _); [|apply steady_refl].
  destruct (c_user _); [|apply steady_refl].
  destruct (truthy _); [|apply steady_refl].
  rb; [by apply steady_request|apply steady_refl].
Qed.

Lemma steady_farm_xp_once t : steady t (snd (farm_xp_once t)).
Proof.
  unfold farm_xp_once. rb; [by apply steady_log|]. rb_self.
  destruct (c_user _); [|apply steady_refl].
  rb as now t2 Hnow; [apply steady_time_now|].
  rb; [apply steady_request; by rewrite (io_prof _ _ _ _ Hnow)|].
  destruct (_ =? _); [|apply steady_refl].
  destruct (json _); apply steady_refl.
Qed.

Lemma steady_create_session t : steady t (snd (_create_session t)).
Proof.
  unfold _create_session. rb_self.
  destruct (c_user _); [|apply steady_refl].
  rb; [by apply steady_request|].
  destruct (_ =? _); [|apply steady_refl].
  destruct (json _); apply steady_refl.
Qed.

Lemma steady_update_session sess s e t :
  steady t (snd (_update_session sess s e t)).
Proof.
  unfold _update_session.
  destruct (negb _); [apply steady_refl|].
  destruct (session_id _); [|apply steady_refl].
  destruct (truthy _); [|apply steady_refl].
  rb_self. rb; [by apply steady_request|].
  destruct (_ =? _); apply steady_refl.
Qed.

Lemma steady_streak_bump_once ts t : steady t (snd (streak_bump_once ts t)).
Proof.
  unfold streak_bump_once. rb; [by apply steady_log|].
  rb as sess t2 Hs; [apply steady_create_session|].
  destruct sess as [j|]; [|apply steady_refl].
  destruct (nonempty j); [apply steady_update_session|apply steady_refl].
Qed.

Lemma steady_add_xp n t : 0 <= n -> steady t (snd (add_xp n t)).
Proof.
  intros Hn. unfold add_xp.
  rb as u t1 Hu; [rewrite self_user_state; apply steady_refl|].
  apply self_user_inv in Hu as [Hu ->].
  eapply steady_set_user; [exact Hu|]. unfold counters_le. cbn. lia.
Qed.

Lemma steady_add_gems n t : 0 <= n -> steady t (snd (add_gems n t)).
Proof.
  intros Hn. unfold add_gems.
  rb as u t1 Hu; [rewrite self_user_state; apply steady_refl|].
  apply self_user_inv in Hu as [Hu ->].
  eapply steady_set_user; [exact Hu|]. unfold counters_le. cbn. lia.
Qed.

Lemma steady_add_streak n t : 0 <= n -> steady t (snd (add_streak n t)).
Proof.
  intros Hn. unfold add_streak.
  rb as u t1 Hu; [rewrite self_user_state; apply steady_refl|].
  apply self_user_inv in Hu as [Hu ->].
  eapply steady_set_user; [exact Hu|]. unfold counters_le. cbn. lia.
Qed.

Lemma steady_next_streak_ts t : steady t (snd (next_streak_ts t)).
Proof.
  unfold next_streak_ts. rb; [apply steady_time_now|].
  rb; [rewrite self_user_state; apply steady_refl|].
  rb; apply steady_refl.
Qed.

Lemma steady_repair_attempts idx now worked t :
  steady t (snd (repair_attempts idx now worked t)).
Proof.
  revert worked t. induction idx as [|i rest IH]; intros worked t; cbn [repair_attempts].
  { apply steady_refl. }
  rb as [ok why] t1 Hb; [apply steady_streak_bump_once|].
  rb as worked' t2 Hw.
  { destruct ok; [|apply steady_refl].
    rb as u t3 Hu; [rewrite self_user_state; apply steady_refl|].
    apply self_user_inv in Hu as [Hu ->].
    rb; [|apply steady_refl].
    eapply steady_set_user; [exact Hu|]. unfold counters_le. cbn. lia. }
  rb_self. rb; [apply steady_sleep|]. apply IH.
Qed.

Lemma steady_streak_repair t : steady t (snd (streak_repair t)).
Proof.
  unfold streak_repair. rb; [by apply steady_log|]. rb_self.
  destruct (c_user _); [|apply steady_refl].
  destruct (bool_decide _); [apply steady_refl|].
  rb; [apply steady_to_ts|]. rb; [apply steady_to_ts|].
  rb; [apply steady_time_now|].
  rb; [apply steady_repair_attempts|apply steady_refl].
Qed.

Lemma steady_mode_gem t : steady t (snd (mode_gem t)).
Proof.
  unfold mode_gem. rb as ok t1 H; [apply steady_farm_gem_once|].
  destruct ok; [|apply steady_set_msg].
  rb; [apply steady_add_gems; lia|apply steady_set_msg].
Qed.

Lemma steady_mode_xp t : steady t (snd (mode_xp t)).
Proof.
  unfold mode_xp. rb as g t1 H; [apply steady_farm_xp_once|].
  destruct (g >? 0) eqn:Hg; [|apply steady_set_msg].
  rb; [apply steady_add_xp; lia|apply steady_set_msg].
Qed.

Lemma steady_mode_streak_farm t : steady t (snd (mode_streak_farm t)).
Proof.
  unfold mode_streak_farm. rb; [apply steady_next_streak_ts|].
  rb as [ok why] t2 H2; [apply steady_streak_bump_once|].
  destruct ok; [|apply steady_set_msg].
  rb; [apply steady_add_streak; lia|apply steady_set_msg].
Qed.

Lemma steady_mode_streak_repair t : steady t (snd (mode_streak_repair t)).
Proof.
  unfold mode_streak_repair. rb as [fixed why] t1 H; [apply steady_streak_repair|].
  rb; [destruct (_ >? _); apply steady_set_msg|apply steady_set_running].
Qed.

Lemma steady_mode_combo t : steady t (snd (mode_combo t)).
Proof.
  unfold mode_combo. rb as g t1 H; [apply steady_farm_xp_once|].
  rb.
  { destruct (g >? 0) eqn:Hg; [|apply steady_refl].
    rb; [apply steady_add_xp; lia|apply steady_set_msg]. }
  rb_self. rb; [apply steady_sleep|].
  rb as ok t5 H5; [apply steady_farm_gem_once|].
  rb.
  { destruct ok; [|apply steady_refl].
    rb; [apply steady_add_gems; lia|apply steady_set_msg]. }
  apply steady_mode_streak_farm.
Qed.

Lemma steady_strategy t : steady t (snd (strategy t)).
Proof.
  unfold strategy. rb as p t1 H; [apply steady_refl|].
  repeat (destruct (String.eqb _ _);
          [first [apply steady_mode_gem|apply steady_mode_xp
                 |apply steady_mode_streak_farm|apply steady_mode_streak_repair
                 |apply steady_mode_combo]|]).
  apply steady_refl.
Qed.

(** ** What a turn leaves standing *)

Lemma own_trace_set_user u t : own_trace t (snd (set_user u t)).
Proof.
  split; [unfold fixed_fields; cbn; auto 15|]. exists []. split; [|done].
  unfold trace_of. cbn. by rewrite app_nil_r.
Qed.

Lemma own_trace_on_prof f t :
  (forall p, fixed_fields p (f p)) -> own_trace t (snd (on_prof f t)).
Proof.
  intros Hf. split; [apply Hf|]. exists []. split; [|done].
  unfold trace_of. cbn. by rewrite app_nil_r.
Qed.

Ltac ob := apply (rel_bind own_trace own_trace_trans); [|intros ? ? ?].
Tactic Notation "ob" "as" simple_intropattern(a) ident(t) ident(H) :=
  apply (rel_bind own_trace own_trace_trans); [|intros a t H].

Lemma own_trace_get_user_info t : own_trace t (snd (get_user_info t)).
Proof.
  unfold get_user_info. ob; [by apply steady_log|].
  ob as c t2 Hc; [apply own_trace_refl|]. apply self_inv in Hc as [-> ->].
  destruct (c_sub _); [|apply own_trace_refl].
  destruct (truthy _); [|apply own_trace_refl].
  ob; [by apply steady_request|].
  destruct (_ =? _); [|apply own_trace_refl].
  destruct (json _); [|apply own_trace_refl].
  ob; [apply own_trace_set_user|apply own_trace_refl].
Qed.

Lemma own_trace_on_exception e t : own_trace t (snd (on_exception e t)).
Proof.
  unfold on_exception. ob; [apply steady_set_msg|].
  ob; [apply steady_set_running|apply own_trace_refl].
Qed.

Lemma own_trace_startup t : own_trace t (snd (startup t)).
Proof.
  unfold startup. apply (rel_catch own_trace own_trace_trans);
    [|intros; apply own_trace_on_exception].
  ob as user t1 Hu; [apply own_trace_get_user_info|].
  destruct user as [u|].
  - ob; [apply own_trace_on_prof; intros p; unfold fixed_fields; cbn; auto 15|].
    ob; [apply steady_set_running|]. ob; [apply steady_set_msg|apply own_trace_refl].
  - ob; [apply steady_set_msg|]. ob; [apply steady_set_running|apply own_trace_refl].
Qed.

Lemma fixed_fields_check_targets p : fixed_fields p (_check_targets p).
Proof.
  unfold _check_targets. destruct (c_user (client p)); [|apply fixed_fields_refl].
  destruct (targets_done p _); [|apply fixed_fields_refl].
  unfold fixed_fields. cbn. auto 15.
Qed.

Lemma steady_check_targets t : steady t (snd (on_prof _check_targets t)).
Proof.
  apply steady_on_prof. intros p. split; [apply fixed_fields_check_targets|].
  unfold _check_targets. destruct (c_user (client p)) eqn:E; [|done].
  by destruct (targets_done p _).
Qed.

Lemma steady_on_exception e t : steady t (snd (on_exception e t)).
Proof.
  unfold on_exception. rb; [apply steady_set_msg|].
  rb; [apply steady_set_running|apply steady_refl].
Qed.

Lemma steady_iteration t : steady t (snd (iteration t)).
Proof.
  unfold iteration. rb as p t1 Hp; [apply steady_refl|].
  destruct (negb _); [apply steady_refl|].
  destruct (paused p).
  { rb; [by apply steady_log|apply steady_refl]. }
  apply (rel_catch steady steady_trans);
    [|intros; apply steady_on_exception].
  rb; [apply steady_strategy|].
  rb; [apply steady_check_targets|].
  rb as c t4 Hc; [apply steady_refl|].
  rb; [apply steady_sleep|apply steady_refl].
Qed.

Lemma own_trace_iteration t : own_trace t (snd (iteration t)).
Proof. apply steady_iteration. Qed.

Lemma own_trace_final_refresh t : own_trace t (snd (final_refresh t)).
Proof.
  unfold final_refresh. apply (rel_catch own_trace own_trace_trans);
    [|intros; apply own_trace_refl].
  ob; [apply own_trace_get_user_info|apply own_trace_refl].
Qed.

Lemma own_trace_turn wk t : own_trace t (snd (turn wk t)).
Proof.
  unfold turn. destruct (pc wk);
    [apply own_trace_startup|apply own_trace_iteration
    |apply own_trace_final_refresh|apply own_trace_refl].
Qed.

(** A turn keeps the fixed fields of the profile and only extends the
    history, by requests that carry the client's token. *)
Lemma worker_step_own w wk :
  fixed_fields (wprof wk) (wprof (worker_step w wk))
  /\ exists new,
       history (worker_step w wk) = (history wk ++ new)%list
       /\ Forall (fun rq => bearer rq = c_jwt (client (wprof wk))) (requests new).
Proof.
  destruct (own_trace_turn wk (resume_in w wk)) as [Hf Hn].
  unfold worker_step. destruct (turn wk (resume_in w wk)) as [[pc'|e] t1]; cbn in *; done.
Qed.

(** ** The first turn *)

Lemma startup_eq t :
  startup t =
  match get_user_info t with
  | (Ok (Some u), t1) =>
      (Ok PcLoop,
       {| prof := with_last_msg (MsgReady (username u))
                    (with_running true (with_baseline (fetched_baseline u) (prof t1)));
          world := world t1 |})
  | (Ok None, t1) =>
      (Ok PcFinally,
       {| prof := with_running false (with_last_msg MsgJwtFail (prof t1));
          world := world t1 |})
  | (Raise e, t1) =>
      (Ok PcFinally,
       {| prof := with_running false (with_last_msg (MsgException e) (prof t1));
          world := world t1 |})
  end.
Proof.
  unfold startup. cbv [catch bind].
  destruct (get_user_info t) as [[[u|]|e] t1]; reflexivity.
Qed.

Lemma gains_above t t' :
  gains t t' -> above_baseline (prof t) -> above_baseline (prof t').
Proof.
  intros [Hb Hu] (u & Hcu & Hx & Hg & Hs). rewrite Hcu in Hu.
  destruct Hu as (u' & Hu' & Hle). exists u'. rewrite Hb.
  unfold counters_le in Hle. split; [done|]. lia.
Qed.

Lemma worker_step_above w wk :
  (pc wk = PcLoop -> above_baseline (wprof wk)) ->
  pc (worker_step w wk) = PcLoop -> above_baseline (wprof (worker_step w wk)).
Proof.
  intros Hinv. unfold worker_step, turn. destruct (pc wk) eqn:Hpc.
  - rewrite startup_eq.
    pose proof (get_user_info_spec (resume_in w wk)) as (mid & _ & _ & _ & _ & _ & Hp).
    destruct (get_user_info (resume_in w wk)) as [[[u|]|e] t1]; cbn in *; try done.
    intros _. exists u. rewrite Hp. cbn. unfold fetched_baseline.
    split; [done|]. by simplify_map_eq.
  - pose proof (steady_iteration (resume_in w wk)) as [_ Hg].
    destruct (iteration (resume_in w wk)) as [[pc'|e] t1]; cbn in *; [|done].
    intros _. by apply (gains_above _ _ Hg), Hinv.
  - pose proof (final_refresh_spec (resume_in w wk)) as [Hr _].
    destruct (final_refresh (resume_in w wk)) as [[pc'|e] t1]; cbn in *; congruence.
  - done.
Qed.

(** ** Invariants of the running system *)

Lemma command_frame_refl p : command_frame p p.
Proof. unfold command_frame. auto 10. Qed.

Lemma command_frame_trans p1 p2 p3 :
  command_frame p1 p2 -> command_frame p2 p3 -> command_frame p1 p3.
Proof. unfold command_frame. intuition congruence. Qed.

Lemma handle_cmd_frame lib cmd a :
  commanded command_frame lib (workers a) (workers (snd (_handle_cmd lib cmd a))).
Proof.
  apply handle_cmd_commanded;
    [apply command_frame_refl|apply command_frame_trans|..];
    intros; unfold command_frame; cbn; auto 10.
Qed.

Lemma worker_inv_new lib n lbl jwt_token md d :
  worker_inv (new_worker lib n lbl jwt_token md d).
Proof.
  split; [done|]. split; [constructor|]. split; [done|]. apply Q.le_max_l.
Qed.

Lemma worker_inv_touched wk wk' :
  touched command_frame wk wk' -> worker_inv wk -> worker_inv wk'.
Proof.
  intros (Hpc & Hh & _ & _ & Hj & _ & Hc & Hb) (Hjwt & Hreq & Hab & Hd).
  unfold worker_inv. rewrite Hpc, Hh, Hc, Hj. split; [done|]. split; [done|].
  split; [|done].
  intros Hl. destruct (Hab Hl) as (u & ? & ?). exists u. by rewrite Hc, Hb.
Qed.

Lemma worker_inv_step w wk : worker_inv wk -> worker_inv (worker_step w wk).
Proof.
  intros (Hjwt & Hreq & Hab & Hd).
  destruct (worker_step_own w wk) as [Hf (new & Hh & Hnew)].
  assert (Hj : jwt (wprof (worker_step w wk)) = jwt (wprof wk)
               /\ c_jwt (client (wprof (worker_step w wk))) = c_jwt (client (wprof wk))
               /\ c_delay (client (wprof (worker_step w wk)))
                  = c_delay (client (wprof wk)))
    by (unfold fixed_fields in Hf; tauto).
  destruct Hj as (Hj & Hc & Hd'). split; [congruence|]. split; [|split].
  - rewrite Hh, requests_app, Hc. by apply Forall_app.
  - by apply worker_step_above.
  - by rewrite Hd'.
Qed.

Lemma app_inv_step lib a a' : step lib a a' -> app_inv a -> app_inv a'.
Proof.
  intros Hstep [Hids Hinv]. destruct Hstep as [a cmd|a i wk w Hwk].
  - unfold app_inv.
    destruct (handle_cmd_frame lib cmd a) as [Hall|(lbl & jwt_token & md & d & ->)].
    + split.
      * intros i wk' Hwk'.
        destruct (Forall2_lookup_r _ _ _ _ _ Hall Hwk') as (wk & Hwk & _ & _ & Hp & _).
        rewrite Hp. by apply Hids.
      * apply Forall_lookup. intros i wk' Hwk'.
        destruct (Forall2_lookup_r _ _ _ _ _ Hall Hwk') as (wk & Hwk & Ht).
        eapply worker_inv_touched; [exact Ht|].
        by eapply (proj1 (Forall_lookup _ _) Hinv).
    + split.
      * intros i wk' Hwk'. apply lookup_app_Some in Hwk' as [Hwk'|[Hle Hwk']].
        { by apply Hids. }
        apply list_lookup_singleton_Some in Hwk' as [Hi <-]. cbn. lia.
      * apply Forall_app. split; [done|]. constructor; [|constructor].
        apply worker_inv_new.
  - cbn. split.
    + intros j wk' Hwk'. cbn in Hwk'. destruct (decide (j = i)) as [-> | Hne].
      * rewrite list_lookup_insert_eq in Hwk' by (by eapply lookup_lt_Some).
        injection Hwk' as <-.
        destruct (worker_step_own w wk) as [(Hp & _) _]. rewrite Hp. by apply Hids.
      * rewrite list_lookup_insert_ne in Hwk' by done. by apply Hids.
    + apply Forall_insert; [done|]. apply worker_inv_step.
      by eapply (proj1 (Forall_lookup _ _) Hinv).
Qed.

Lemma app_inv_steps lib a a' : steps lib a a' -> app_inv a -> app_inv a'.
Proof. induction 1; eauto using app_inv_step. Qed.

Lemma app_inv_empty a : workers a = [] -> app_inv a.
Proof. intros H. unfold app_inv, ids_in_order. rewrite H. split; [done|constructor]. Qed.

(** ** Sample run *)

Lemma demo_step w a wk :
  workers a !! 0%nat = Some wk -> step Demo.lib a (Demo.step_of w a).
Proof. intros H. unfold Demo.step_of. rewrite H. by apply step_worker. Qed.

Lemma demo_run : steps Demo.lib Demo.start Demo.rewarded.
Proof.
  eapply rtc_l; [apply (step_cmd Demo.lib Demo.start "add")|].
  eapply rtc_l; [eapply (demo_step _ Demo.added); vm_compute; reflexivity|].
  eapply rtc_l; [eapply (demo_step _ Demo.fetched); vm_compute; reflexivity|].
  apply rtc_refl.
Qed.

Example demo_rewarded :
  exists wk, workers Demo.rewarded !! 0%nat = Some wk
    /\ pc wk = PcLoop
    /\ (gems <$> c_user (client (wprof wk))) = Some 60
    /\ last_msg (wprof wk) = MsgGem
    /\ length (requests (history wk)) = 2%nat.
Proof. vm_compute. eexists. repeat split. Qed.

(** ** Runs from the empty system *)

(** X1. In a system that started with no profile, every request a worker
    has sent carries the token of its own profile, stripped of surrounding
    blanks, whatever commands and turns came before. *)
Theorem requests_bear_own_token lib a a' :
  workers a = [] -> steps lib a a' ->
  forall i wk, workers a' !! i = Some wk ->
    Forall (fun rq => bearer rq = strip (jwt (wprof wk))) (requests (history wk)).
Proof.
  intros Hempty Hsteps i wk Hwk.
  destruct (app_inv_steps lib a a' Hsteps (app_inv_empty a Hempty)) as [_ Hinv].
  destruct (proj1 (Forall_lookup _ _) Hinv i wk Hwk) as (Hj & Hreq & _).
  by rewrite <- Hj.
Qed.

Lemma requests_bear_own_token_witness :
  workers Demo.start = [] /\ steps Demo.lib Demo.start Demo.rewarded
  /\ forall i wk, workers Demo.rewarded !! i = Some wk ->
       Forall (fun rq => bearer rq = strip (jwt (wprof wk))) (requests (history wk)).
Proof.
  split; [reflexivity|]. split; [exact demo_run|].
  exact (requests_bear_own_token Demo.lib Demo.start Demo.rewarded eq_refl demo_run).
Defined.

Lemma find_profile_ordered a n i :
  ids_in_order (workers a) ->
  find_profile n a = Some i <-> n = Z.of_nat i + 1 /\ (i < length (workers a))%nat.
Proof.
  intros Hids. unfold find_profile. split.
  - intros H. destruct (list_find _ _) as [[j wk]|] eqn:Hf; [|done].
    cbn in H. injection H as ->. apply list_find_Some in Hf as (Hl & Hp & _).
    split; [by rewrite <- Hp, (Hids i wk Hl)|by eapply lookup_lt_Some].
  - intros [-> Hlt]. destruct (lookup_lt_is_Some_2 _ _ Hlt) as [wk Hwk].
    assert (Hf : list_find (fun wk => pid (wprof wk) = Z.of_nat i + 1) (workers a)
                 = Some (i, wk)).
    { apply list_find_Some. split; [done|]. split; [by apply Hids|].
      intros j wk' Hj Hji. rewrite (Hids j wk' Hj). lia. }
    by rewrite Hf.
Qed.

(** X2. In a system that started with no profile, identifiers count the
    profiles from 1 in the order of their creation: the lookup by
    identifier that every command makes finds the profile at position
    [n - 1] when asked for [n], and none when there is no such position. *)
Theorem ids_count_profiles lib a a' :
  workers a = [] -> steps lib a a' ->
  (forall i wk, workers a' !! i = Some wk -> pid (wprof wk) = Z.of_nat i + 1)
  /\ (forall n i, find_profile n a' = Some i
                  <-> n = Z.of_nat i + 1 /\ (i < length (workers a'))%nat).
Proof.
  intros Hempty Hsteps.
  destruct (app_inv_steps lib a a' Hsteps (app_inv_empty a Hempty)) as [Hids _].
  split; [exact Hids|]. intros n i. by apply find_profile_ordered.
Qed.

Lemma ids_count_profiles_witness :
  workers Demo.start = [] /\ steps Demo.lib Demo.start Demo.rewarded
  /\ find_profile 1 Demo.rewarded = Some 0%nat.
Proof.
  split; [reflexivity|]. split; [exact demo_run|].
  apply (proj2 (ids_count_profiles Demo.lib Demo.start Demo.rewarded eq_refl demo_run)).
  split; [reflexivity|]. vm_compute. lia.
Defined.

(** X3. In a system that started with no profile, a worker that stands in
    its loop has a fetched user none of whose three counters is below the
    baseline taken at the first fetch: the differences that the goal check
    and the dashboard compute are not negative there. *)
Theorem counters_not_below_baseline lib a a' :
  workers a = [] -> steps lib a a' ->
  forall i wk, workers a' !! i = Some wk -> pc wk = PcLoop ->
    above_baseline (wprof wk).
Proof.
  intros Hempty Hsteps i wk Hwk Hpc.
  destruct (app_inv_steps lib a a' Hsteps (app_inv_empty a Hempty)) as [_ Hinv].
  destruct (proj1 (Forall_lookup _ _) Hinv i wk Hwk) as (_ & _ & Hab & _). by apply Hab.
Qed.

Lemma counters_not_below_baseline_witness :
  workers Demo.start = [] /\ steps Demo.lib Demo.start Demo.rewarded
  /\ forall i wk, workers Demo.rewarded !! i = Some wk -> pc wk = PcLoop ->
       above_baseline (wprof wk).
Proof.
  split; [reflexivity|]. split; [exact demo_run|].
  exact (counters_not_below_baseline Demo.lib Demo.start Demo.rewarded eq_refl demo_run).
Defined.

(** X4. In a system that started with no profile, no client's delay is
    below GLOBAL_MIN_DELAY, whatever delay was typed when the profile was
    added and whatever happened since. *)
Theorem delay_never_below_minimum lib a a' :
  workers a = [] -> steps lib a a' ->
  forall i wk, workers a' !! i = Some wk ->
    (GLOBAL_MIN_DELAY <= c_delay (client (wprof wk)))%Q.
Proof.
  intros Hempty Hsteps i wk Hwk.
  destruct (app_inv_steps lib a a' Hsteps (app_inv_empty a Hempty)) as [_ Hinv].
  by destruct (proj1 (Forall_lookup _ _) Hinv i wk Hwk) as (_ & _ & _ & Hd).
Qed.

Lemma delay_never_below_minimum_witness :
  workers Demo.start = [] /\ steps Demo.lib Demo.start Demo.rewarded
  /\ forall i wk, workers Demo.rewarded !! i = Some wk ->
       (GLOBAL_MIN_DELAY <= c_delay (client (wprof wk)))%Q.
Proof.
  split; [reflexivity|]. split; [exact demo_run|].
  exact (delay_never_below_minimum Demo.lib Demo.start Demo.rewarded eq_refl demo_run).
Defined.

(** X5. Whatever the server answers and whether or not it raises, one
    pass of the strategy of any mode leaves the profile's identifier,
    label, token, mode, delay, goals, paused flag and baseline as they
    were, lowers none of the user's three counters, only extends the
    trace, and sends requests under the client's own token only. *)
Theorem strategy_only_gains t : steady t (snd (strategy t)).
Proof.
  unfold strategy. rb as p t1 H; [apply steady_refl|].
  destruct (String.eqb (mode p) "gem"); [apply steady_mode_gem|].
  destruct (String.eqb (mode p) "xp"); [apply steady_mode_xp|].
  destruct (String.eqb (mode p) "streak_farm"); [apply steady_mode_streak_farm|].
  destruct (String.eqb (mode p) "streak_repair"); [apply steady_mode_streak_repair|].
  destruct (String.eqb (mode p) "combo"); [apply steady_mode_combo|].
  apply steady_refl.
Qed.

(** ** The dispatcher *)

Ltac in_list := repeat first [apply list_elem_of_here | apply list_elem_of_further].

Lemma commanded_lookup Rp lib ws ws' i wk :
  (forall p, Rp p p) -> commanded Rp lib ws ws' -> ws !! i = Some wk ->
  exists wk', ws' !! i = Some wk' /\ touched Rp wk wk'.
Proof.
  intros Hrefl [Hall|(lbl & jwt_token & md & d & ->)] Hwk.
  - destruct (Forall2_lookup_l _ _ _ _ _ Hall Hwk) as (wk' & ? & ?). eauto.
  - exists wk. split; [by apply lookup_app_l_Some|]. by apply touched_refl.
Qed.

Lemma goals_kept_refl g : goals_kept g g.
Proof. unfold goals_kept. auto. Qed.

Lemma goals_kept_trans g1 g2 g3 : goals_kept g1 g2 -> goals_kept g2 g3 -> goals_kept g1 g3.
Proof. unfold goals_kept. intuition. Qed.

Lemma goals_kept_step lib a a' i wk :
  step lib a a' -> workers a !! i = Some wk ->
  exists wk', workers a' !! i = Some wk'
              /\ goals_kept (goals (wprof wk)) (goals (wprof wk')).
Proof.
  intros Hstep Hwk. destruct Hstep as [a cmd|a j wkj w Hj].
  - pose proof (handle_cmd_commanded (fun p p' => goals_kept (goals p) (goals p'))) as H.
    destruct (commanded_lookup _ lib _ _ i wk (fun p => goals_kept_refl (goals p))
                (H (fun p => goals_kept_refl (goals p))
                   (fun p1 p2 p3 => goals_kept_trans _ _ _)
                   (fun p => goals_kept_refl _) (fun b p => goals_kept_refl _)
                   (fun m p => goals_kept_refl _) (fun m p => goals_kept_refl _)
                   ltac:(intros; unfold goals_kept; cbn; auto)
                   ltac:(intros; unfold goals_kept; cbn; auto)
                   ltac:(intros; unfold goals_kept; cbn; auto)
                   lib cmd a) Hwk) as (wk' & Hwk' & _ & _ & Hg).
    eauto.
  - cbn. destruct (decide (j = i)) as [-> | Hne].
    + assert (wkj = wk) as -> by congruence.
      exists (worker_step w wk).
      rewrite list_lookup_insert_eq by (by eapply lookup_lt_Some).
      split; [done|].
      destruct (worker_step_own w wk) as [(_ & _ & _ & _ & _ & Hg & _) _].
      rewrite Hg. apply goals_kept_refl.
    + exists wk. rewrite list_lookup_insert_ne by done.
      split; [done|apply goals_kept_refl].
Qed.

(** X6. A threshold once set stays set: along any run, through any
    commands and turns, a profile whose goal set has a threshold in one of
    the three dimensions still has a threshold there. The dispatcher can
    overwrite a threshold and cannot clear one. *)
Theorem goals_never_unset lib a a' :
  steps lib a a' ->
  forall i wk, workers a !! i = Some wk ->
    exists wk', workers a' !! i = Some wk'
                /\ goals_kept (goals (wprof wk)) (goals (wprof wk')).
Proof.
  induction 1 as [a|a a1 a2 Hstep _ IH]; intros i wk Hwk.
  - exists wk. split; [done|apply goals_kept_refl].
  - destruct (goals_kept_step lib a a1 i wk Hstep Hwk) as (wk1 & Hwk1 & Hg1).
    destruct (IH i wk1 Hwk1) as (wk2 & Hwk2 & Hg2).
    exists wk2. split; [done|by eapply goals_kept_trans].
Qed.

Lemma goals_never_unset_witness :
  let a := snd (_handle_cmd Demo.lib "targets 1 gems=60" Demo.added) in
  steps Demo.lib a (snd (_handle_cmd Demo.lib "targets 1 xp=5" a))
  /\ exists wk', workers (snd (_handle_cmd Demo.lib "targets 1 xp=5" a)) !! 0%nat
                 = Some wk'
                 /\ is_Some (target_gems (goals (wprof wk'))).
Proof.
  intros a.
  assert (Hrun : steps Demo.lib a (snd (_handle_cmd Demo.lib "targets 1 xp=5" a)))
    by (eapply rtc_l; [apply step_cmd|apply rtc_refl]).
  split; [exact Hrun|].
  assert (Hwk : workers a !! 0%nat
                = Some (default (new_worker Demo.lib 0 "" "" "" DEFAULT_DELAY)
                          (workers a !! 0%nat))) by (vm_compute; reflexivity).
  destruct (goals_never_unset Demo.lib a _ Hrun 0%nat _ Hwk)
    as (wk' & Hwk' & _ & Hg & _).
  exists wk'. split; [exact Hwk'|]. apply Hg. vm_compute. eauto.
Defined.

(** X7. A command whose first word is none of the eight verbs, or that
    names a verb and lacks the argument the verb needs, is ignored: the
    dispatcher returns normally and the state is what it was. *)
Theorem unknown_command_ignored lib cmd verb rest a :
  py_split cmd = verb :: rest ->
  verb ∉ verbs \/ incomplete verb rest ->
  _handle_cmd lib cmd a = (Ok tt, a).
Proof.
  intros Hsplit Hcase. unfold _handle_cmd.
  destruct (String.eqb cmd ""); [done|]. rewrite Hsplit.
  destruct Hcase as [Hn|[[Hv ->]|[[-> Hlen]|[-> Hon]]]].
  - unfold verbs in Hn.
    destruct (String.eqb_spec verb "quit") as [-> | _]; [destruct Hn; in_list|].
    destruct (String.eqb_spec verb "add") as [-> | _]; [destruct Hn; in_list|].
    rewrite (bool_decide_eq_false_2 (verb ∈ ["pause"; "resume"; "stop"])).
    2:{ intros H. apply Hn.
        repeat (apply elem_of_cons in H as [-> | H]; [in_list|]).
        by apply elem_of_nil in H. }
    destruct (String.eqb_spec verb "mode") as [-> | _]; [destruct Hn; in_list|].
    destruct (String.eqb_spec verb "targets") as [-> | _]; [destruct Hn; in_list|].
    destruct (String.eqb_spec verb "api") as [-> | _]; [destruct Hn; in_list|].
    reflexivity.
  - repeat (apply elem_of_cons in Hv as [-> | Hv]; [reflexivity|]).
    by apply elem_of_nil in Hv.
  - destruct rest as [|x [|y more]]; [reflexivity|reflexivity|cbn in Hlen; lia].
  - destruct rest as [|arg more]; [reflexivity|].
    assert (Hne : String.eqb arg "on" = false)
      by (apply String.eqb_neq; by eapply Hon).
    rewrite (bool_decide_eq_false_2 ("api" ∈ ["pause"; "resume"; "stop"])).
    2:{ intros H. repeat (apply elem_of_cons in H as [H|H]; [discriminate|]).
        by apply elem_of_nil in H. }
    rewrite !(bool_decide_eq_true_2 (2 <= _)%nat) by (cbn; lia).
    simpl. by rewrite Hne.
Qed.

Lemma unknown_command_ignored_witness :
  _handle_cmd Demo.lib "restart 1" Demo.added = (Ok tt, Demo.added)
  /\ _handle_cmd Demo.lib "stop" Demo.added = (Ok tt, Demo.added).
Proof.
  split.
  - apply (unknown_command_ignored Demo.lib "restart 1" "restart" ["1"] Demo.added);
      [reflexivity|]. left. unfold verbs. intros H.
    repeat (apply elem_of_cons in H as [H|H]; [discriminate|]).
    by apply elem_of_nil in H.
  - apply (unknown_command_ignored Demo.lib "stop" "stop" [] Demo.added);
      [reflexivity|]. right. left. split; [|reflexivity].
    in_list.
Defined.

(** ** The command queue *)

Lemma drain_app lib q1 q2 a :
  drain lib (q1 ++ q2) a =
  match drain lib q1 a with
  | (Ok _, a1) => drain lib q2 a1
  | (Raise e, a1) => (Raise e, a1)
  end.
Proof.
  revert a. induction q1 as [|cmd q1 IH]; intros a; [done|].
  cbn [app drain]. rewrite !run_bind.
  destruct (_handle_cmd lib cmd a) as [[[]|e] a1]; [apply IH|done].
Qed.

Lemma drain_raise lib before cmd after a e :
  fst (drain lib before a) = Ok tt ->
  fst (_handle_cmd lib cmd (snd (drain lib before a))) = Raise e ->
  drain lib (before ++ cmd :: after) a
  = (Raise e, snd (_handle_cmd lib cmd (snd (drain lib before a)))).
Proof.
  intros Hbefore Hcmd. rewrite drain_app.
  destruct (drain lib before a) as [[[]|e0] a1]; [|done].
  cbn [drain fst snd] in *. rewrite run_bind.
  destruct (_handle_cmd lib cmd a1) as [[[]|e1] a2]; [done|].
  cbn in Hcmd. by injection Hcmd as ->.
Qed.

(** X8. The drain of the command queue handles the commands in order and
    ends at the first one that raises: the exception leaves the drain with
    the state that command left, and no command queued behind it is
    handled, whatever it is. *)
Theorem drain_stops_at_first_raise lib before cmd after a e :
  fst (drain lib before a) = Ok tt ->
  fst (_handle_cmd lib cmd (snd (drain lib before a))) = Raise e ->
  forall later,
    drain lib (before ++ cmd :: after) a = drain lib (before ++ cmd :: later) a
    /\ drain lib (before ++ cmd :: after) a
       = (Raise e, snd (_handle_cmd lib cmd (snd (drain lib before a)))).
Proof.
  intros Hbefore Hcmd later.
  by rewrite !(drain_raise lib before cmd _ a e Hbefore Hcmd).
Qed.

Lemma drain_stops_at_first_raise_witness :
  let r := drain Demo.lib ["pause 1"; "mode abc xp"; "stop 1"] Demo.fetched in
  fst r = Raise ValueError
  /\ (running_at 0 (snd r) = true)
  /\ (paused <$> (wprof <$> workers (snd r) !! 0%nat)) = Some true.
Proof.
  intros r. subst r.
  pose proof (proj2 (drain_stops_at_first_raise Demo.lib ["pause 1"] "mode abc xp"
                       ["stop 1"] Demo.fetched ValueError eq_refl eq_refl [])) as H.
  cbn [app] in H. rewrite H. vm_compute. auto.
Defined.

(** X9. Wherever [quit] stands in the queue, the drain ends there with
    SystemExit: every profile is left not running, the commands behind it
    are not handled, and no profile is added or removed and no input line
    read by it. *)
Theorem quit_ends_drain lib before cmd rest after a :
  py_split cmd = "quit" :: rest ->
  fst (drain lib before a) = Ok tt ->
  let a1 := snd (drain lib before a) in
  let r := drain lib (before ++ cmd :: after) a in
  fst r = Raise SystemExit
  /\ workers (snd r) = on_wprof (with_running false) <$> workers a1
  /\ Forall (fun wk => running (wprof wk) = false) (workers (snd r))
  /\ stdin (snd r) = stdin a1 /\ api_enabled (snd r) = api_enabled a1.
Proof.
  intros Hsplit Hbefore a1 r.
  assert (Hquit : _handle_cmd lib cmd a1
                  = (Raise SystemExit,
                     with_workers (on_wprof (with_running false) <$> workers a1) a1)).
  { unfold _handle_cmd. destruct (String.eqb_spec cmd "") as [-> | _]; [done|].
    by rewrite Hsplit. }
  subst r. rewrite (drain_raise lib before cmd after a SystemExit Hbefore)
    by (fold a1; by rewrite Hquit).
  fold a1. rewrite Hquit. cbn. split; [done|]. split; [done|]. split; [|done].
  apply Forall_fmap, Forall_forall. by intros wk _.
Qed.

Lemma quit_ends_drain_witness :
  let r := drain Demo.lib ["pause 1"; "quit"; "resume 1"] Demo.rewarded in
  fst r = Raise SystemExit
  /\ Forall (fun wk => running (wprof wk) = false) (workers (snd r)).
Proof.
  intros r.
  destruct (quit_ends_drain Demo.lib ["pause 1"] "quit" [] ["resume 1"] Demo.rewarded
              eq_refl eq_refl) as (Hres & _ & Hstop & _).
  exact (conj Hres Hstop).
Defined.

(** ** The dashboard *)

Lemma sum_of_cons f p ps : sum_of f (p :: ps) = f p + sum_of f ps.
Proof. reflexivity. Qed.

Lemma render_fold ps : forall acc,
  let r := fold_left render_step ps acc in
  total_xp r = total_xp acc + sum_of xp_delta ps
  /\ total_gems r = total_gems acc + sum_of gems_delta ps
  /\ rows r = (rows acc ++ (render_row <$> ps))%list
  /\ running_count acc <= running_count r <= running_count acc + Z.of_nat (length ps).
Proof.
  induction ps as [|p ps IH]; intros acc.
  { cbn. rewrite app_nil_r. repeat split; lia. }
  cbn [fold_left]. rewrite !sum_of_cons, fmap_cons, length_cons.
  destruct (IH (render_step acc p)) as (Hx & Hg & Hr & Hc).
  rewrite Hx, Hg, Hr.
  assert (Hstep : total_xp (render_step acc p) = total_xp acc + xp_delta p
                  /\ total_gems (render_step acc p) = total_gems acc + gems_delta p
                  /\ rows (render_step acc p) = (rows acc ++ [render_row p])%list
                  /\ running_count acc <= running_count (render_step acc p)
                     <= running_count acc + 1).
  { unfold render_step, xp_delta, gems_delta. cbn.
    destruct (c_user (client p)), (running p && negb (paused p));
      repeat split; lia. }
  destruct Hstep as (Sx & Sg & Sr & Sc). rewrite Sx, Sg, Sr.
  split; [lia|]. split; [lia|]. split; [by rewrite <- app_assoc|]. lia.
Qed.

Lemma sum_of_nonneg f ps : (forall p, 0 <= f p) -> 0 <= sum_of f ps.
Proof.
  intros Hf. induction ps as [|p ps IH]; [done|]. rewrite sum_of_cons.
  specialize (Hf p). lia.
Qed.

Lemma render_sums a :
  rows (_render a) = render_row <$> profiles a
  /\ total_xp (_render a) = sum_of xp_delta (profiles a)
  /\ total_gems (_render a) = sum_of gems_delta (profiles a)
  /\ 0 <= running_count (_render a) <= Z.of_nat (length (workers a)).
Proof.
  unfold _render.
  destruct (render_fold (profiles a)
              {| running_count := 0; total_xp := 0; total_gems := 0; rows := [] |})
    as (Hx & Hg & Hr & Hc).
  cbn [running_count total_xp total_gems rows] in *.
  rewrite Hx, Hg, Hr.
  assert (Hlen : length (profiles a) = length (workers a))
    by (unfold profiles; apply length_fmap).
  rewrite Hlen in Hc. split; [done|]. split; [lia|]. split; lia.
Qed.

Lemma sum_of_zero f ps : Forall (fun p => f p = 0) ps -> sum_of f ps = 0.
Proof.
  induction 1 as [|p ps Hp _ IH]; [done|]. rewrite sum_of_cons. lia.
Qed.

(** X10. The dashboard has one row per profile, in the order of the
    profiles; the two totals of its title are never negative, and are zero
    as long as no profile has a fetched user; the running count lies
    between zero and the number of profiles. *)
Theorem render_totals (a : App) :
  rows (_render a) = render_row <$> profiles a
  /\ 0 <= total_xp (_render a) /\ 0 <= total_gems (_render a)
  /\ 0 <= running_count (_render a) <= Z.of_nat (length (workers a))
  /\ (Forall (fun p => c_user (client p) = None) (profiles a) ->
      total_xp (_render a) = 0 /\ total_gems (_render a) = 0).
Proof.
  destruct (render_sums a) as (Hr & Hx & Hg & Hc). rewrite Hx, Hg.
  assert (0 <= sum_of xp_delta (profiles a))
    by (apply sum_of_nonneg; intros p; unfold xp_delta;
        destruct (c_user (client p)); lia).
  assert (0 <= sum_of gems_delta (profiles a))
    by (apply sum_of_nonneg; intros p; unfold gems_delta;
        destruct (c_user (client p)); lia).
  split; [done|]. split; [done|]. split; [done|]. split; [done|].
  intros Hnone. split; apply sum_of_zero; (eapply Forall_impl; [exact Hnone|]);
    intros p Hp; [unfold xp_delta|unfold gems_delta]; by rewrite Hp.
Qed.

Lemma sum_of_touched f ws ws' :
  (forall p p', command_frame p p' -> f p' = f p) ->
  Forall2 (touched command_frame) ws ws' ->
  sum_of f (wprof <$> ws') = sum_of f (wprof <$> ws).
Proof.
  intros Hf. induction 1 as [|wk wk' ws ws' (_ & _ & Hp) _ IH]; [done|].
  rewrite !fmap_cons, !sum_of_cons. by rewrite IH, (Hf _ _ Hp).
Qed.

Lemma sum_of_app f ps qs : sum_of f (ps ++ qs) = sum_of f ps + sum_of f qs.
Proof.
  induction ps as [|p ps IH]; [done|].
  rewrite <- app_comm_cons, !sum_of_cons. lia.
Qed.

(** X11. No command moves the two totals of the dashboard's title: they
    change only by what the workers' turns do to the counters. Adding a
    profile adds a row and leaves the totals. *)
Theorem commands_keep_totals lib cmd a :
  total_xp (_render (snd (_handle_cmd lib cmd a))) = total_xp (_render a)
  /\ total_gems (_render (snd (_handle_cmd lib cmd a))) = total_gems (_render a).
Proof.
  destruct (render_sums a) as (_ & -> & -> & _).
  destruct (render_sums (snd (_handle_cmd lib cmd a))) as (_ & -> & -> & _).
  unfold profiles.
  assert (Hx : forall p p', command_frame p p' -> xp_delta p' = xp_delta p).
  { intros p p' (_ & _ & _ & _ & Hc & Hb). unfold xp_delta. by rewrite Hc, Hb. }
  assert (Hg : forall p p', command_frame p p' -> gems_delta p' = gems_delta p).
  { intros p p' (_ & _ & _ & _ & Hc & Hb). unfold gems_delta. by rewrite Hc, Hb. }
  destruct (handle_cmd_frame lib cmd a) as [Hall|(lbl & jwt_token & md & d & ->)].
  - by rewrite (sum_of_touched _ _ _ Hx Hall), (sum_of_touched _ _ _ Hg Hall).
  - rewrite fmap_app, !sum_of_app. cbn. lia.
Qed.

(** ** Token decoding *)

Lemma append_cons a s1 s2 : String a s1 +:+ s2 = String a (s1 +:+ s2).
Proof. reflexivity. Qed.

Lemma append_snoc cur c s : (cur +:+ String c "") +:+ s = cur +:+ String c s.
Proof.
  induction cur as [|a cur IH]; [done|]. rewrite !append_cons. by rewrite IH.
Qed.

Lemma append_empty cur : cur +:+ "" = cur.
Proof. induction cur as [|a cur IH]; [done|]. rewrite append_cons. by rewrite IH. Qed.

Lemma split_on_go_dotless s : forall cur,
  dotless s = true -> split_on_go "."%char cur s = [cur +:+ s].
Proof.
  induction s as [|c s IH]; intros cur Hs.
  { cbn. by rewrite append_empty. }
  cbn in Hs. apply andb_true_iff in Hs as [Hc Hs]. apply negb_true_iff in Hc.
  cbn [split_on_go]. rewrite Hc, IH by done. by rewrite append_snoc.
Qed.

Lemma split_on_go_dot h rest : forall cur,
  dotless h = true ->
  split_on_go "."%char cur (h +:+ String "."%char rest)
  = (cur +:+ h) :: split_on_go "."%char "" rest.
Proof.
  induction h as [|c h IH]; intros cur Hh.
  { change ("" +:+ String "."%char rest) with (String "."%char rest).
    cbn. by rewrite append_empty. }
  cbn in Hh. apply andb_true_iff in Hh as [Hc Hh]. apply negb_true_iff in Hc.
  rewrite append_cons. cbn [split_on_go]. rewrite Hc, IH by done.
  by rewrite append_snoc.
Qed.

(** X12. [_decode_sub] reads the subject off the second dot-separated
    segment of the token and nothing else: a token without a dot has no
    subject, and neither the first segment nor what follows a second dot
    has any influence on the result. *)
Theorem decode_sub_second_segment lib :
  (forall tok, dotless tok = true -> _decode_sub lib tok = None)
  /\ (forall h p, dotless h = true -> dotless p = true ->
        _decode_sub lib (h +:+ "." +:+ p) = sub_of_payload lib p)
  /\ (forall h p s, dotless h = true -> dotless p = true ->
        _decode_sub lib (h +:+ "." +:+ p +:+ "." +:+ s) = sub_of_payload lib p).
Proof.
  unfold _decode_sub, split_on. split; [|split].
  - intros tok Ht. by rewrite split_on_go_dotless.
  - intros h p Hh Hp. change ("." +:+ p) with (String "."%char p).
    rewrite split_on_go_dot by done. by rewrite split_on_go_dotless.
  - intros h p s Hh Hp.
    change ("." +:+ p +:+ "." +:+ s) with (String "."%char (p +:+ String "."%char s)).
    rewrite split_on_go_dot by done. by rewrite split_on_go_dot.
Qed.

(** ** The single-action modes *)

Lemma last_snoc_app {A} (l pre : list A) x : last (l ++ pre ++ [x]) = Some x.
Proof. by rewrite app_assoc, last_snoc. Qed.

Lemma farm_gem_once_eq t :
  farm_gem_once t =
  let t1 := {| prof := prof t; world := snd (log (EvCall CGem) (world t)) |} in
  match c_sub (client (prof t)), c_user (client (prof t)) with
  | Some sub, Some u =>
      if truthy (c_sub (client (prof t))) then
        match io (_request (client (prof t)) "PATCH" (UrlReward sub)
                    (RewardBody (learningLanguage u) (fromLanguage u))) t1 with
        | (Ok resp, t2) => (Ok (status_code resp =? 200), t2)
        | (Raise e, t2) => (Raise e, t2)
        end
      else (Ok false, t1)
  | _, _ => (Ok false, t1)
  end.
Proof.
  unfold farm_gem_once. rewrite run_bind, io_log. cbv [bind self]. cbn [prof world].
  destruct (c_sub (client (prof t))) as [sub|]; [|done].
  destruct (c_user (client (prof t))) as [u|]; [|done].
  destruct (truthy (Some sub)); [|done].
  by destruct (io (_request _ _ _ _) _) as [[resp|e] t2].
Qed.

(** X13. In [gem] mode the loop counts 30 gems and records "+30 gems"
    exactly when the reward request was answered with status 200; any other
    answer is recorded as "gem fail" with the counters as they were; when
    the request raises, the branch records nothing; and a client without a
    subject sends nothing and records "gem fail". *)
Theorem gem_recorded_on_200 t u :
  c_user (client (prof t)) = Some u ->
  let r := mode_gem t in
  (truthy (c_sub (client (prof t))) = false ->
     r = (Ok tt, {| prof := with_last_msg MsgGemFail (prof t);
                    world := snd (log (EvCall CGem) (world t)) |}))
  /\ (truthy (c_sub (client (prof t))) = true ->
      match fst r with
      | Ok _ =>
          exists rq resp,
            last (trace_of (snd r)) = Some (EvRequest rq (Answer resp))
            /\ method rq = "PATCH"
            /\ prof (snd r) = if status_code resp =? 200 then gems_gained u (prof t)
                              else with_last_msg MsgGemFail (prof t)
      | Raise _ => prof (snd r) = prof t
      end).
Proof.
  intros Hu r. subst r. unfold mode_gem.
  rewrite run_bind, farm_gem_once_eq. cbv zeta. rewrite Hu.
  set (t1 := {| prof := prof t; world := (log (EvCall CGem) (world t)).2 |}).
  destruct (c_sub (client (prof t))) as [sub|] eqn:Hsub; [|split; [done|done]].
  destruct (truthy (Some sub)) eqn:Ht; [|split; [done|done]].
  split; [done|]. intros _.
  destruct (io_request (client (prof t)) "PATCH" (UrlReward sub)
              (RewardBody (learningLanguage u) (fromLanguage u)) t1)
    as (mid & Hp & Htr & _ & _ & _ & _ & Hpost).
  destruct (io (_request _ _ _ _) t1) as [[resp|e] t2]; cbn [fst snd] in *; [|done].
  destruct Hpost as (pre & -> & _).
  assert (Hu2 : c_user (client (prof t2)) = Some u) by (by rewrite Hp).
  assert (Hlast : last (trace_of t2)
                  = Some (EvRequest
                            (request_of (client (prof t)) "PATCH" (UrlReward sub)
                               (RewardBody (learningLanguage u) (fromLanguage u)))
                            (Answer resp)))
    by (rewrite Htr; apply last_snoc_app).
  destruct (status_code resp =? 200) eqn:Hs.
  - cbv [ret add_gems self_user self bind set_user set_msg on_prof modify].
    cbn [prof world fst snd]. rewrite Hu2. cbn [prof world fst snd].
    eexists _, resp. split; [exact Hlast|]. split; [done|]. by rewrite Hs, Hp.
  - cbv [ret set_msg on_prof modify]. cbn [prof world fst snd].
    eexists _, resp. split; [exact Hlast|]. split; [done|]. by rewrite Hs, Hp.
Qed.

Lemma gem_recorded_on_200_witness :
  let t := {| prof := Sample.profile "gem" true false Sample.no_goals;
              world := Sample.world_of [Answer (Sample.reply 200)] 0 |} in
  c_user (client (prof t)) = Some Sample.user
  /\ prof (snd (mode_gem t)) = gems_gained Sample.user (prof t).
Proof.
  intros t. split; [reflexivity|].
  destruct (gem_recorded_on_200 t Sample.user eq_refl) as [_ H].
  specialize (H eq_refl). destruct (fst (mode_gem t)) eqn:E; [|discriminate E].
  destruct H as (rq & resp & Hlast & _ & Hp). rewrite Hp.
  injection Hlast as _ <-. reflexivity.
Defined.

(** X14. In [streak_farm] mode the session is dated one day before the
    clock, and one more day back for each day the streak stands above the
    baseline; the loop counts one day and records "+1 streak" exactly when
    that session was finalized, records "streak: why" with the counters as
    they were when it was not, and records nothing when a request
    raises. *)
Theorem streak_farm_backdates t u :
  c_user (client (prof t)) = Some u ->
  let ts := clock (world t) (ticks (world t)) - 86400
            - Z.max 0 (streak u - default 0 (baseline (prof t) !! "streak")) * 86400 in
  let r := mode_streak_farm t in
  exists new,
    trace_of (snd r) = (trace_of t ++ EvCall (CBump ts) :: new)%list
    /\ calls new = []
    /\ match fst r with
       | Ok _ =>
           (finalized new = [ts] /\ prof (snd r) = streak_gained u (prof t))
           \/ (finalized new = []
               /\ exists why, prof (snd r) = with_last_msg (MsgStreakFail why) (prof t))
       | Raise _ => finalized new = [] /\ prof (snd r) = prof t
       end.
Proof.
  intros Hu ts r. subst r. unfold mode_streak_farm. rewrite run_bind.
  set (t0 := snd (io time_now t)).
  assert (Hn : next_streak_ts t = (Ok ts, t0)).
  { cbv [next_streak_ts bind self_user self the_prof ret]. cbn [io time_now prof world].
    rewrite Hu. reflexivity. }
  rewrite Hn, run_bind.
  destruct (streak_bump_once_spec ts t0) as (mid & (Hp & Htr & _) & Hcalls & Hout).
  assert (Ht0 : trace_of t0 = trace_of t) by done.
  rewrite Ht0 in Htr.
  destruct (streak_bump_once ts t0) as [[[ok why]|e] t2]; cbn [fst snd] in *;
    [|by exists mid].
  assert (Hu2 : c_user (client (prof t2)) = Some u) by (by rewrite Hp).
  destruct ok.
  - destruct Hout as [_ Hfin].
    cbv [ret add_streak self_user self bind set_user set_msg on_prof modify].
    cbn [prof world fst snd]. rewrite Hu2. cbn [prof world fst snd].
    exists mid. split; [exact Htr|]. split; [exact Hcalls|].
    left. split; [exact Hfin|]. by rewrite Hp.
  - cbv [ret set_msg on_prof modify]. cbn [prof world fst snd].
    exists mid. split; [exact Htr|]. split; [exact Hcalls|].
    right. split; [exact Hout|]. exists why. by rewrite Hp.
Qed.

Lemma streak_farm_backdates_witness :
  let t := {| prof := Sample.profile "streak_farm" true false Sample.no_goals;
              world := Sample.world_of [Answer (Sample.session_reply "s1");
                                        Answer (Sample.reply 200)] 1000000 |} in
  c_user (client (prof t)) = Some Sample.user
  /\ exists new,
       trace_of (snd (mode_streak_farm t))
       = (trace_of t ++ EvCall (CBump 913600) :: new)%list.
Proof.
  intros t. split; [reflexivity|].
  destruct (streak_farm_backdates t Sample.user eq_refl) as (new & Htr & _).
  exists new. exact Htr.
Defined.

(** ** The loop *)

Lemma strategy_unknown_mode t :
  mode (prof t) ∉ modes -> strategy t = (Ok tt, t).
Proof.
  intros Hn. unfold strategy, modes in *. cbv [bind the_prof].
  repeat match goal with
  | |- context [String.eqb (mode (prof t)) ?m] =>
      destruct (String.eqb_spec (mode (prof t)) m) as [He|_];
      [destruct Hn; rewrite He; in_list|]
  end.
  reflexivity.
Qed.

(** X15. A profile whose mode is none of the five the loop knows (the
    [mode] command accepts any word) idles: a pass of its loop enters no
    strategy operation and sends nothing; it checks the goals, sleeps one
    jittered delay and stays in the loop. *)
Theorem unknown_mode_idles t :
  mode (prof t) ∉ modes -> running (prof t) = true -> paused (prof t) = false ->
  let r := iteration t in
  fst r = Ok PcLoop
  /\ prof (snd r) = _check_targets (prof t)
  /\ trace_of (snd r)
     = (trace_of t
        ++ [EvSleep (sleep_time (c_delay (client (prof t)))
                       (rand (world t) (draws (world t))))])%list.
Proof.
  intros Hmode Hrun Hpause r. subst r.
  rewrite (iteration_ok t t Hrun Hpause (strategy_unknown_mode t Hmode)).
  cbn [fst snd prof]. split; [done|]. split; [done|].
  assert (Hd : c_delay (client (_check_targets (prof t))) = c_delay (client (prof t))).
  { pose proof (fixed_fields_check_targets (prof t)) as H.
    unfold fixed_fields in H. tauto. }
  rewrite Hd.
  destruct (sleep_with_jitter_frame (c_delay (client (prof t))) (world t))
    as (_ & _ & _ & _ & _ & _ & _ & _ & Htr).
  exact Htr.
Qed.

Lemma unknown_mode_idles_witness :
  let a := snd (_handle_cmd Demo.lib "mode 1 turbo" Demo.fetched) in
  let wk := default (new_worker Demo.lib 0 "" "" "" DEFAULT_DELAY)
                    (workers a !! 0%nat) in
  let t := resume_in (Sample.world_of [] 0) wk in
  mode (prof t) = "turbo"
  /\ fst (iteration t) = Ok PcLoop
  /\ requests (trace_of (snd (iteration t))) = requests (trace_of t).
Proof.
  intros a wk t. split; [reflexivity|].
  assert (Hmode : mode (prof t) ∉ modes).
  { change (mode (prof t)) with "turbo". unfold modes. intros H.
    repeat (apply elem_of_cons in H as [H|H]; [discriminate|]).
    by apply elem_of_nil in H. }
  destruct (unknown_mode_idles t Hmode eq_refl eq_refl) as (Hres & _ & Htr).
  split; [exact Hres|]. rewrite Htr, requests_app. apply app_nil_r.
Defined.

(** X16. The first turn of a worker decides by the fetch alone: when the
    user's record is fetched, the worker enters its loop with the baseline
    set to the fetched counters and the running flag set, whatever the
    flag was before, so that a [stop] handled before the first turn does
    not hold the worker back; when it is not, the worker leaves for the
    [finally] block with the flag cleared and baseline and user as they
    were. *)
Theorem first_turn_sets_running w wk :
  pc wk = PcInit ->
  let wk' := worker_step w wk in
  (pc wk' = PcLoop /\ running (wprof wk') = true
   /\ exists u, c_user (client (wprof wk')) = Some u
                /\ baseline (wprof wk') = fetched_baseline u
                /\ last_msg (wprof wk') = MsgReady (username u))
  \/ (pc wk' = PcFinally /\ running (wprof wk') = false
      /\ baseline (wprof wk') = baseline (wprof wk)
      /\ c_user (client (wprof wk')) = c_user (client (wprof wk))
      /\ (last_msg (wprof wk') = MsgJwtFail
          \/ exists e, last_msg (wprof wk') = MsgException e)).
Proof.
  intros Hpc wk'. subst wk'. unfold worker_step, turn. rewrite Hpc, startup_eq.
  pose proof (get_user_info_spec (resume_in w wk)) as (mid & _ & _ & _ & _ & _ & Hp).
  destruct (get_user_info (resume_in w wk)) as [[[u|]|e] t1]; cbn [fst snd] in *.
  - left. cbn. split; [done|]. split; [done|]. exists u. by rewrite Hp.
  - right. cbn. rewrite Hp. cbn. auto 10.
  - right. cbn. rewrite Hp. cbn. eauto 10.
Qed.

Lemma first_turn_sets_running_witness :
  let a := snd (_handle_cmd Demo.lib "stop 1" Demo.added) in
  let wk := default (new_worker Demo.lib 0 "" "" "" DEFAULT_DELAY)
                    (workers a !! 0%nat) in
  let wk' := worker_step (Sample.world_of [Answer (Sample.xp_reply 0)] 0) wk in
  pc wk = PcInit /\ last_msg (wprof wk) = MsgStopped
  /\ pc wk' = PcLoop /\ running (wprof wk') = true.
Proof.
  intros a wk wk'. split; [reflexivity|]. split; [reflexivity|].
  destruct (first_turn_sets_running (Sample.world_of [Answer (Sample.xp_reply 0)] 0)
              wk eq_refl) as [(Hpc & Hrun & _)|(Hpc & _)].
  - exact (conj Hpc Hrun).
  - discriminate Hpc.
Defined.



(** X18. A pass that leaves the worker in its loop ends asleep: the last
    event of the pass is a sleep, of the poll interval when the profile is
    paused and of at least GLOBAL_MIN_DELAY when it is not, whatever delay
    the profile was given. *)
Theorem loop_pass_ends_asleep t t' :
  iteration t = (Ok PcLoop, t') ->
  exists d, last (trace_of t') = Some (EvSleep d)
            /\ if paused (prof t) then d = POLL_INTERVAL
               else (GLOBAL_MIN_DELAY <= d)%Q.
Proof.
  intros Hit.
  destruct (running (prof t)) eqn:Hrun.
  2:{ unfold iteration in Hit. cbv [bind the_prof] in Hit. by rewrite Hrun in Hit. }
  destruct (paused (prof t)) eqn:Hpause.
  { unfold iteration in Hit. cbv [bind the_prof] in Hit.
    rewrite Hrun, Hpause in Hit. cbn in Hit. injection Hit as <-.
    exists POLL_INTERVAL. split; [|done]. unfold trace_of. cbn. apply last_snoc. }
  destruct (strategy t) as [[[]|e] t1] eqn:Hs.
  - rewrite (iteration_ok t t1 Hrun Hpause Hs) in Hit. injection Hit as <-.
    pose proof (sleep_with_jitter_frame
                  (c_delay (client (_check_targets (prof t1)))) (world t1))
      as (_ & _ & _ & _ & _ & _ & _ & _ & Htr).
    exists (sleep_time (c_delay (client (_check_targets (prof t1))))
              (rand (world t1) (draws (world t1)))).
    split; [|unfold sleep_time; apply Q.le_max_l].
    change (trace_of _) with
      (trace (snd (_sleep_with_jitter (c_delay (client (_check_targets (prof t1))))
                     (world t1)))).
    rewrite Htr. apply last_snoc.
  - by rewrite (iteration_raise t t1 e Hrun Hpause Hs) in Hit.
Qed.

Lemma loop_pass_ends_asleep_witness :
  let t := {| prof := Sample.profile "gem" true false Sample.no_goals;
              world := Sample.world_of [Answer (Sample.reply 200)] 0 |} in
  fst (iteration t) = Ok PcLoop
  /\ exists d, last (trace_of (snd (iteration t))) = Some (EvSleep d)
               /\ (GLOBAL_MIN_DELAY <= d)%Q.
Proof.
  intros t. split; [reflexivity|].
  apply (loop_pass_ends_asleep t (snd (iteration t))). reflexivity.
Defined.

(** X19. The goal check is idempotent, never sets the running flag, and
    changes a profile only by stopping it: a profile that is running after
    the check is the profile that went in; with no threshold set the check
    changes nothing. *)
Theorem check_targets_idempotent p :
  _check_targets (_check_targets p) = _check_targets p
  /\ (running (_check_targets p) = true -> _check_targets p = p)
  /\ (no_goal (goals p) -> _check_targets p = p).
Proof.
  unfold _check_targets.
  destruct (c_user (client p)) as [u|] eqn:Hu; [|by rewrite Hu].
  destruct (targets_done p u) eqn:Hd.
  - cbn. rewrite Hu. split; [|split; [done|]].
    + assert (Hd' : targets_done
                      (with_last_msg MsgTargets (with_running false p)) u = true)
        by exact Hd.
      by rewrite Hd'.
    + intros (Hx & Hg & Hs). unfold targets_done, reached in Hd.
      by rewrite Hx, Hg, Hs in Hd.
  - by rewrite Hu, Hd.
Qed.

(** X20. The [finally] block ends the task whatever its fetch does: no
    exception leaves it, the turn adds nothing to the history but the fetch
    of the user's record, and the profile comes out as it went in, but for
    the user when one was fetched. *)
Theorem finally_ends_task w wk :
  pc wk = PcFinally ->
  let wk' := worker_step w wk in
  pc wk' = PcDone
  /\ (wprof wk' = wprof wk
      \/ exists u, wprof wk'
                   = with_client (with_user (Some u) (client (wprof wk))) (wprof wk))
  /\ exists mid,
       history wk' = (history wk ++ EvCall CUserInfo :: mid)%list
       /\ calls mid = []
       /\ Forall is_user_fetch (requests mid).
Proof.
  intros Hpc wk'. subst wk'. unfold worker_step, turn. rewrite Hpc.
  destruct (final_refresh_spec (resume_in w wk))
    as (Hres & mid & Htr & Hcalls & Hreqs & _ & Hprof).
  destruct (final_refresh (resume_in w wk)) as [[pc'|e] t1]; cbn [fst snd] in *;
    [|done].
  injection Hres as ->. cbn. split; [done|]. split; [exact Hprof|].
  exists mid. auto.
Qed.

Lemma finally_ends_task_witness :
  let a1 := snd (_handle_cmd Demo.lib "stop 1" Demo.rewarded) in
  let w := Sample.world_of [Answer (Sample.xp_reply 0)] 0 in
  let wk := worker_step w (default (new_worker Demo.lib 0 "" "" "" DEFAULT_DELAY)
                             (workers a1 !! 0%nat)) in
  pc wk = PcFinally /\ pc (worker_step w wk) = PcDone.
Proof.
  intros a1 w wk. split; [reflexivity|].
  exact (proj1 (finally_ends_task w wk eq_refl)).
Defined.

(** ** Input *)

Lemma set_targets_stdin i kvs : forall a,
  stdin (snd (set_targets i kvs a)) = stdin a.
Proof.
  induction kvs as [|kv rest IH]; intros a; [done|].
  cbn [set_targets]. rewrite run_bind.
  set (one := if String.prefix "xp=" kv then _ else _).
  assert (Hone : stdin (snd (one a)) = stdin a).
  { subst one. cbv [bind lift_result].
    repeat match goal with
    | |- context [if ?b then _ else _] => destruct b
    | |- context [match ?r with Ok _ => _ | Raise _ => _ end] => destruct r
    end; done. }
  destruct (one a) as [[[]|e] a1]; cbn [snd] in *; [|done].
  by rewrite IH.
Qed.

(** X21. [add] reads three lines of input, fewer when the input has
    ended, and appends one profile behind the others, which it leaves
    alone: the new profile has the next identifier, the first line
    stripped as its token, the second as its mode ([xp] when blank), is
    neither running nor paused, has no goal and no fetched user, and its
    task has not started. No other command reads input. *)
Theorem add_reads_three_lines lib cmd a :
  let a' := snd (_handle_cmd lib cmd a) in
  (forall rest, py_split cmd = "add" :: rest ->
     fst (_handle_cmd lib cmd a) = Ok tt
     /\ stdin a' = drop 3 (stdin a)
     /\ exists wk,
          workers a' = (workers a ++ [wk])%list
          /\ pid (wprof wk) = Z.of_nat (length (workers a)) + 1
          /\ jwt (wprof wk) = strip (default "" (stdin a !! 0%nat))
          /\ mode (wprof wk)
             = (if String.eqb (strip (default "" (stdin a !! 1%nat))) "" then "xp"
                else strip (default "" (stdin a !! 1%nat)))
          /\ running (wprof wk) = false /\ paused (wprof wk) = false
          /\ no_goal (goals (wprof wk))
          /\ c_user (client (wprof wk)) = None
          /\ pc wk = PcInit /\ history wk = [])
  /\ ((forall rest, py_split cmd <> "add" :: rest) -> stdin a' = stdin a).
Proof.
  intros a'. subst a'. split.
  - intros rest Hsplit. unfold _handle_cmd.
    destruct (String.eqb_spec cmd "") as [-> | _]; [done|]. rewrite Hsplit.
    cbv [bind get readline add_profile modify]. cbn.
    split; [done|]. split; [by destruct (stdin a) as [|? [|? [|? ?]]]|].
    eexists. split; [reflexivity|]. cbn.
    destruct (stdin a) as [|l1 [|l2 ?]]; by repeat split.
  - intros Hnot. unfold _handle_cmd.
    destruct (String.eqb cmd ""); [done|].
    destruct (py_split cmd) as [|verb args] eqn:Hsplit; [done|].
    destruct (String.eqb verb "quit"); [done|].
    destruct (String.eqb_spec verb "add") as [-> | _]; [by destruct (Hnot args)|].
    destruct (bool_decide (verb ∈ ["pause"; "resume"; "stop"])
              && bool_decide (2 <= length (verb :: args))%nat).
    { destruct (py_int _) as [n|e]; [|done].
      cbv [bind get]. destruct (find_profile n a) as [i|]; [|done].
      destruct (String.eqb verb "pause"); [done|].
      by destruct (String.eqb verb "resume"). }
    destruct (String.eqb verb "mode" && bool_decide (3 <= length (verb :: args))%nat).
    { cbv [bind get lift_result]. destruct (py_int _) as [n|e]; [|done].
      by destruct (find_profile n a) as [i|]. }
    destruct (String.eqb verb "targets" && bool_decide (2 <= length (verb :: args))%nat).
    { cbv [bind get lift_result]. destruct (py_int _) as [n|e]; [|done].
      destruct (find_profile n a) as [i|]; [|done].
      pose proof (set_targets_stdin i (drop 2 (verb :: args)) a) as Hset.
      by destruct (set_targets i (drop 2 (verb :: args)) a) as [[[]|e] a1]. }
    destruct (String.eqb verb "api" && bool_decide (2 <= length (verb :: args))%nat
              && String.eqb (default "" ((verb :: args) !! 1%nat)) "on"); [|done].
    unfold enable_api. by destruct (flask lib).
Qed.

Lemma add_reads_three_lines_witness :
  stdin (snd (_handle_cmd Demo.lib "add" Demo.start)) = []
  /\ stdin (snd (_handle_cmd Demo.lib "pause 1" Demo.start)) = stdin Demo.start.
Proof.
  split.
  - exact (proj1 (proj2 (proj1 (add_reads_three_lines Demo.lib "add" Demo.start)
                           [] eq_refl))).
  - apply (proj2 (add_reads_three_lines Demo.lib "pause 1" Demo.start)).
    intros rest H. discriminate H.
Defined.

Lemma decode_sub_second_segment_witness :
  _decode_sub Demo.lib "hps" = None
  /\ _decode_sub Demo.lib "h.p.s" = Some "7"
  /\ _decode_sub Demo.lib "x.p.y" = Some "7".
Proof.
  destruct (decode_sub_second_segment Demo.lib) as (H0 & _ & H2).
  split; [exact (H0 "hps" eq_refl)|].
  split; [exact (H2 "h" "p" "s" eq_refl eq_refl)|exact (H2 "x" "p" "y" eq_refl eq_refl)].
Defined.
